(** * URL-SHORTNER: the short-code allocation and resolution engine

    A shallow embedding of the Django application's core
    ([shortener/models.py], [shortener/utils.py], [url_shortener/forms.py],
    [url_shortener/views.py], [shortener/api_views.py]) and the properties
    the specification states about it.

    Conventions.
    - A Python [str] is a Rocq [string]; the properties below only inspect
      ASCII characters, a character outside ASCII is an opaque byte that no
      character class of the program contains.
    - The database is a pair of tables, each a list of rows in insertion
      order; a statement of the ORM is a function on the tables.
    - Code that raises returns a [result]; code that reads or writes the
      database, the random generator or the log runs in the monad [M]. *)

From Stdlib Require Import ZArith List Bool Ascii String Lia Arith DecimalString
  Sorted Permutation.
Import ListNotations.

Local Open Scope list_scope.
Local Open Scope string_scope.

(* ================================================================== *)
(** ** Python built-ins on strings *)

Module Py.

Definition LF : ascii := ascii_of_nat 10.
Definition CR : ascii := ascii_of_nat 13.
Definition TAB : ascii := ascii_of_nat 9.

Definition code (c : ascii) : nat := nat_of_ascii c.

Definition between (lo hi c : ascii) : bool :=
  (code lo <=? code c)%nat && (code c <=? code hi)%nat.

Definition is_lower (c : ascii) : bool := between "a" "z" c.
Definition is_upper (c : ascii) : bool := between "A" "Z" c.
Definition is_digit (c : ascii) : bool := between "0" "9" c.
Definition is_ascii (c : ascii) : bool := (code c <? 128)%nat.

(** [c.lower()] for one character. *)
Definition lower_char (c : ascii) : ascii :=
  if is_upper c then ascii_of_nat (code c + 32) else c.

(** [s.lower()]. *)
Fixpoint lower (s : string) : string :=
  match s with
  | EmptyString => EmptyString
  | String c s' => String (lower_char c) (lower s')
  end.

(** [bool(s)]: a string is true when it is not empty. *)
Definition truthy (s : string) : bool :=
  match s with EmptyString => false | String _ _ => true end.

(** [s.startswith(p)]. *)
Fixpoint startswith (p s : string) : bool :=
  match p, s with
  | EmptyString, _ => true
  | String a p', String b s' => Ascii.eqb a b && startswith p' s'
  | String _ _, EmptyString => false
  end.

(** [p in s] for strings: [p] occurs in [s]. *)
Fixpoint contains (p s : string) : bool :=
  startswith p s ||
  match s with
  | EmptyString => false
  | String _ s' => contains p s'
  end.

(** [c in s] for one character. *)
Fixpoint has_char (c : ascii) (s : string) : bool :=
  match s with
  | EmptyString => false
  | String a s' => Ascii.eqb a c || has_char c s'
  end.

(** [s[:n]]. *)
Fixpoint take (n : nat) (s : string) : string :=
  match n, s with
  | O, _ => EmptyString
  | S _, EmptyString => EmptyString
  | S n', String c s' => String c (take n' s')
  end.

(** [s[n:]]. *)
Fixpoint drop (n : nat) (s : string) : string :=
  match n, s with
  | O, _ => s
  | S _, EmptyString => EmptyString
  | S n', String _ s' => drop n' s'
  end.

(** The part of [s] before the first character that satisfies [p], and
    the rest, which starts at that character ([s.find] and a slice). *)
Fixpoint break (p : ascii -> bool) (s : string) : string * string :=
  match s with
  | EmptyString => (EmptyString, EmptyString)
  | String c s' =>
      if p c then (EmptyString, s)
      else let (a, b) := break p s' in (String c a, b)
  end.

(** [s.split(sep, 1)] when [sep in s]: the text before the first [sep]
    and the text after it; [None] when [sep] does not occur. *)
Fixpoint split1 (sep : ascii) (s : string) : option (string * string) :=
  match s with
  | EmptyString => None
  | String c s' =>
      if Ascii.eqb c sep then Some (EmptyString, s')
      else match split1 sep s' with
           | Some (a, b) => Some (String c a, b)
           | None => None
           end
  end.

(** [s.replace(c, "")]. *)
Fixpoint remove_char (c : ascii) (s : string) : string :=
  match s with
  | EmptyString => EmptyString
  | String a s' =>
      if Ascii.eqb a c then remove_char c s' else String a (remove_char c s')
  end.

(** The ASCII characters [str.strip()] removes: tab to carriage return,
    the four separators and the space. *)
Definition is_space (c : ascii) : bool :=
  ((9 <=? code c)%nat && (code c <=? 13)%nat)
  || ((28 <=? code c)%nat && (code c <=? 32)%nat).

Fixpoint lstrip (s : string) : string :=
  match s with
  | EmptyString => EmptyString
  | String c s' => if is_space c then lstrip s' else s
  end.

(** [s.rstrip()]: a character is dropped when it and everything after
    it is white space. *)
Fixpoint rstrip (s : string) : string :=
  match s with
  | EmptyString => EmptyString
  | String c s' =>
      match rstrip s' with
      | EmptyString => if is_space c then EmptyString else String c EmptyString
      | r => String c r
      end
  end.

Definition strip (s : string) : string := rstrip (lstrip s).

(** [all(p(c) for c in s)]. *)
Fixpoint all (p : ascii -> bool) (s : string) : bool :=
  match s with
  | EmptyString => true
  | String c s' => p c && all p s'
  end.

(** [x in xs] for a list of strings. *)
Definition mem (x : string) (xs : list string) : bool :=
  existsb (String.eqb x) xs.

(** [bool(x)] for a string that may be [None]. *)
Definition truthy_opt (x : option string) : bool :=
  match x with
  | Some s => truthy s
  | None => false
  end.

(** [x or y] on strings. *)
Definition or_else (x : option string) (y : string) : string :=
  match x with
  | Some s => if truthy s then s else y
  | None => y
  end.

End Py.

(* ================================================================== *)
(** ** [hashlib.md5] (RFC 1321) *)

Module Hashlib.

Local Open Scope Z_scope.
Local Open Scope list_scope.

Definition w32 (x : Z) : Z := x mod 2 ^ 32.

Definition rotl32 (x c : Z) : Z :=
  w32 (Z.lor (Z.shiftl x c) (Z.shiftr x (32 - c))).

Definition not32 (x : Z) : Z := Z.lxor x 0xFFFFFFFF.

(** Per-round shift amounts. *)
Definition S_table : list Z :=
  [7; 12; 17; 22; 7; 12; 17; 22; 7; 12; 17; 22; 7; 12; 17; 22;
   5;  9; 14; 20; 5;  9; 14; 20; 5;  9; 14; 20; 5;  9; 14; 20;
   4; 11; 16; 23; 4; 11; 16; 23; 4; 11; 16; 23; 4; 11; 16; 23;
   6; 10; 15; 21; 6; 10; 15; 21; 6; 10; 15; 21; 6; 10; 15; 21].

(** [floor(2^32 * abs(sin(i + 1)))]. *)
Definition K_table : list Z :=
  [0xd76aa478; 0xe8c7b756; 0x242070db; 0xc1bdceee;
   0xf57c0faf; 0x4787c62a; 0xa8304613; 0xfd469501;
   0x698098d8; 0x8b44f7af; 0xffff5bb1; 0x895cd7be;
   0x6b901122; 0xfd987193; 0xa679438e; 0x49b40821;
   0xf61e2562; 0xc040b340; 0x265e5a51; 0xe9b6c7aa;
   0xd62f105d; 0x02441453; 0xd8a1e681; 0xe7d3fbc8;
   0x21e1cde6; 0xc33707d6; 0xf4d50d87; 0x455a14ed;
   0xa9e3e905; 0xfcefa3f8; 0x676f02d9; 0x8d2a4c8a;
   0xfffa3942; 0x8771f681; 0x6d9d6122; 0xfde5380c;
   0xa4beea44; 0x4bdecfa9; 0xf6bb4b60; 0xbebfbc70;
   0x289b7ec6; 0xeaa127fa; 0xd4ef3085; 0x04881d05;
   0xd9d4d039; 0xe6db99e5; 0x1fa27cf8; 0xc4ac5665;
   0xf4292244; 0x432aff97; 0xab9423a7; 0xfc93a039;
   0x655b59c3; 0x8f0ccc92; 0xffeff47d; 0x85845dd1;
   0x6fa87e4f; 0xfe2ce6e0; 0xa3014314; 0x4e0811a1;
   0xf7537e82; 0xbd3af235; 0x2ad7d2bb; 0xeb86d391].

(** [s.encode()]: the bytes of the string. *)
Fixpoint encode (s : string) : list Z :=
  match s with
  | EmptyString => []
  | String c s' => Z.of_nat (nat_of_ascii c) :: encode s'
  end.

(** The [n] low bytes of [x], least significant first. *)
Fixpoint le_bytes (n : nat) (x : Z) : list Z :=
  match n with
  | O => []
  | S n' => x mod 256 :: le_bytes n' (x / 256)
  end.

(** The word whose bytes, least significant first, are [bs]. *)
Fixpoint le_word (bs : list Z) : Z :=
  match bs with
  | [] => 0
  | b :: bs' => b + 256 * le_word bs'
  end.

(** The message, a 1 bit, zeros up to 56 modulo 64 bytes, and the length
    in bits as 64 bits, least significant byte first. *)
Definition pad (msg : list Z) : list Z :=
  let n := Z.of_nat (List.length msg) in
  let zeros := Z.to_nat ((55 - n) mod 64) in
  msg ++ [0x80] ++ repeat 0 zeros ++ le_bytes 8 ((8 * n) mod 2 ^ 64).

(** The sixteen words of one 64-byte block. *)
Fixpoint words (n : nat) (block : list Z) : list Z :=
  match n with
  | O => []
  | S n' => le_word (firstn 4 block) :: words n' (skipn 4 block)
  end.

Record state := State { sA : Z; sB : Z; sC : Z; sD : Z }.

Definition init : state :=
  State 0x67452301 0xefcdab89 0x98badcfe 0x10325476.

(** One of the 64 operations on the block [m]. *)
Definition round (m : list Z) (st : state) (i : nat) : state :=
  let '(State a b c d) := st in
  let iz := Z.of_nat i in
  let '(f, g) :=
    if (i <? 16)%nat then (Z.lor (Z.land b c) (Z.land (not32 b) d), iz)
    else if (i <? 32)%nat then
      (Z.lor (Z.land d b) (Z.land (not32 d) c), (5 * iz + 1) mod 16)
    else if (i <? 48)%nat then (Z.lxor (Z.lxor b c) d, (3 * iz + 5) mod 16)
    else (Z.lxor c (Z.lor b (not32 d)), (7 * iz) mod 16) in
  let f' := w32 (f + a + nth i K_table 0 + nth (Z.to_nat g) m 0) in
  State d (w32 (b + rotl32 f' (nth i S_table 0))) b c.

Definition compress (st : state) (block : list Z) : state :=
  let m := words 16 block in
  let '(State a b c d) := fold_left (round m) (seq 0 64) st in
  State (w32 (sA st + a)) (w32 (sB st + b))
        (w32 (sC st + c)) (w32 (sD st + d)).

(** The blocks of the padded message, one after the other; [n] bounds
    their number. *)
Fixpoint blocks (n : nat) (st : state) (bytes : list Z) : state :=
  match n, bytes with
  | S n', _ :: _ => blocks n' (compress st (firstn 64 bytes)) (skipn 64 bytes)
  | _, _ => st
  end.

(** [hashlib.md5(msg).digest()]: sixteen bytes. *)
Definition md5 (msg : list Z) : list Z :=
  let p := pad msg in
  let '(State a b c d) := blocks (List.length p) init p in
  le_bytes 4 a ++ le_bytes 4 b ++ le_bytes 4 c ++ le_bytes 4 d.

Definition hexdigits : list ascii :=
  list_ascii_of_string "0123456789abcdef".

Definition hex_digit (n : Z) : ascii :=
  nth (Z.to_nat (n mod 16)) hexdigits "0"%char.

Fixpoint hex (bytes : list Z) : string :=
  match bytes with
  | [] => EmptyString
  | b :: bs => String (hex_digit (b / 16)) (String (hex_digit b) (hex bs))
  end.

(** [hashlib.md5(s.encode()).hexdigest()]. *)
Definition md5_hexdigest (s : string) : string := hex (md5 (encode s)).

End Hashlib.

(* ================================================================== *)
(** ** The fragment of [re] the program uses

    A pattern is a sequence of atoms: the anchors [^] and [$] and a
    character class with a repetition count ([[a-z]+], [[0-9]{1,3}],
    [\.], [[a-z0-9]{20,}]).  The matcher backtracks over the number of
    characters a repetition takes. *)

Module Re.

Inductive atom :=
| Bol                                   (* ^ *)
| Eol                                   (* $ *)
| Rep (cls : ascii -> bool) (lo : nat) (hi : option nat).  (* cls{lo,hi} *)

Definition pattern := list atom.

Definition plus (cls : ascii -> bool) : atom := Rep cls 1 None.
Definition lit (c : ascii) : atom := Rep (Ascii.eqb c) 1 (Some 1%nat).

(** [$] matches at the end of the string and just before a newline that
    is the last character of the string. *)
Definition at_eol (s : string) : bool :=
  match s with
  | EmptyString => true
  | String c EmptyString => Ascii.eqb c Py.LF
  | _ => false
  end.

Definition may_take (hi : option nat) : bool :=
  match hi with
  | None => true
  | Some h => (0 <? h)%nat
  end.

Definition after_take (hi : option nat) : option nat :=
  match hi with
  | None => None
  | Some h => Some (pred h)
  end.

(** [rep cls lo hi k pos s]: some number [n] of characters of [s], all
    in [cls], with [lo <= n <= hi], can be taken so that the
    continuation [k] accepts what follows.  Longer takes are tried
    first. *)
Fixpoint rep (cls : ascii -> bool) (lo : nat) (hi : option nat)
         (k : nat -> string -> bool) (pos : nat) (s : string) : bool :=
  let stop := (lo =? 0)%nat && k pos s in
  match s with
  | EmptyString => stop
  | String c s' =>
      (cls c && may_take hi && rep cls (pred lo) (after_take hi) k (S pos) s')
      || stop
  end.

(** The pattern matches a prefix of [s], which starts at offset [pos]
    of the subject. *)
Fixpoint match_here (p : pattern) (pos : nat) (s : string) : bool :=
  match p with
  | [] => true
  | Bol :: p' => (pos =? 0)%nat && match_here p' pos s
  | Eol :: p' => at_eol s && match_here p' pos s
  | Rep cls lo hi :: p' => rep cls lo hi (match_here p') pos s
  end.

(** [re.match(p, s)] as a truth value. *)
Definition re_match (p : pattern) (s : string) : bool := match_here p 0 s.

Fixpoint search_from (p : pattern) (pos : nat) (s : string) : bool :=
  match_here p pos s ||
  match s with
  | EmptyString => false
  | String _ s' => search_from p (S pos) s'
  end.

(** [re.search(p, s)] as a truth value. *)
Definition re_search (p : pattern) (s : string) : bool := search_from p 0 s.

End Re.

(* ================================================================== *)
(** ** [urllib.parse]: [urlparse] and [urlunparse]

    The functions as CPython defines them, for a [str] argument and the
    default [scheme=''] and [allow_fragments=True].  Two checks of
    [urlsplit] consult tables this development does not contain (the
    Unicode normalisation of a network location outside ASCII, and the
    address syntax of a bracketed host); they are fields of [checks], so
    that a property holds whatever they answer. *)

Module Urllib.

Local Open Scope string_scope.

Record checks := {
  (** [_checknetloc] accepts this network location, which is not ASCII. *)
  nfkc_ok : string -> bool;
  (** The check of the bracketed host ([_check_bracketed_host] since
      CPython 3.11.4) accepts this network location, which has both
      brackets. *)
  bracketed_ok : string -> bool
}.

(** CPython before 3.11.4 does not look between the brackets; a network
    location of ASCII characters never reaches the normalisation. *)
Definition lenient : checks :=
  {| nfkc_ok := fun _ => true; bracketed_ok := fun _ => true |}.

Record ParseResult := {
  scheme : string;
  netloc : string;
  path : string;
  params : string;
  query : string;
  fragment : string
}.

Inductive result (A : Type) :=
| Ok (a : A)
| ValueError (msg : string).
Arguments Ok {A} a.
Arguments ValueError {A} msg.

(** [scheme_chars]: letters, digits and [+-.]. *)
Definition is_scheme_char (c : ascii) : bool :=
  Py.is_lower c || Py.is_upper c || Py.is_digit c
  || Ascii.eqb c "+" || Ascii.eqb c "-" || Ascii.eqb c ".".

(** [_WHATWG_C0_CONTROL_OR_SPACE]: the characters up to the space. *)
Definition is_c0_or_space (c : ascii) : bool := (Py.code c <=? 32)%nat.

Fixpoint lstrip_c0 (s : string) : string :=
  match s with
  | EmptyString => EmptyString
  | String c s' => if is_c0_or_space c then lstrip_c0 s' else s
  end.

(** [_UNSAFE_URL_BYTES_TO_REMOVE]: tab, carriage return, newline. *)
Definition remove_unsafe (s : string) : string :=
  Py.remove_char Py.LF (Py.remove_char Py.CR (Py.remove_char Py.TAB s)).

Definition is_netloc_delim (c : ascii) : bool :=
  Ascii.eqb c "/" || Ascii.eqb c "?" || Ascii.eqb c "#".

(** [_splitnetloc(url, 2)] on the text after the two slashes. *)
Definition splitnetloc (after_slashes : string) : string * string :=
  Py.break is_netloc_delim after_slashes.

(** The scheme of [url] and what follows its colon, when the text before
    the first colon is a scheme. *)
Definition split_scheme (url : string) : string * string :=
  match Py.split1 ":" url with
  | Some (String c0 rest as before, after) =>
      if Py.is_ascii c0 && (Py.is_lower c0 || Py.is_upper c0)
         && Py.all is_scheme_char before
      then (Py.lower before, after)
      else (EmptyString, url)
  | _ => (EmptyString, url)
  end.

(** The five parts of [urlsplit]. *)
Definition urlsplit (lib : checks) (url0 : string)
  : result (string * string * string * string * string) :=
  let url := remove_unsafe (lstrip_c0 url0) in
  let (sch, url1) := split_scheme url in
  let (net, url2) :=
    if Py.startswith "//" url1 then splitnetloc (Py.drop 2 url1)
    else (EmptyString, url1) in
  let open_b := Py.has_char "[" net in
  let close_b := Py.has_char "]" net in
  if (open_b && negb close_b) || (close_b && negb open_b)
  then ValueError "Invalid IPv6 URL"
  else if open_b && close_b && negb (bracketed_ok lib net)
  then ValueError "Invalid bracketed host"
  else
    let (url3, frag) :=
      match Py.split1 "#" url2 with
      | Some (a, b) => (a, b)
      | None => (url2, EmptyString)
      end in
    let (url4, qry) :=
      match Py.split1 "?" url3 with
      | Some (a, b) => (a, b)
      | None => (url3, EmptyString)
      end in
    if Py.truthy net && negb (Py.all Py.is_ascii net) && negb (nfkc_ok lib net)
    then ValueError "netloc contains invalid characters under NFKC normalization"
    else Ok (sch, net, url4, qry, frag).

(** The text after the last [/] of [s], and what precedes it with that
    slash ([url.rfind('/')]). *)
Fixpoint last_segment (s : string) : string * string :=
  match s with
  | EmptyString => (EmptyString, EmptyString)
  | String c s' =>
      let (before, seg) := last_segment s' in
      if Py.has_char "/" s then
        (String c before, seg)
      else (EmptyString, s)
  end.

(** [_splitparams]: the parameters follow the first [;] of the last path
    segment. *)
Definition splitparams (url : string) : string * string :=
  let (before, seg) := last_segment url in
  match Py.split1 ";" seg with
  | Some (a, b) => (before ++ a, b)
  | None => (url, EmptyString)
  end.

Definition uses_params : list string :=
  [""; "ftp"; "hdl"; "prospero"; "http"; "imap"; "https"; "shttp"; "rtsp";
   "rtspu"; "sip"; "sips"; "mms"; "sftp"; "tel"].

Definition uses_netloc : list string :=
  [""; "ftp"; "http"; "gopher"; "nntp"; "telnet"; "imap"; "wais"; "file";
   "mms"; "https"; "shttp"; "snews"; "prospero"; "rtsp"; "rtspu"; "rsync";
   "svn"; "svn+ssh"; "sftp"; "nfs"; "git"; "git+ssh"; "ws"; "wss"].

Definition urlparse (lib : checks) (url : string) : result ParseResult :=
  match urlsplit lib url with
  | ValueError m => ValueError m
  | Ok (sch, net, u, qry, frag) =>
      let (p, prm) :=
        if Py.mem sch uses_params && Py.has_char ";" u
        then splitparams u else (u, EmptyString) in
      Ok {| scheme := sch; netloc := net; path := p; params := prm;
            query := qry; fragment := frag |}
  end.

Definition urlunsplit (sch net url qry frag : string) : string :=
  let url1 :=
    if Py.truthy net
       || (Py.truthy sch && Py.mem sch uses_netloc
           && negb (Py.startswith "//" url))
    then
      let u := if Py.truthy url && negb (Py.startswith "/" url)
               then "/" ++ url else url in
      "//" ++ net ++ u
    else url in
  let url2 := if Py.truthy sch then sch ++ ":" ++ url1 else url1 in
  let url3 := if Py.truthy qry then url2 ++ "?" ++ qry else url2 in
  if Py.truthy frag then url3 ++ "#" ++ frag else url3.

Definition urlunparse (r : ParseResult) : string :=
  let url := if Py.truthy (params r)
             then path r ++ ";" ++ params r else path r in
  urlunsplit (scheme r) (netloc r) url (query r) (fragment r).

End Urllib.

(* ================================================================== *)
(** ** Exceptions *)

Module Exn.

Local Open Scope string_scope.

Inductive exn :=
| ValidationError (msg : string)     (* django.core.exceptions *)
| ValueError (msg : string)
| Http404 (msg : string)
| IntegrityError (msg : string)      (* a constraint of the schema *)
| DatabaseError (msg : string)       (* the storage is unavailable *)
| DoesNotExist
| IndexError (msg : string)
| UserAgentError (msg : string).     (* raised inside user_agents.parse *)

(** [str(e)].  A [ValidationError] built from one message prints as the
    list of its messages. *)
Definition str (e : exn) : string :=
  match e with
  | ValidationError m => "['" ++ m ++ "']"
  | ValueError m | Http404 m | IntegrityError m | DatabaseError m
  | IndexError m | UserAgentError m => m
  | DoesNotExist => "URLShortener matching query does not exist."
  end.

Inductive result (A : Type) :=
| Return (a : A)
| Raise (e : exn).
Arguments Return {A} a.
Arguments Raise {A} e.

End Exn.

(* ================================================================== *)
(** ** [shortener/utils.py] *)

Module Utils.

Import Exn.
Local Open Scope string_scope.

(** [validate_url(url)]: validate and normalize a URL. *)
Definition validate_url (lib : Urllib.checks) (url : string) : result string :=
  if negb (Py.truthy url) then Raise (ValidationError "URL cannot be empty")
  else
    (* Add protocol if missing *)
    let url := if negb (Py.startswith "http://" url
                        || Py.startswith "https://" url)
               then "https://" ++ url else url in
    (* Parse URL to validate structure; whatever is raised inside the
       [try] leaves as a [ValidationError] *)
    match Urllib.urlparse lib url with
    | Urllib.ValueError m => Raise (ValidationError ("Invalid URL: " ++ m))
    | Urllib.Ok parsed =>
        if negb (Py.truthy (Urllib.netloc parsed))
        then Raise (ValidationError
                      ("Invalid URL: " ++ str (ValidationError "Invalid URL format")))
        else
          (* Reconstruct URL to normalize it *)
          Return (Urllib.urlunparse
                    {| Urllib.scheme := Urllib.scheme parsed;
                       Urllib.netloc := Py.lower (Urllib.netloc parsed);
                       Urllib.path := Urllib.path parsed;
                       Urllib.params := Urllib.params parsed;
                       Urllib.query := Urllib.query parsed;
                       Urllib.fragment := Urllib.fragment parsed |})
    end.

Definition dangerous_domains : list string :=
  ["bit.ly"; "tinyurl.com"; "short.link"; "malware-example.com"].

Definition lower_or_digit (c : ascii) : bool := Py.is_lower c || Py.is_digit c.

(** [r'[0-9]{1,3}\.[0-9]{1,3}\.[0-9]{1,3}\.[0-9]{1,3}'] and
    [r'[a-z0-9]{20,}']. *)
Definition suspicious_patterns : list Re.pattern :=
  [ [Re.Rep Py.is_digit 1 (Some 3%nat); Re.lit ".";
     Re.Rep Py.is_digit 1 (Some 3%nat); Re.lit ".";
     Re.Rep Py.is_digit 1 (Some 3%nat); Re.lit ".";
     Re.Rep Py.is_digit 1 (Some 3%nat)];
    [Re.Rep lower_or_digit 20 None] ].

(** [is_safe_url(url)]. *)
Definition is_safe_url (lib : Urllib.checks) (url : string) : bool :=
  match Urllib.urlparse lib url with
  | Urllib.ValueError _ => false
  | Urllib.Ok parsed =>
      let domain := Py.lower (Urllib.netloc parsed) in
      if existsb (fun dangerous => Py.contains dangerous domain) dangerous_domains
      then false
      else if existsb (fun pattern => Re.re_search pattern domain)
                      suspicious_patterns
      then false
      else true
  end.

(** What [user_agents.parse] answers. *)
Record UserAgent := {
  is_mobile : bool;
  is_tablet : bool;
  is_pc : bool;
  browser_family : string;
  browser_version_string : string;
  os_family : string;
  os_version_string : string
}.

Record ua_info := {
  device_type : string;
  browser : string;
  os : string
}.

Definition unknown_ua : ua_info :=
  {| device_type := "unknown"; browser := "unknown"; os := "unknown" |}.

(** [parse_user_agent(user_agent_string)].  [parse] is the library's
    parser; every exception it raises is caught here. *)
Definition parse_user_agent (parse : string -> result UserAgent)
           (user_agent_string : string) : ua_info :=
  if negb (Py.truthy user_agent_string) then unknown_ua
  else
    match parse user_agent_string with
    | Raise _ => unknown_ua
    | Return user_agent =>
        let device_type :=
          if is_mobile user_agent then "mobile"
          else if is_tablet user_agent then "tablet"
          else if is_pc user_agent then "desktop"
          else "unknown" in
        let browser :=
          if Py.truthy (browser_version_string user_agent)
          then browser_family user_agent ++ " " ++ browser_version_string user_agent
          else browser_family user_agent in
        let os :=
          if Py.truthy (os_version_string user_agent)
          then os_family user_agent ++ " " ++ os_version_string user_agent
          else os_family user_agent in
        {| device_type := device_type;
           browser := Py.take 100 browser;
           os := Py.take 100 os |}
    end.

(** [request.META], the entries the program reads, and the attribute
    [geo_data] a middleware may have set. *)
Record HttpRequest := {
  HTTP_X_FORWARDED_FOR : option string;
  REMOTE_ADDR : option string;
  HTTP_USER_AGENT : option string;
  HTTP_REFERER : option string;
  geo_data : option (option string * option string)   (* country, city *)
}.

(** [get_client_ip(request)]. *)
Definition get_client_ip (request : HttpRequest) : option string :=
  match HTTP_X_FORWARDED_FOR request with
  | Some (String _ _ as x_forwarded_for) =>
      Some (Py.strip (fst (Py.break (Ascii.eqb ",") x_forwarded_for)))
  | _ => REMOTE_ADDR request
  end.

Definition alias_char (c : ascii) : bool :=
  Py.is_lower c || Py.is_upper c || Py.is_digit c
  || Ascii.eqb c "_" || Ascii.eqb c "-".

(** [r'^[a-zA-Z0-9_-]+$']. *)
Definition alias_pattern : Re.pattern := [Re.Bol; Re.plus alias_char; Re.Eol].

Definition reserved_words : list string :=
  ["admin"; "api"; "www"; "mail"; "ftp"; "localhost";
   "dashboard"; "analytics"; "stats"; "help"; "support";
   "about"; "contact"; "privacy"; "terms"; "login"; "register"].

(** [is_valid_custom_alias(alias)]; [None] is Python's [None]. *)
Definition is_valid_custom_alias (alias : option string) : bool :=
  match alias with
  | None | Some EmptyString => true   (* Empty alias is valid *)
  | Some alias =>
      (* Check length *)
      if (String.length alias <? 3)%nat || (50 <? String.length alias)%nat
      then false
      (* Check format *)
      else if negb (Re.re_match alias_pattern alias) then false
      (* Check for reserved words *)
      else if Py.mem (Py.lower alias) reserved_words then false
      else true
  end.

End Utils.

(* ================================================================== *)
(** ** [shortener/models.py] *)

Module Models.

Import Exn.
Local Open Scope string_scope.

(** A row of [URLShortener]; [id] is [None] until the row is inserted.
    Times are instants on the clock of [timezone.now()]. *)
Record URLShortener := {
  id : option nat;
  original_url : string;
  short_code : string;
  custom_alias : option string;
  click_count : nat;
  created_at : Z;
  updated_at : Z;
  expires_at : option Z;
  created_by : option nat;
  title : string;
  description : string;
  domain : string;
  is_active : bool;
  is_public : bool;
  category : option nat
}.

(** A row of [URLClick]. *)
Record URLClick := {
  click_id : option nat;
  url : option nat;                 (* the key of the URLShortener row *)
  ip_address : option string;       (* NOT NULL in the schema *)
  user_agent : string;
  referer : option string;
  country : string;
  city : string;
  click_device_type : string;
  click_browser : string;
  click_os : string;
  click_created_at : Z
}.

(** The two tables, rows in insertion order, and the last key each table
    handed out. *)
Record Database := {
  urlshortener_table : list URLShortener;
  urlclick_table : list URLClick;
  urlshortener_seq : nat;
  urlclick_seq : nat
}.

Inductive level := INFO | WARNING | ERROR.

(** What a request can change: the database, the position in the stream
    of the random generator, the log. *)
Record World := {
  db : Database;
  entropy : nat -> nat;
  drawn : nat;
  log : list (level * string)
}.

(** The statements the program sends to the database. *)
Inductive stmt :=
| SelectCodeExists      (* generate_short_code: filter(short_code=code).exists() *)
| InsertURL             (* objects.create *)
| UpdateURL             (* save(update_fields=...) *)
| SelectURLByKey        (* filter(Q(short_code)|Q(custom_alias), is_active=True).first() *)
| SelectURLByPk         (* refresh_from_db *)
| SelectExisting        (* filter(original_url=..., is_active=True, ...).first() *)
| SelectAliasTaken      (* clean_custom_alias *)
| InsertClick.          (* URLClick.objects.create *)

(** What a request finds around it: the clock, the settings, the
    libraries, the network, and the statements that fail because the
    storage is unavailable while it runs. *)
Record Env := {
  now : Z;
  now_isoformat : string;                   (* timezone.now().isoformat() *)
  outage : stmt -> bool;
  site_domain : option string;              (* Site.objects.get_current().domain,
                                               [None] when that raises *)
  DEBUG : bool;                             (* settings.DEBUG *)
  urllib : Urllib.checks;
  user_agents_parse : string -> result Utils.UserAgent;
  get_url_metadata : string -> string * string    (* title, description *)
}.

(** *** The monad of a request *)

Definition M (A : Type) : Type := World -> result A * World.

Definition ret {A} (a : A) : M A := fun w => (Return a, w).

Definition bind {A B} (m : M A) (k : A -> M B) : M B :=
  fun w => match m w with
           | (Return a, w') => k a w'
           | (Raise e, w') => (Raise e, w')
           end.

Definition raise {A} (e : exn) : M A := fun w => (Raise e, w).

(** [try: m except Exception as e: handler(e)]. *)
Definition try_except {A} (m : M A) (handler : exn -> M A) : M A :=
  fun w => match m w with
           | (Return a, w') => (Return a, w')
           | (Raise e, w') => handler e w'
           end.

Definition lift {A} (r : result A) : M A := fun w => (r, w).

Definition get_db : M Database := fun w => (Return (db w), w).

Definition put_db (d : Database) : M unit :=
  fun w => (Return tt, {| db := d; entropy := entropy w;
                          drawn := drawn w; log := log w |}).

(** [logger.info], [logger.warning], [logger.error]. *)
Definition logger (l : level) (msg : string) : M unit :=
  fun w => (Return tt, {| db := db w; entropy := entropy w;
                          drawn := drawn w; log := (log w ++ [(l, msg)])%list |}).

(** [with transaction.atomic(): m]: an exception that leaves the block
    undoes what the block wrote to the database. *)
Definition atomic {A} (m : M A) : M A :=
  fun w => match m w with
           | (Return a, w') => (Return a, w')
           | (Raise e, w') =>
               (Raise e, {| db := db w; entropy := entropy w';
                            drawn := drawn w'; log := log w' |})
           end.

Declare Scope monad_scope.
Delimit Scope monad_scope with monad.
Notation "x <- m ;; k" := (bind m (fun x => k))
  (at level 61, m at next level, right associativity) : monad_scope.
Notation "m ;;; k" := (bind m (fun _ => k))
  (at level 61, right associativity) : monad_scope.
Local Open Scope monad_scope.

(** A statement reaches the database only when the storage is up. *)
Definition execute (env : Env) (s : stmt) : M unit :=
  if outage env s then raise (DatabaseError "database is unavailable")
  else ret tt.

(** *** Queries *)

Definition eqb_opt (a : option string) (b : string) : bool :=
  match a with
  | Some x => String.eqb x b
  | None => false
  end.

Definition is_null (a : option string) : bool :=
  match a with Some _ => false | None => true end.

Definition has_pk (pk : option nat) (r : URLShortener) : bool :=
  match id r, pk with
  | Some a, Some b => (a =? b)%nat
  | _, _ => false
  end.

(** [ORDER BY created_at DESC LIMIT 1] ([Meta.ordering] and [.first()]);
    of two rows created at the same instant the table's earlier one is
    taken. *)
Fixpoint first (rows : list URLShortener) : option URLShortener :=
  match rows with
  | [] => None
  | r :: rs =>
      match first rs with
      | Some r' => if (created_at r <? created_at r')%Z then Some r' else Some r
      | None => Some r
      end
  end.

(** [Q(short_code=key) | Q(custom_alias=key), is_active=True]. *)
Definition matches_key (key : string) (r : URLShortener) : bool :=
  (String.eqb (short_code r) key || eqb_opt (custom_alias r) key)
  && is_active r.

(** [original_url=u, is_active=True, custom_alias__isnull=True]. *)
Definition matches_existing (u : string) (r : URLShortener) : bool :=
  String.eqb (original_url r) u && is_active r && is_null (custom_alias r).

Definition select_first (env : Env) (s : stmt) (p : URLShortener -> bool)
  : M (option URLShortener) :=
  execute env s ;;;
  d <- get_db ;;
  ret (first (filter p (urlshortener_table d))).

Definition select_exists (env : Env) (s : stmt) (p : URLShortener -> bool)
  : M bool :=
  execute env s ;;;
  d <- get_db ;;
  ret (existsb p (urlshortener_table d)).

(** *** [INSERT] and [UPDATE] *)

Definition with_urls (d : Database) (rows : list URLShortener) (seq : nat)
  : Database :=
  {| urlshortener_table := rows; urlclick_table := urlclick_table d;
     urlshortener_seq := seq; urlclick_seq := urlclick_seq d |}.

Definition with_clicks (d : Database) (rows : list URLClick) (seq : nat)
  : Database :=
  {| urlshortener_table := urlshortener_table d; urlclick_table := rows;
     urlshortener_seq := urlshortener_seq d; urlclick_seq := seq |}.

(** The row as the [INSERT] stores it: a fresh key, and both
    [auto_now_add] and [auto_now] read the clock. *)
Definition inserted (env : Env) (pk : nat) (self : URLShortener) : URLShortener :=
  {| id := Some pk;
     original_url := original_url self; short_code := short_code self;
     custom_alias := custom_alias self; click_count := click_count self;
     created_at := now env; updated_at := now env;
     expires_at := expires_at self; created_by := created_by self;
     title := title self; description := description self;
     domain := domain self; is_active := is_active self;
     is_public := is_public self; category := category self |}.

(** A row of [rows] holds the [short_code] of [self]. *)
Definition same_short_code (self : URLShortener) (rows : list URLShortener)
  : bool :=
  existsb (fun r => String.eqb (short_code r) (short_code self)) rows.

(** A row of [rows] holds the [custom_alias] of [self], which is not
    null. *)
Definition same_custom_alias (self : URLShortener) (rows : list URLShortener)
  : bool :=
  existsb (fun r => match custom_alias self with
                    | Some a => eqb_opt (custom_alias r) a
                    | None => false
                    end) rows.

(** [INSERT INTO shortener_urlshortener]: [short_code] is unique, and so
    is [custom_alias] among the rows where it is not null.  An instance
    without a key takes the next one. *)
Definition insert_url (env : Env) (self : URLShortener) : M URLShortener :=
  execute env InsertURL ;;;
  d <- get_db ;;
  if same_short_code self (urlshortener_table d)
  then raise (IntegrityError
                "UNIQUE constraint failed: shortener_urlshortener.short_code")
  else if same_custom_alias self (urlshortener_table d)
  then raise (IntegrityError
                "UNIQUE constraint failed: shortener_urlshortener.custom_alias")
  else
    let pk := match id self with
              | Some pk => pk
              | None => S (urlshortener_seq d)
              end in
    let row := inserted env pk self in
    put_db (with_urls d (urlshortener_table d ++ [row])%list
                      (Nat.max pk (urlshortener_seq d))) ;;;
    ret row.

(** The row as a plain [save()] of an instance that has a key writes it:
    every column as the instance holds it, and [auto_now] reads the
    clock. *)
Definition stamped (env : Env) (self : URLShortener) : URLShortener :=
  {| id := id self;
     original_url := original_url self; short_code := short_code self;
     custom_alias := custom_alias self; click_count := click_count self;
     created_at := created_at self; updated_at := now env;
     expires_at := expires_at self; created_by := created_by self;
     title := title self; description := description self;
     domain := domain self; is_active := is_active self;
     is_public := is_public self; category := category self |}.

(** [UPDATE shortener_urlshortener SET <every column> WHERE id = pk], the
    first statement of a plain [save()] of an instance that has a key;
    [None] when no row has the key. *)
Definition update_row (env : Env) (self : URLShortener)
  : M (option URLShortener) :=
  execute env UpdateURL ;;;
  d <- get_db ;;
  let rows := urlshortener_table d in
  let others := filter (fun r => negb (has_pk (id self) r)) rows in
  if negb (existsb (has_pk (id self)) rows) then ret None
  else if same_short_code self others
  then raise (IntegrityError
                "UNIQUE constraint failed: shortener_urlshortener.short_code")
  else if same_custom_alias self others
  then raise (IntegrityError
                "UNIQUE constraint failed: shortener_urlshortener.custom_alias")
  else
    let row := stamped env self in
    put_db (with_urls d
              (map (fun r => if has_pk (id self) r then row else r) rows)
              (urlshortener_seq d)) ;;;
    ret (Some row).

(** What Django's [Model.save()] does without [update_fields]: an
    instance that has a key is updated, and inserted when no row has
    that key; an instance without a key is inserted. *)
Definition save_table (env : Env) (self : URLShortener) : M URLShortener :=
  match id self with
  | None => insert_url env self
  | Some _ =>
      updated <- update_row env self ;;
      match updated with
      | Some row => ret row
      | None => insert_url env self
      end
  end.

(** The columns [save(update_fields=...)] writes, each with the value
    the instance holds for it; for [click_count] that value is the
    expression [F('click_count') + delta], which the instance keeps
    until it is refreshed. *)
Inductive assignment :=
| SetClickCountF (delta : nat)
| SetTitle (v : string)
| SetDescription (v : string).

Definition assign (a : assignment) (r : URLShortener) : URLShortener :=
  match a with
  | SetClickCountF delta =>
      {| id := id r; original_url := original_url r; short_code := short_code r;
         custom_alias := custom_alias r; click_count := click_count r + delta;
         created_at := created_at r; updated_at := updated_at r;
         expires_at := expires_at r; created_by := created_by r;
         title := title r; description := description r; domain := domain r;
         is_active := is_active r; is_public := is_public r;
         category := category r |}
  | SetTitle v =>
      {| id := id r; original_url := original_url r; short_code := short_code r;
         custom_alias := custom_alias r; click_count := click_count r;
         created_at := created_at r; updated_at := updated_at r;
         expires_at := expires_at r; created_by := created_by r;
         title := v; description := description r; domain := domain r;
         is_active := is_active r; is_public := is_public r;
         category := category r |}
  | SetDescription v =>
      {| id := id r; original_url := original_url r; short_code := short_code r;
         custom_alias := custom_alias r; click_count := click_count r;
         created_at := created_at r; updated_at := updated_at r;
         expires_at := expires_at r; created_by := created_by r;
         title := title r; description := v; domain := domain r;
         is_active := is_active r; is_public := is_public r;
         category := category r |}
  end.

Definition assign_all (assignments : list assignment) (r : URLShortener)
  : URLShortener :=
  fold_left (fun r a => assign a r) assignments r.

(** [UPDATE shortener_urlshortener SET ... WHERE id = pk] with exactly
    the columns of [update_fields]: Django calls [pre_save] (where
    [auto_now] reads the clock) only for the columns it writes.  A save
    with [update_fields] that changes no row raises. *)
Definition update_url (env : Env) (pk : option nat)
           (assignments : list assignment) : M unit :=
  execute env UpdateURL ;;;
  d <- get_db ;;
  if existsb (has_pk pk) (urlshortener_table d)
  then put_db (with_urls d
                 (map (fun r => if has_pk pk r then assign_all assignments r else r)
                      (urlshortener_table d))
                 (urlshortener_seq d))
  else raise (DatabaseError "Save with update_fields did not affect any rows.").

(** [self.refresh_from_db()]. *)
Definition refresh_from_db (env : Env) (self : URLShortener) : M URLShortener :=
  execute env SelectURLByPk ;;;
  d <- get_db ;;
  match find (has_pk (id self)) (urlshortener_table d) with
  | Some r => ret r
  | None => raise DoesNotExist
  end.

(** *** [URLShortener.generate_short_code] *)

(** [string.ascii_letters + string.digits]. *)
Definition characters : list ascii :=
  list_ascii_of_string
    "abcdefghijklmnopqrstuvwxyzABCDEFGHIJKLMNOPQRSTUVWXYZ0123456789".

(** [random.choice(seq)]: the element at an index below [len(seq)] that
    the generator draws; an empty sequence raises. *)
Definition random_choice (seq : list ascii) : M ascii :=
  fun w =>
    match seq with
    | [] => (Raise (IndexError "Cannot choose from an empty sequence"), w)
    | c :: _ =>
        (Return (nth (entropy w (drawn w) mod List.length seq) seq c),
         {| db := db w; entropy := entropy w; drawn := S (drawn w);
            log := log w |})
    end.

(** [''.join(random.choice(characters) for _ in range(length))]. *)
Fixpoint random_code (length : nat) : M string :=
  match length with
  | O => ret EmptyString
  | S n => c <- random_choice characters ;;
           s <- random_code n ;;
           ret (String c s)
  end.

(** The loop [for _ in range(attempts)]: [Some code] when it returns. *)
Fixpoint try_codes (env : Env) (attempts length : nat) : M (option string) :=
  match attempts with
  | O => ret None
  | S n =>
      code <- random_code length ;;
      taken <- select_exists env SelectCodeExists
                 (fun r => String.eqb (short_code r) code) ;;
      if negb taken then ret (Some code) else try_codes env n length
  end.

Definition generate_short_code (env : Env) (self : URLShortener)
           (length : nat) : M string :=
  (* Try to generate a unique code *)
  found <- try_codes env 100 length ;;
  match found with
  | Some code => ret code
  | None =>
      (* If we can't generate a unique code, use a hash-based approach *)
      let hash_input := original_url self ++ now_isoformat env in
      ret (Py.take length (Hashlib.md5_hexdigest hash_input))
  end.

Definition set_short_code (self : URLShortener) (v : string) : URLShortener :=
  {| id := id self; original_url := original_url self; short_code := v;
     custom_alias := custom_alias self; click_count := click_count self;
     created_at := created_at self; updated_at := updated_at self;
     expires_at := expires_at self; created_by := created_by self;
     title := title self; description := description self;
     domain := domain self; is_active := is_active self;
     is_public := is_public self; category := category self |}.

Definition set_domain (self : URLShortener) (v : string) : URLShortener :=
  {| id := id self; original_url := original_url self;
     short_code := short_code self;
     custom_alias := custom_alias self; click_count := click_count self;
     created_at := created_at self; updated_at := updated_at self;
     expires_at := expires_at self; created_by := created_by self;
     title := title self; description := description self;
     domain := v; is_active := is_active self;
     is_public := is_public self; category := category self |}.

(** [URLShortener.save]: [update_fields] is [None] for a plain
    [save()]. *)
Definition save (env : Env) (self : URLShortener)
           (update_fields : option (list assignment)) : M URLShortener :=
  self <- (if negb (Py.truthy (short_code self))
           then code <- generate_short_code env self 6 ;;
                ret (set_short_code self code)
           else ret self) ;;
  let self :=
    if negb (Py.truthy (domain self)) && Py.truthy (original_url self)
    then match Urllib.urlparse (urllib env) (original_url self) with
         | Urllib.Ok parsed => set_domain self (Py.lower (Urllib.netloc parsed))
         | Urllib.ValueError _ => self
         end
    else self in
  match update_fields with
  | None => save_table env self
  | Some assignments =>
      update_url env (id self) assignments ;;;
      ret self
  end.

(** [URLShortener.objects.create(original_url=..., custom_alias=...,
    created_by=...)]: the other fields take their defaults. *)
Definition objects_create (env : Env) (original_url : string)
           (custom_alias : option string) (created_by : option nat)
  : M URLShortener :=
  save env
       {| id := None; original_url := original_url; short_code := EmptyString;
          custom_alias := custom_alias; click_count := 0;
          created_at := 0; updated_at := 0;
          expires_at := None; created_by := created_by;
          title := EmptyString; description := EmptyString;
          domain := EmptyString; is_active := true; is_public := true;
          category := None |}
       None.

(** [URLShortener.get_short_url]. *)
Definition get_short_url (env : Env) (self : URLShortener) : string :=
  let domain := match site_domain env with
                | Some d => d
                | None => "localhost:8000"
                end in
  let protocol := if negb (DEBUG env) then "https" else "http" in
  let alias := Py.or_else (custom_alias self) (short_code self) in
  protocol ++ "://" ++ domain ++ "/" ++ alias.

(** [URLShortener.increment_click_count]. *)
Definition increment_click_count (env : Env) (self : URLShortener)
  : M URLShortener :=
  (* self.click_count = models.F('click_count') + 1 *)
  self <- save env self (Some [SetClickCountF 1]) ;;
  refresh_from_db env self.

(** [URLShortener.is_expired]. *)
Definition is_expired (env : Env) (self : URLShortener) : bool :=
  match expires_at self with
  | Some t => (t <? now env)%Z
  | None => false
  end.

(** [URLClick.objects.create(...)]: [ip_address] may not be null; the
    row [url] refers to is one the request has just read. *)
Definition click_create (env : Env) (click : URLClick) : M URLClick :=
  execute env InsertClick ;;;
  d <- get_db ;;
  match ip_address click with
  | None => raise (IntegrityError
                     "NOT NULL constraint failed: shortener_urlclick.ip_address")
  | Some _ =>
      let pk := S (urlclick_seq d) in
      let row := {| click_id := Some pk; url := url click;
                    ip_address := ip_address click;
                    user_agent := user_agent click; referer := referer click;
                    country := country click; city := city click;
                    click_device_type := click_device_type click;
                    click_browser := click_browser click;
                    click_os := click_os click;
                    click_created_at := now env |} in
      put_db (with_clicks d (urlclick_table d ++ [row])%list pk) ;;;
      ret row
  end.

End Models.

(* ================================================================== *)
(** ** [url_shortener/forms.py] *)

Module Forms.

Import Exn Models.
Local Open Scope string_scope.
Local Open Scope monad_scope.

(** [UrlForm.clean_custom_alias]; the argument is
    [cleaned_data.get('custom_alias')]. *)
Definition clean_custom_alias (env : Env) (alias : option string)
  : M (option string) :=
  match alias with
  | Some (String _ _ as a) =>
      (* Validate format *)
      if negb (Utils.is_valid_custom_alias alias)
      then raise (ValidationError
                    ("Custom alias must be 3-50 characters long and contain only letters, numbers, hyphens, and underscores. "
                     ++ "Reserved words are not allowed."))
      else
        (* Check if alias already exists *)
        taken <- select_exists env SelectAliasTaken
                   (fun r => eqb_opt (custom_alias r) a && is_active r) ;;
        if taken
        then raise (ValidationError
                      "This custom alias is already taken. Please choose another one.")
        else
          (* Check if it conflicts with short codes *)
          clash <- select_exists env SelectAliasTaken
                     (fun r => String.eqb (short_code r) a && is_active r) ;;
          if clash
          then raise (ValidationError
                        "This alias conflicts with an existing short code. Please choose another one.")
          else ret alias
  | _ => ret alias
  end.

End Forms.

(* ================================================================== *)
(** ** [url_shortener/views.py] *)

Module Views.

Import Exn Models.
Local Open Scope string_scope.
Local Open Scope monad_scope.

Inductive HttpResponse :=
| HttpResponseRedirect (location : string)
| render_error (error_title error_message : string).   (* error.html *)

(** The block that fetches the page's metadata and stores it.
    [get_url_metadata] catches what it raises; the instance keeps the
    title and the description also when the save fails. *)
Definition store_metadata (env : Env) (normalized_url : string)
           (url_obj : URLShortener) : M URLShortener :=
  let (title, description) := get_url_metadata env normalized_url in
  let url_obj := if Py.truthy title
                 then assign (SetTitle title) url_obj else url_obj in
  let url_obj := if Py.truthy description
                 then assign (SetDescription description) url_obj
                 else url_obj in
  try_except
    (save env url_obj
          (Some [SetTitle (Models.title url_obj);
                 SetDescription (Models.description url_obj)]) ;;;
     ret tt)
    (fun e => logger WARNING
                ("Failed to fetch metadata for " ++ normalized_url ++ ": " ++ str e)) ;;;
  ret url_obj.

(** [URLShortenerView.form_valid]: [link] and [custom_alias] are the
    form's cleaned data, [user] is [request.user] when authenticated.
    The answer redirects to [success_url]. *)
Definition form_valid (env : Env) (user : option nat) (link : string)
           (custom_alias : option string) : M HttpResponse :=
  let success_url := "/" in
  let original_url := link in
  try_except
    ((* Validate and normalize URL *)
     normalized_url <- lift (Utils.validate_url (urllib env) original_url) ;;
     (* Check if URL is safe *)
     if negb (Utils.is_safe_url (urllib env) normalized_url)
     then ret (HttpResponseRedirect (success_url ++ "?link=Unsafe URL detected"))
     else
       (* Check if URL already exists (only if no custom alias is provided) *)
       existing_url <-
         (if negb (Py.truthy_opt custom_alias)
          then select_first env SelectExisting (matches_existing normalized_url)
          else ret None) ;;
       match existing_url with
       | Some existing_url =>
           (* Return existing short URL *)
           let short_url := get_short_url env existing_url in
           ret (HttpResponseRedirect (success_url ++ "?link=" ++ short_url))
       | None =>
           (* Create new short URL *)
           atomic
             (url_obj <- objects_create env normalized_url
                           (if Py.truthy_opt custom_alias
                            then custom_alias else None)
                           user ;;
              (* Fetch metadata in background (non-blocking) *)
              url_obj <- store_metadata env normalized_url url_obj ;;
              let short_url := get_short_url env url_obj in
              let alias_info := match custom_alias with
                                | Some (String _ _ as a) => " with alias '" ++ a ++ "'"
                                | _ => ""
                                end in
              logger INFO ("Created short URL " ++ short_code url_obj ++ alias_info
                           ++ " for " ++ normalized_url) ;;;
              ret (HttpResponseRedirect (success_url ++ "?link=" ++ short_url)))
       end)
    (fun e =>
       match e with
       | ValidationError _ =>
           logger WARNING ("Invalid URL submitted: " ++ original_url ++ " - " ++ str e) ;;;
           ret (HttpResponseRedirect (success_url ++ "?link=Give Valid Url"))
       | _ =>
           logger ERROR ("Unexpected error creating short URL for "
                         ++ original_url ++ ": " ++ str e) ;;;
           ret (HttpResponseRedirect (success_url ++ "?link=Error creating short URL"))
       end).

(** [RedirectView.track_click]. *)
Definition track_click (env : Env) (request : Utils.HttpRequest)
           (url_obj : URLShortener) : M unit :=
  try_except
    (let ip_address := Utils.get_client_ip request in
     let user_agent := match Utils.HTTP_USER_AGENT request with
                       | Some ua => ua
                       | None => ""
                       end in
     let referer := match Utils.HTTP_REFERER request with
                    | Some r => r
                    | None => ""
                    end in
     (* Parse user agent *)
     let ua_info := Utils.parse_user_agent (user_agents_parse env) user_agent in
     (* Get geolocation data from middleware *)
     let geo_data := match Utils.geo_data request with
                     | Some g => g
                     | None => (None, None)
                     end in
     (* Create click record *)
     click_create env
       {| click_id := None;
          url := id url_obj;
          ip_address := ip_address;
          user_agent := Py.take 1000 user_agent;
          referer := if Py.truthy referer then Some (Py.take 2000 referer) else None;
          click_device_type := Utils.device_type ua_info;
          click_browser := Utils.browser ua_info;
          click_os := Utils.os ua_info;
          country := match fst geo_data with Some c => c | None => "" end;
          city := match snd geo_data with Some c => c | None => "" end;
          click_created_at := 0 |} ;;;
     ret tt)
    (fun e => logger WARNING
                ("Failed to track click for " ++ short_code url_obj ++ ": " ++ str e)).

Definition link_not_found : HttpResponse :=
  render_error "Link Not Found"
               "The short URL you requested could not be found.".

Definition link_expired : HttpResponse :=
  render_error "Link Expired"
               "This short URL has expired and is no longer available.".

Definition request_error : HttpResponse :=
  render_error "Error" "An error occurred while processing your request.".

(** [RedirectView.get(request, short_code)]. *)
Definition get (env : Env) (request : Utils.HttpRequest) (short_code : string)
  : M HttpResponse :=
  try_except
    ((* Try to find by short_code first, then by custom_alias *)
     url_obj <- select_first env SelectURLByKey (matches_key short_code) ;;
     match url_obj with
     | None => raise (Http404 "Short URL not found")
     | Some url_obj =>
         (* Check if URL has expired *)
         if is_expired env url_obj then ret link_expired
         else
           (* Track the click *)
           track_click env request url_obj ;;;
           (* Increment click count *)
           url_obj <- increment_click_count env url_obj ;;
           (* Redirect to original URL *)
           ret (HttpResponseRedirect (original_url url_obj))
     end)
    (fun e =>
       match e with
       | Http404 _ => ret link_not_found
       | _ =>
           logger ERROR ("Error redirecting short code " ++ short_code ++ ": " ++ str e) ;;;
           ret request_error
       end).

(** *** Requests that run side by side

    The database runs one statement at a time.  A [get] that is under
    way is at one of its statements: the lookup, the insert of the
    click, the update of the counter, the refresh; [step] runs it up to
    and including that statement and what [get] computes after it. *)

Inductive progress :=
| Lookup
| Track (url_obj : URLShortener)
| Increment (url_obj : URLShortener)
| Refresh (url_obj : URLShortener)
| Done (response : HttpResponse).

(** The [except] clauses of [get]. *)
Definition handled (env : Env) (short_code : string) (m : M progress)
  : World -> progress * World :=
  fun w =>
    match m w with
    | (Return p, w') => (p, w')
    | (Raise (Http404 _), w') => (Done link_not_found, w')
    | (Raise e, w') =>
        (Done request_error,
         snd (logger ERROR ("Error redirecting short code " ++ short_code
                            ++ ": " ++ str e) w'))
    end.

Definition step (env : Env) (request : Utils.HttpRequest) (short_code : string)
           (p : progress) : World -> progress * World :=
  match p with
  | Lookup =>
      handled env short_code
        (url_obj <- select_first env SelectURLByKey (matches_key short_code) ;;
         match url_obj with
         | None => raise (Http404 "Short URL not found")
         | Some url_obj =>
             if is_expired env url_obj then ret (Done link_expired)
             else ret (Track url_obj)
         end)
  | Track url_obj =>
      handled env short_code
        (track_click env request url_obj ;;; ret (Increment url_obj))
  | Increment url_obj =>
      handled env short_code
        (url_obj <- save env url_obj (Some [SetClickCountF 1]) ;;
         ret (Refresh url_obj))
  | Refresh url_obj =>
      handled env short_code
        (url_obj <- refresh_from_db env url_obj ;;
         ret (Done (HttpResponseRedirect (original_url url_obj))))
  | Done r => fun w => (Done r, w)
  end.

(** A request under way. *)
Record job := {
  job_env : Env;
  job_request : Utils.HttpRequest;
  job_key : string;
  job_progress : progress
}.

Definition start (env : Env) (request : Utils.HttpRequest) (key : string) : job :=
  {| job_env := env; job_request := request; job_key := key;
     job_progress := Lookup |}.

Definition step_job (j : job) (w : World) : job * World :=
  let (p, w') := step (job_env j) (job_request j) (job_key j) (job_progress j) w in
  ({| job_env := job_env j; job_request := job_request j;
      job_key := job_key j; job_progress := p |}, w').

(** The [i]-th request of the pool runs its next statement. *)
Fixpoint step_nth (i : nat) (pool : list job) (w : World) : list job * World :=
  match pool, i with
  | [], _ => ([], w)
  | j :: rest, O => let (j', w') := step_job j w in (j' :: rest, w')
  | j :: rest, S i' => let (rest', w') := step_nth i' rest w in (j :: rest', w')
  end.

(** A schedule names, statement after statement, the request that runs. *)
Fixpoint run (schedule : list nat) (pool : list job) (w : World)
  : list job * World :=
  match schedule with
  | [] => (pool, w)
  | i :: schedule' => let (pool', w') := step_nth i pool w in run schedule' pool' w'
  end.


End Views.

(* ================================================================== *)
(** ** [shortener/api_views.py] *)

Module ApiViews.

Import Exn Models.
Local Open Scope string_scope.
Local Open Scope monad_scope.

Inductive status := HTTP_200_OK | HTTP_201_CREATED.

(** [URLShortenerCreateAPIView.perform_create]; [serializer.save] is
    [URLShortener.objects.create] on the validated data. *)
Definition perform_create (env : Env) (user : option nat)
           (original_url : string) (custom_alias : option string)
  : M URLShortener :=
  url_obj <- objects_create env original_url custom_alias user ;;
  (* Fetch metadata in background (non-blocking) *)
  Views.store_metadata env (Models.original_url url_obj) url_obj.

(** [URLShortenerCreateAPIView.create] after
    [serializer.is_valid(raise_exception=True)]: the arguments are the
    serializer's validated data.  The answer is the row that is
    serialized and the status. *)
Definition create (env : Env) (user : option nat)
           (original_url : string) (custom_alias : option string)
  : M (URLShortener * status) :=
  (* Check if URL already exists (if no custom alias) *)
  existing_url <-
    (if negb (Py.truthy_opt custom_alias)
     then select_first env SelectExisting (matches_existing original_url)
     else ret None) ;;
  match existing_url with
  | Some existing_url => ret (existing_url, HTTP_200_OK)
  | None =>
      url_obj <- perform_create env user original_url custom_alias ;;
      ret (url_obj, HTTP_201_CREATED)
  end.

End ApiViews.

(* ================================================================== *)
(** ** More of Python's strings *)

Module Pystr.

(** [s.split(sep)] for a separator of one character. *)
Fixpoint split (sep : ascii) (s : string) : list string :=
  match s with
  | EmptyString => [EmptyString]
  | String c s' =>
      if Ascii.eqb c sep then EmptyString :: split sep s'
      else match split sep s' with
           | part :: parts => String c part :: parts
           | [] => [String c EmptyString]
           end
  end.

(** [f"{n}"] for an [int]. *)
Definition format_int (n : Z) : string := NilZero.string_of_int (Z.to_int n).

(** [urllib.parse.quote]'s [_ALWAYS_SAFE]: letters, digits and [_.-~]. *)
Definition always_safe (c : ascii) : bool :=
  Py.is_lower c || Py.is_upper c || Py.is_digit c
  || Ascii.eqb c "_" || Ascii.eqb c "." || Ascii.eqb c "-" || Ascii.eqb c "~".

Definition HEXDIGITS : list ascii := list_ascii_of_string "0123456789ABCDEF".

(** ['%{:02X}'.format(b)]. *)
Definition percent (c : ascii) : string :=
  String "%" (String (nth (Py.code c / 16) HEXDIGITS "0"%char)
             (String (nth (Py.code c mod 16) HEXDIGITS "0"%char) EmptyString)).

(** [quote(s, safe='')]: every byte of the string is kept when it is
    always safe and written as [%XX] otherwise. *)
Fixpoint quote (s : string) : string :=
  match s with
  | EmptyString => EmptyString
  | String c s' =>
      (if always_safe c then String c EmptyString else percent c) ++ quote s'
  end.

End Pystr.

(* ================================================================== *)
(** ** [shortener/utils.py]: the QR code, and [QRCodeView] *)

Module QRCode.

Import Exn Models.
Local Open Scope string_scope.
Local Open Scope monad_scope.

(** [generate_qr_code_url(url, size)]; [quote] raises on nothing a
    string of bytes holds, so the answer is never [None]. *)
Definition generate_qr_code_url (url : string) (size : Z) : option string :=
  let encoded_url := Pystr.quote url in
  Some ("https://api.qrserver.com/v1/create-qr-code/?size="
          ++ Pystr.format_int size ++ "x" ++ Pystr.format_int size
          ++ "&data=" ++ encoded_url).

Inductive HttpResponse :=
| redirect (to : string)
| JsonResponse (error : string) (status : nat).    (* {'error': ...} *)

(** [QRCodeView.get(request, short_code)]. *)
Definition get (env : Env) (short_code : string) : M HttpResponse :=
  try_except
    (url_obj <- select_first env SelectURLByKey (matches_key short_code) ;;
     match url_obj with
     | None => raise (Http404 "Short URL not found")
     | Some url_obj =>
         match generate_qr_code_url (get_short_url env url_obj) 300 with
         | Some (String _ _ as qr_url) => ret (redirect qr_url)
         | _ => ret (JsonResponse "Could not generate QR code" 500)
         end
     end)
    (fun e =>
       logger ERROR ("Error generating QR code for " ++ short_code ++ ": " ++ str e) ;;;
       ret (JsonResponse "Error generating QR code" 500)).

End QRCode.

(* ================================================================== *)
(** ** [url_shortener/urls.py] and [shortener/api_urls.py]

    A route of [path()] matches from the start of the text to its end;
    [<str:name>] is a segment that is not empty and has no slash.  The
    routes are tried in order, and an [include] whose routes all fail
    lets the next route try. *)

Module Urls.

Local Open Scope string_scope.

Inductive view :=
| admin_site (url : string)                 (* admin.site.urls *)
| api_info
| URLShortenerCreateAPIView
| URLShortenerListAPIView
| BulkURLShortenerAPIView
| URLShortenerDetailAPIView (short_code : string)
| URLAnalyticsAPIView (short_code : string)
| URLStatsAPIView
| APIDocsView
| URLShortenerView
| DashboardView
| BulkShortenerView
| AnalyticsView (short_code : string)
| QRCodeView (short_code : string)
| RedirectView (short_code : string).

(** [<str:name>/] and the end of the path. *)
Definition str_slash (s : string) : option string :=
  match Py.split1 "/" s with
  | Some (String c seg, EmptyString) => Some (String c seg)
  | _ => None
  end.

(** [prefix<str:name>/]. *)
Definition under (prefix s : string) : option string :=
  if Py.startswith prefix s then str_slash (Py.drop (String.length prefix) s)
  else None.

(** [shortener/api_urls.py]: the routes, on what follows [api/]. *)
Definition api_urlpatterns (p : string) : option view :=
  if String.eqb p "" then Some api_info
  else if String.eqb p "urls/" then Some URLShortenerCreateAPIView
  else if String.eqb p "urls/list/" then Some URLShortenerListAPIView
  else if String.eqb p "urls/bulk/" then Some BulkURLShortenerAPIView
  else match under "urls/" p with
  | Some short_code => Some (URLShortenerDetailAPIView short_code)
  | None =>
  match under "analytics/" p with
  | Some short_code => Some (URLAnalyticsAPIView short_code)
  | None =>
  if String.eqb p "stats/" then Some URLStatsAPIView
  else None
  end end.

(** [url_shortener/urls.py]: the routes, on the path without its first
    slash; [None] when none matches (the routes [static()] adds under
    [DEBUG] come after these). *)
Definition urlpatterns (p : string) : option view :=
  if Py.startswith "admin/" p then Some (admin_site (Py.drop 6 p))
  else
  match (if Py.startswith "api/" p then api_urlpatterns (Py.drop 4 p)
         else None) with
  | Some v => Some v
  | None =>
  if String.eqb p "api/docs/" then Some APIDocsView
  else if String.eqb p "" then Some URLShortenerView
  else if String.eqb p "dashboard/" then Some DashboardView
  else if String.eqb p "bulk/" then Some BulkShortenerView
  else match under "analytics/" p with
  | Some short_code => Some (AnalyticsView short_code)
  | None =>
  match under "qr/" p with
  | Some short_code => Some (QRCodeView short_code)
  | None =>
  match str_slash p with
  | Some short_code => Some (RedirectView short_code)
  | None => None
  end end end end.

(** [reverse(name)] without arguments: the path of the route of that
    name when it has no parameter; [None] is [NoReverseMatch]. *)
Definition reverse (name : string) : option string :=
  if String.eqb name "api_info" then Some "/api/"
  else if String.eqb name "api_create_url" then Some "/api/urls/"
  else if String.eqb name "api_list_urls" then Some "/api/urls/list/"
  else if String.eqb name "api_bulk_urls" then Some "/api/urls/bulk/"
  else if String.eqb name "api_stats" then Some "/api/stats/"
  else if String.eqb name "api_docs" then Some "/api/docs/"
  else if String.eqb name "home" then Some "/"
  else if String.eqb name "dashboard" then Some "/dashboard/"
  else if String.eqb name "bulk" then Some "/bulk/"
  else None.

(** The view of a request path. *)
Definition resolve (path : string) : option view :=
  match path with
  | String "/" p => urlpatterns p
  | _ => None
  end.

End Urls.

(* ================================================================== *)
(** ** [shortener/middleware.py]: [ClickTrackingMiddleware] *)

Module ClickTrackingMiddleware.

Local Open Scope string_scope.

(** [is_redirect_request(request)], on [request.path]. *)
Definition is_redirect_request (path : string) : bool :=
  (* Simple heuristic: single path segment that's not a known route *)
  let path_parts := filter Py.truthy (Pystr.split "/" path) in
  (List.length path_parts =? 1)%nat
  && negb (existsb (fun prefix => Py.startswith prefix path)
                   ["/admin/"; "/api/"; "/dashboard/"; "/bulk/";
                    "/analytics/"; "/qr/"]).

(** [process_request(request)]: a redirect request gets the attribute
    [geo_data], an empty dict. *)
Definition process_request (path : string) (request : Utils.HttpRequest)
  : Utils.HttpRequest :=
  (* Only process redirect requests *)
  if negb (is_redirect_request path) then request
  else
    (* Add basic geo data placeholder to request *)
    {| Utils.HTTP_X_FORWARDED_FOR := Utils.HTTP_X_FORWARDED_FOR request;
       Utils.REMOTE_ADDR := Utils.REMOTE_ADDR request;
       Utils.HTTP_USER_AGENT := Utils.HTTP_USER_AGENT request;
       Utils.HTTP_REFERER := Utils.HTTP_REFERER request;
       Utils.geo_data := Some (None, None) |}.

End ClickTrackingMiddleware.

(* ================================================================== *)
(** ** [shortener/middleware.py]: [RateLimitMiddleware]

    The cache of [django.core.cache] holds, for a key, a value and the
    instant it expires; instants and timeouts are in seconds. *)

Module RateLimitMiddleware.

Local Open Scope string_scope.

Definition Cache := list (string * (nat * Z)).

(** [cache.get(key, default)] at the instant [now]. *)
Definition cache_get (now : Z) (cache : Cache) (key : string) (default : nat)
  : nat :=
  match find (fun entry => String.eqb (fst entry) key) cache with
  | Some (_, (value, expires)) => if (now <? expires)%Z then value else default
  | None => default
  end.

(** [cache.set(key, value, timeout)] at the instant [now]. *)
Definition cache_set (now : Z) (cache : Cache) (key : string) (value : nat)
           (timeout : Z) : Cache :=
  (key, (value, (now + timeout)%Z))
    :: filter (fun entry => negb (String.eqb (fst entry) key)) cache.

(** What the middleware can change: the cache and the log. *)
Record State := {
  cache : Cache;
  log : list (Models.level * string)
}.

(** The request, and around it the clock and the calls of the cache
    that raise while it is served. *)
Record HttpRequest := {
  path : string;
  method : string;
  user_is_authenticated : bool;
  META : Utils.HttpRequest;
  now : Z;                        (* time.time() *)
  get_raises : option string;     (* what cache.get raises, if it does *)
  set_raises : option string      (* what cache.set raises, if it does *)
}.

Inductive HttpResponse :=
| rate_limit_exceeded.   (* "Rate limit exceeded. Please try again later.", 429 *)

(** [get_client_ip(request)]. *)
Definition get_client_ip (request : HttpRequest) : option string :=
  match Utils.HTTP_X_FORWARDED_FOR (META request) with
  | Some (String _ _ as x_forwarded_for) =>
      Some (Py.strip (fst (Py.break (Ascii.eqb ",") x_forwarded_for)))
  | _ => Utils.REMOTE_ADDR (META request)
  end.

Definition warning (s : State) (e : string) : State :=
  {| cache := cache s;
     log := (log s ++ [(Models.WARNING, ("Rate limiting error: " ++ e)%string)])%list |}.

(** [check_rate_limit(cache_key, limit, window)]: generic rate limit
    checker. *)
Definition check_rate_limit (request : HttpRequest) (cache_key : string)
           (limit : nat) (window : Z) (s : State)
  : option HttpResponse * State :=
  match get_raises request with
  | Some e => (None, warning s e)   (* Don't block requests if rate limiting fails *)
  | None =>
      let current_requests := cache_get (now request) (cache s) cache_key 0 in
      if (limit <=? current_requests)%nat then (Some rate_limit_exceeded, s)
      else
        (* Increment counter *)
        match set_raises request with
        | Some e => (None, warning s e)
        | None =>
            (None,
             {| cache := cache_set (now request) (cache s) cache_key
                                   (current_requests + 1) window;
                log := log s |})
        end
  end.

(** [f"{ip}"]. *)
Definition format_ip (ip : option string) : string :=
  match ip with
  | Some s => s
  | None => "None"
  end.

(** [check_api_rate_limit(request, ip)]. *)
Definition check_api_rate_limit (request : HttpRequest) (ip : option string)
  : State -> option HttpResponse * State :=
  (* Higher limits for authenticated users *)
  let (limit, window) :=
    if user_is_authenticated request then (1000%nat, 3600%Z)
    else (100%nat, 3600%Z) in
  let cache_key := "api_rate_limit:" ++ format_ip ip in
  check_rate_limit request cache_key limit window.

(** [check_form_rate_limit(request, ip)]. *)
Definition check_form_rate_limit (request : HttpRequest) (ip : option string)
  : State -> option HttpResponse * State :=
  let limit := 50%nat in
  let window := 3600%Z in
  let cache_key := "form_rate_limit:" ++ format_ip ip in
  check_rate_limit request cache_key limit window.

(** [process_request(request)]: [None] lets the request through. *)
Definition process_request (request : HttpRequest)
  : State -> option HttpResponse * State :=
  (* Skip rate limiting for admin and static files *)
  if Py.startswith "/admin/" (path request)
     || Py.startswith "/static/" (path request)
  then fun s => (None, s)
  else
    (* Get client IP *)
    let ip := get_client_ip request in
    (* Different limits for different endpoints *)
    if Py.startswith "/api/" (path request)
    then check_api_rate_limit request ip
    else if String.eqb (method request) "POST"
    then check_form_rate_limit request ip
    else fun s => (None, s).

(** The requests, served one after the other: the answers, and the
    state at the end. *)
Fixpoint serve (requests : list HttpRequest) (s : State)
  : list (option HttpResponse) * State :=
  match requests with
  | [] => ([], s)
  | request :: rest =>
      let (answer, s1) := process_request request s in
      let (answers, s2) := serve rest s1 in
      (answer :: answers, s2)
  end.

End RateLimitMiddleware.

(* ================================================================== *)
(** ** Querysets: [order_by], [values().annotate(Count)]

    Where the database leaves the order of rows open (equal sort keys,
    groups), the order of the table is taken, as [Models.first] does. *)

Module Orm.

(** [x] in front of the first row that does not come before it. *)
Fixpoint insert_desc {A : Type} (key : A -> Z) (x : A) (sorted : list A)
  : list A :=
  match sorted with
  | [] => [x]
  | y :: rest =>
      if (key y <=? key x)%Z then x :: sorted
      else y :: insert_desc key x rest
  end.

(** [order_by('-key')]. *)
Definition order_by_desc {A : Type} (key : A -> Z) (rows : list A) : list A :=
  fold_right (insert_desc key) [] rows.

Fixpoint insert_asc {A : Type} (key : A -> Z) (x : A) (sorted : list A)
  : list A :=
  match sorted with
  | [] => [x]
  | y :: rest =>
      if (key x <=? key y)%Z then x :: sorted
      else y :: insert_asc key x rest
  end.

(** [order_by('key')]. *)
Definition order_by_asc {A : Type} (key : A -> Z) (rows : list A) : list A :=
  fold_right (insert_asc key) [] rows.

(** One more row in the group of [k]. *)
Fixpoint add_count {K : Type} (eqb : K -> K -> bool) (k : K)
         (groups : list (K * nat)) : list (K * nat) :=
  match groups with
  | [] => [(k, 1%nat)]
  | (k', n) :: rest =>
      if eqb k' k then (k', S n) :: rest
      else (k', n) :: add_count eqb k rest
  end.

(** [values('key').annotate(count=Count('id'))]: the groups and their
    sizes. *)
Definition values_count {K : Type} (eqb : K -> K -> bool) (keys : list K)
  : list (K * nat) :=
  fold_left (fun groups k => add_count eqb k groups) keys [].

End Orm.

(* ================================================================== *)
(** ** Analytics: [URLShortener.get_analytics_data], [AnalyticsView]

    Instants are in microseconds. *)

Module Analytics.

Import Exn Models.
Local Open Scope string_scope.
Local Open Scope monad_scope.

(** The queries of the pages that only read. *)
Inductive select :=
| CountClicksToday | CountClicksThisWeek | CountClicksThisMonth
| SelectLastClick                                   (* get_analytics_data *)
| SelectDailyClicks | SelectDeviceClicks | SelectBrowserClicks
| SelectCountryClicks                               (* get_click_analytics *)
| SelectRecentClicks                                (* AnalyticsView.get *)
| CountActiveURLs | SelectRecentURLs.               (* DashboardView.get *)

(** What a page that reads finds around it. *)
Record Site := {
  env : Env;
  fails : select -> bool;        (* the storage is unavailable for the query *)
  date : Z -> Z;                 (* the day of an instant, for [created_at__date] *)
  today : Z;                     (* timezone.now().date() *)
  sql_date : Z -> Z              (* the database's date(created_at) *)
}.

Definition query (site : Site) (q : select) : M Database :=
  if fails site q then raise (DatabaseError "database is unavailable")
  else get_db.

(** [timezone.timedelta(days=n)]. *)
Definition timedelta (days : Z) : Z := (days * 86400000000)%Z.

(** [url=self]. *)
Definition of_url (self : URLShortener) (c : URLClick) : bool :=
  match url c, id self with
  | Some a, Some b => (a =? b)%nat
  | _, _ => false
  end.

(** [created_at__gte=timezone.now() - timezone.timedelta(days=n)]. *)
Definition since (site : Site) (days : Z) (c : URLClick) : bool :=
  (now (env site) - timedelta days <=? click_created_at c)%Z.

Record analytics_data := {
  total_clicks : nat;
  clicks_today : nat;
  clicks_this_week : nat;
  clicks_this_month : nat;
  data_created_at : Z;
  last_clicked : option URLClick
}.

(** [URLShortener.get_analytics_data]. *)
Definition get_analytics_data (site : Site) (self : URLShortener)
  : M analytics_data :=
  d <- query site CountClicksToday ;;
  let clicks_today :=
    List.length
      (filter (fun c => of_url self c
                        && (date site (click_created_at c) =? today site)%Z)
              (urlclick_table d)) in
  d <- query site CountClicksThisWeek ;;
  let clicks_this_week :=
    List.length (filter (fun c => of_url self c && since site 7 c)
                        (urlclick_table d)) in
  d <- query site CountClicksThisMonth ;;
  let clicks_this_month :=
    List.length (filter (fun c => of_url self c && since site 30 c)
                        (urlclick_table d)) in
  d <- query site SelectLastClick ;;
  ret {| total_clicks := click_count self;
         clicks_today := clicks_today;
         clicks_this_week := clicks_this_week;
         clicks_this_month := clicks_this_month;
         data_created_at := created_at self;
         last_clicked :=
           hd_error (Orm.order_by_desc click_created_at
                       (filter (of_url self) (urlclick_table d))) |}.

Record click_data := {
  daily_clicks : list (Z * nat);
  device_clicks : list (string * nat);
  browser_clicks : list (string * nat);
  country_clicks : list (string * nat)
}.

Definition by_count_desc {K : Type} (groups : list (K * nat)) : list (K * nat) :=
  Orm.order_by_desc (fun g => Z.of_nat (snd g)) groups.

(** [AnalyticsView.get_click_analytics]: aggregated click data for
    charts. *)
Definition get_click_analytics (site : Site) (url_obj : URLShortener)
  : M click_data :=
  (* Last 30 days click data *)
  d <- query site SelectDailyClicks ;;
  let daily_clicks :=
    Orm.order_by_asc fst
      (Orm.values_count Z.eqb
         (map (fun c => sql_date site (click_created_at c))
              (filter (fun c => of_url url_obj c && since site 30 c)
                      (urlclick_table d)))) in
  (* Device type distribution *)
  d <- query site SelectDeviceClicks ;;
  let device_clicks :=
    by_count_desc
      (Orm.values_count String.eqb
         (map click_device_type (filter (of_url url_obj) (urlclick_table d)))) in
  (* Browser distribution *)
  d <- query site SelectBrowserClicks ;;
  let browser_clicks :=
    firstn 10
      (by_count_desc
         (Orm.values_count String.eqb
            (map click_browser (filter (of_url url_obj) (urlclick_table d))))) in
  (* Country distribution *)
  d <- query site SelectCountryClicks ;;
  let country_clicks :=
    firstn 10
      (by_count_desc
         (Orm.values_count String.eqb
            (map country
                 (filter (fun c => of_url url_obj c
                                   && negb (String.eqb (country c) ""))
                         (urlclick_table d))))) in
  ret {| daily_clicks := daily_clicks; device_clicks := device_clicks;
         browser_clicks := browser_clicks; country_clicks := country_clicks |}.

Record context := {
  url_obj : URLShortener;
  analytics : analytics_data;
  recent_clicks : list URLClick;
  clicks : click_data;
  qr_code_url : option string
}.

Inductive HttpResponse :=
| render_analytics (c : context)                       (* analytics.html *)
| redirect (to : string)
| render_error (error_title error_message : string).   (* error.html *)

Definition analytics_not_found : HttpResponse :=
  render_error "Analytics Not Found"
    "The analytics for this short URL could not be found or you do not have permission to view them.".

(** The handler of whatever is raised that is not [Http404]. *)
Definition analytics_error (short_code message : string) : M HttpResponse :=
  logger ERROR ("Error displaying analytics for " ++ short_code ++ ": " ++ message) ;;;
  ret (render_error "Error" "An error occurred while loading the analytics.").

(** [url_obj.created_by != request.user]; the user of a request is
    [None] when nobody is logged in, and no link is created by
    nobody. *)
Definition other_than_creator (created_by user : option nat) : bool :=
  match created_by, user with
  | Some a, Some b => negb (a =? b)%nat
  | _, _ => true
  end.

(** [AnalyticsView.get(request, short_code)]; [user] is [request.user]
    when authenticated.  [redirect('login')] reverses the name [login]
    and raises [NoReverseMatch] when no route has it, inside the [try]
    of the view. *)
Definition get (site : Site) (user : option nat) (short_code : string)
  : M HttpResponse :=
  try_except
    ((* Find the URL object *)
     found <- select_first (env site) SelectURLByKey (matches_key short_code) ;;
     match found with
     | None => raise (Http404 "Short URL not found")
     | Some url_obj =>
         (* Check if user has permission to view analytics *)
         if negb (is_public url_obj)
            && other_than_creator (created_by url_obj) user
         then
           match user with
           | None =>
               match Urls.reverse "login" with
               | Some to => ret (redirect to)
               | None =>
                   analytics_error short_code
                     "Reverse for 'login' not found. 'login' is not a valid view function or pattern name."
               end
           | Some _ => raise (Http404 "Analytics not available")
           end
         else
           (* Get analytics data *)
           analytics_data <- get_analytics_data site url_obj ;;
           (* Aggregate data for charts *)
           click_data <- get_click_analytics site url_obj ;;
           (* Get recent clicks (last 30 days), read when the page is
              rendered *)
           d <- query site SelectRecentClicks ;;
           let recent_clicks :=
             firstn 100
               (Orm.order_by_desc click_created_at
                  (filter (fun c => of_url url_obj c && since site 30 c)
                          (urlclick_table d))) in
           ret (render_analytics
                  {| url_obj := url_obj;
                     analytics := analytics_data;
                     recent_clicks := recent_clicks;
                     clicks := click_data;
                     qr_code_url :=
                       QRCode.generate_qr_code_url
                         (get_short_url (env site) url_obj) 200 |})
     end)
    (fun e =>
       match e with
       | Http404 _ => ret analytics_not_found
       | _ => analytics_error short_code (str e)
       end).

End Analytics.

(* ================================================================== *)
(** ** [DashboardView] *)

Module Dashboard.

Import Exn Models.
Local Open Scope monad_scope.

Record context := {
  recent_urls : list URLShortener;
  total_urls : nat;
  total_clicks : nat
}.

(** [DashboardView.get(request)]; the slice of the links is read when
    the clicks are summed. *)
Definition get (site : Analytics.Site) : M context :=
  (* Get some statistics *)
  d <- Analytics.query site Analytics.CountActiveURLs ;;
  let total_urls := List.length (filter is_active (urlshortener_table d)) in
  (* Get recent URLs (last 50) *)
  d <- Analytics.query site Analytics.SelectRecentURLs ;;
  let recent_urls :=
    firstn 50 (Orm.order_by_desc created_at
                 (filter is_active (urlshortener_table d))) in
  let total_clicks := list_sum (map click_count recent_urls) in
  ret {| recent_urls := recent_urls; total_urls := total_urls;
         total_clicks := total_clicks |}.

End Dashboard.

(* ================================================================== *)
(** ** [BulkShortenerView] *)

Module Bulk.

Import Exn Models.
Local Open Scope string_scope.
Local Open Scope monad_scope.

Record result := {
  original : string;
  shortened : string;
  status : string;
  error : option string
}.

(** [original_url=normalized_url, is_active=True]. *)
Definition matches_url (u : string) (r : URLShortener) : bool :=
  String.eqb (original_url r) u && is_active r.

(** The body of the loop, for one URL. *)
Definition shorten (env : Env) (user : option nat) (original_url : string)
  : M result :=
  try_except
    (normalized_url <- lift (Utils.validate_url (urllib env) original_url) ;;
     if Utils.is_safe_url (urllib env) normalized_url then
       (* Check if URL already exists *)
       existing_url <- select_first env SelectExisting (matches_url normalized_url) ;;
       short_url <-
         match existing_url with
         | Some existing_url => ret (get_short_url env existing_url)
         | None =>
             url_obj <- objects_create env normalized_url None user ;;
             ret (get_short_url env url_obj)
         end ;;
       ret {| original := original_url; shortened := short_url;
              status := "success"; error := None |}
     else
       ret {| original := original_url; shortened := "";
              status := "error"; error := Some "Unsafe URL detected" |})
    (fun e =>
       match e with
       | ValidationError _ =>
           ret {| original := original_url; shortened := "";
                  status := "error"; error := Some (str e) |}
       | _ =>
           ret {| original := original_url; shortened := "";
                  status := "error"; error := Some "Error processing URL" |}
       end).

(** [for original_url in urls: ... results.append(...)]. *)
Fixpoint shorten_all (env : Env) (user : option nat) (urls : list string)
  : M (list result) :=
  match urls with
  | [] => ret []
  | original_url :: rest =>
      r <- shorten env user original_url ;;
      results <- shorten_all env user rest ;;
      ret (r :: results)
  end.

(** [BulkShortenerView.post(request)]: [urls_text] is
    [request.POST.get('urls', '')], the answer the list under
    ['results']. *)
Definition post (env : Env) (user : option nat) (urls_text : string)
  : M (list result) :=
  let urls := filter Py.truthy (map Py.strip (Pystr.split Py.LF urls_text)) in
  shorten_all env user urls.

End Bulk.

(* ================================================================== *)
(** * The vocabulary of the properties *)

Local Open Scope nat_scope.

(** ** Strings, aliases and URLs *)

Definition is_alnum (c : ascii) : bool :=
  Py.is_lower c || Py.is_upper c || Py.is_digit c.

(** [s] without the newline that ends it, when one does. *)
Fixpoint chomp (s : string) : string :=
  match s with
  | EmptyString => EmptyString
  | String c s' =>
      match s' with
      | EmptyString => if Ascii.eqb c Py.LF then EmptyString else s
      | String _ _ => String c (chomp s')
      end
  end.

(** The rules as the specification lists them: length in [3,50], every
    character in [A-Za-z0-9_-] and at least one, lower-case form not
    reserved; the empty and the absent alias are valid. *)
Definition alias_rules (alias : string) : bool :=
  (3 <=? String.length alias)%nat && (String.length alias <=? 50)%nat
  && Py.truthy alias && Py.all Utils.alias_char alias
  && negb (Py.mem (Py.lower alias) Utils.reserved_words).

Definition isValidAlias (alias : option string) : bool :=
  match alias with
  | None | Some EmptyString => true
  | Some a => alias_rules a
  end.


(** [s.split(sep, 1)], with nothing after [sep] when [s] has none. *)
Definition cut (sep : ascii) (s : string) : string * string :=
  match Py.split1 sep s with
  | Some (a, b) => (a, b)
  | None => (s, "")
  end.

(** A delimiter and the part after it, when that part is not empty. *)
Definition keep (sep : ascii) (part : string) : string :=
  if Py.truthy part then String sep part else "".

(** [urlsplit] raises on this network location. *)
Definition refused (lib : Urllib.checks) (net : string) : bool :=
  (Py.has_char "[" net && negb (Py.has_char "]" net))
  || (Py.has_char "]" net && negb (Py.has_char "[" net))
  || (Py.has_char "[" net && Py.has_char "]" net
      && negb (Urllib.bracketed_ok lib net))
  || (Py.truthy net && negb (Py.all Py.is_ascii net) && negb (Urllib.nfkc_ok lib net)).

(** Path, parameters, query and fragment of what follows the network
    location. *)
Definition rest_parts (rest : string) : string * string * string * string :=
  let (url3, frag) := cut "#" rest in
  let (url4, qry) := cut "?" url3 in
  let (p, prm) := if Py.has_char ";" url4 then Urllib.splitparams url4
                  else (url4, "") in
  (p, prm, qry, frag).

(** Empty, or starting with a slash. *)
Definition rooted (s : string) : bool :=
  negb (Py.truthy s) || Py.startswith "/" s.




(** ** Worlds, tables and requests *)

Section Words.

Import Exn Models.

(** The world after [n] draws. *)
Definition after_draws (n : nat) (w : World) : World :=
  {| db := db w; entropy := entropy w; drawn := drawn w + n; log := log w |}.

Definition code_taken (code : string) (w : World) : bool :=
  existsb (fun r => String.eqb (short_code r) code) (urlshortener_table (db w)).

Definition unavailable {A} (w : World) : result A * World :=
  (Raise (DatabaseError "database is unavailable"), w).

Definition set_urls (w : World) (rows : list URLShortener) : World :=
  {| db := with_urls (db w) rows (urlshortener_seq (db w));
     entropy := entropy w; drawn := drawn w; log := log w |}.

(** The rows after [UPDATE ... SET click_count = click_count + 1 WHERE id = pk]. *)
Definition bump (pk : option nat) (r : URLShortener) : URLShortener :=
  if has_pk pk r then assign (SetClickCountF 1) r else r.


(** Every row has a primary key and no two rows share one. *)
Fixpoint well_keyed (rows : list URLShortener) : bool :=
  match rows with
  | [] => true
  | r :: rs =>
      match id r with
      | Some _ => negb (existsb (has_pk (id r)) rs)
      | None => false
      end && well_keyed rs
  end.

(** The instance after the prelude of [save]. *)
Definition with_domain (env : Env) (self : URLShortener) : URLShortener :=
  if negb (Py.truthy (domain self)) && Py.truthy (original_url self)
  then match Urllib.urlparse (urllib env) (original_url self) with
       | Urllib.Ok parsed => set_domain self (Py.lower (Urllib.netloc parsed))
       | Urllib.ValueError _ => self
       end
  else self.

(** The click of this request reaches the table. *)
Definition tracked (env : Env) (request : Utils.HttpRequest) : bool :=
  negb (outage env InsertClick)
  && match Utils.get_client_ip request with Some _ => true | None => false end.

Definition clicks_of (pk : option nat) (w : World) : list URLClick :=
  filter (fun c => match url c, pk with
                   | Some a, Some b => a =? b
                   | _, _ => false
                   end) (urlclick_table (db w)).

(** The counter of the row with key [pk]. *)
Definition count_of (pk : option nat) (w : World) : option nat :=
  option_map click_count (find (has_pk pk) (urlshortener_table (db w))).

(** What [track_click] leaves behind: one more click when it is
    [tracked], one more warning in the log when it is not; it never
    raises. *)
Definition tracking (env : Env) (request : Utils.HttpRequest) (l : URLShortener)
           (w w' : World) : Prop :=
  urlshortener_table (db w') = urlshortener_table (db w)
  /\ urlshortener_seq (db w') = urlshortener_seq (db w)
  /\ entropy w' = entropy w /\ drawn w' = drawn w
  /\ if tracked env request
     then (exists c, urlclick_table (db w') = (urlclick_table (db w) ++ [c])%list
                     /\ url c = id l)
          /\ log w' = log w
     else urlclick_table (db w') = urlclick_table (db w)
          /\ exists msg, log w' = (log w ++ [(WARNING, msg)])%list.

(** The answer of [get] when the storage fails. *)
Definition failed (key : string) (e : exn) (w : World) : result Views.HttpResponse * World :=
  (Return Views.request_error,
   snd (logger ERROR ("Error redirecting short code " ++ key ++ ": " ++ str e) w)).








(** The requests of the callers, none started. *)
Definition callers_pool (key : string) (callers : list (Env * Utils.HttpRequest)) : list Views.job :=
  map (fun c => Views.start (fst c) (snd c) key) callers.


End Words.

(** ** Worlds to run the program in *)

Module Fixture.
Import Exn Models.

Definition link : URLShortener :=
  {| id := Some 1; original_url := "https://example.com/test";
     short_code := "abc123"; custom_alias := None; click_count := 0;
     created_at := 100; updated_at := 100; expires_at := None;
     created_by := None; title := ""; description := "";
     domain := "example.com"; is_active := true; is_public := true;
     category := None |}.


Definition world (rows : list URLShortener) : World :=
  {| db := {| urlshortener_table := rows; urlclick_table := [];
              urlshortener_seq := List.length rows; urlclick_seq := 0 |};
     entropy := fun _ => 0; drawn := 0; log := [] |}.

(** A request served at instant 200 while the statements [down] fail. *)
Definition env (down : stmt -> bool) : Env :=
  {| now := 200; now_isoformat := "2024-01-01T00:00:00+00:00";
     outage := down; site_domain := Some "sho.rt"; DEBUG := false;
     urllib := Urllib.lenient;
     user_agents_parse := fun _ => Raise (UserAgentError "no parser");
     get_url_metadata := fun _ => ("", "") |}.

Definition up : stmt -> bool := fun _ => false.

Definition update_down (s : stmt) : bool :=
  match s with UpdateURL => true | _ => false end.


Definition request : Utils.HttpRequest :=
  {| Utils.HTTP_X_FORWARDED_FOR := None;
     Utils.REMOTE_ADDR := Some "127.0.0.1";
     Utils.HTTP_USER_AGENT := Some "Mozilla/5.0";
     Utils.HTTP_REFERER := None;
     Utils.geo_data := Some (None, None) |}.

(** A link that was taken out of service; it keeps its alias. *)
Definition retired_promo : URLShortener :=
  {| id := Some 1; original_url := "https://example.com/old";
     short_code := "zzzzzz"; custom_alias := Some "promo"; click_count := 0;
     created_at := 100; updated_at := 100; expires_at := None;
     created_by := None; title := ""; description := "";
     domain := "example.com"; is_active := false; is_public := true;
     category := None |}.

(** A link whose code is the given one. *)
Definition with_code (pk : nat) (code : string) : URLShortener :=
  {| id := Some pk; original_url := "https://example.com/other";
     short_code := code; custom_alias := None; click_count := 0;
     created_at := 100; updated_at := 100; expires_at := None;
     created_by := None; title := ""; description := "";
     domain := "example.com"; is_active := true; is_public := true;
     category := None |}.

End Fixture.










(** The scheme [validate_url] parses [u] with, and what follows its
    [://]: a URL that does not start with [http://] or [https://] gets
    [https://] in front. *)
Definition web_parts (u : string) : string * string :=
  if Py.startswith "http://" u then ("http", Py.drop 7 u)
  else if Py.startswith "https://" u then ("https", Py.drop 8 u)
  else ("https", u).

(** What [validate_url] answers: [sch://], the network location in lower
    case, the path, and the parameters, query and fragment that are not
    empty. *)
Definition normal_form (lib : Urllib.checks) (u : string) : option string :=
  let (sch, v) := web_parts u in
  let net := fst (Urllib.splitnetloc (Urllib.remove_unsafe v)) in
  let rest := snd (Urllib.splitnetloc (Urllib.remove_unsafe v)) in
  if negb (Py.truthy u) || negb (Py.truthy net) || refused lib net then None
  else
    let '(p, prm, qry, frag) := rest_parts rest in
    Some (sch ++ "://" ++ Py.lower net ++ p
              ++ keep ";" prm ++ keep "?" qry ++ keep "#" frag).

(** [c] does not occur. *)
Definition other_than (c : ascii) : ascii -> bool :=
  fun a => negb (Ascii.eqb a c).

(** No tab, carriage return or newline. *)
Definition clean (s : string) : Prop :=
  Py.all (other_than Py.TAB) s = true /\ Py.all (other_than Py.CR) s = true
  /\ Py.all (other_than Py.LF) s = true.

(** Empty, or ending with a slash. *)
Fixpoint ends_slash (s : string) : bool :=
  match s with
  | EmptyString => true
  | String c EmptyString => Ascii.eqb c "/"
  | String _ s' => ends_slash s'
  end.

(** The path and the parameters as [urlparse] cuts them. *)
Definition path_params (url4 : string) : string * string :=
  if Py.has_char ";" url4 then Urllib.splitparams url4 else (url4, "").

(** ** Percent-encoding, read back *)

Definition hex_value (c : ascii) : option nat :=
  if Py.is_digit c then Some (Py.code c - 48)
  else if Py.between "A" "F" c then Some (Py.code c - 55)
  else if Py.between "a" "f" c then Some (Py.code c - 87)
  else None.

(** The text a percent-encoded text stands for: [%XX] is the byte with
    that code, every other character is itself. *)
Fixpoint unquote (s : string) : string :=
  match s with
  | EmptyString => EmptyString
  | String c s' =>
      match s' with
      | String h (String l rest) =>
          if Ascii.eqb c "%" then
            match hex_value h, hex_value l with
            | Some a, Some b => String (ascii_of_nat (16 * a + b)) (unquote rest)
            | _, _ => String c (unquote s')
            end
          else String c (unquote s')
      | _ => String c (unquote s')
      end
  end.

(** A character that cannot end or split a query parameter. *)
Definition parameter_char (c : ascii) : bool :=
  Pystr.always_safe c || Ascii.eqb c "%".

(** What [QRCodeView] sends the client to for the link [l]. *)
Definition qr_code_of (env : Models.Env) (l : Models.URLShortener) : string :=
  "https://api.qrserver.com/v1/create-qr-code/?size=300x300&data="
    ++ Pystr.quote (Models.get_short_url env l).

(** The view a path of one segment [a] and a final slash reaches. *)
Definition view_of_segment (a : string) : Urls.view :=
  if String.eqb a "admin" then Urls.admin_site ""
  else if String.eqb a "api" then Urls.api_info
  else if String.eqb a "dashboard" then Urls.DashboardView
  else if String.eqb a "bulk" then Urls.BulkShortenerView
  else Urls.RedirectView a.

(** The fresh request of a client: no middleware has touched it. *)
Definition fresh (request : Utils.HttpRequest) : Prop :=
  Utils.geo_data request = None.

(** The row has no country and no city. *)
Definition no_place (c : Models.URLClick) : Prop :=
  Models.country c = "" /\ Models.city c = "".

(** A request as the client sends it. *)
Definition first_request : Utils.HttpRequest :=
  {| Utils.HTTP_X_FORWARDED_FOR := None;
     Utils.REMOTE_ADDR := Some "127.0.0.1";
     Utils.HTTP_USER_AGENT := None;
     Utils.HTTP_REFERER := None;
     Utils.geo_data := None |}.

(** ** Links as they are created *)

(** The instance [objects.create] builds before it saves it. *)
Definition blank (original_url : string) (custom_alias : option string)
           (created_by : option nat) : Models.URLShortener :=
  {| Models.id := None; Models.original_url := original_url;
     Models.short_code := ""; Models.custom_alias := custom_alias;
     Models.click_count := 0; Models.created_at := 0; Models.updated_at := 0;
     Models.expires_at := None; Models.created_by := created_by;
     Models.title := ""; Models.description := ""; Models.domain := "";
     Models.is_active := true; Models.is_public := true;
     Models.category := None |}.

(** The row without its title and its description. *)
Definition untitled (r : Models.URLShortener) : Models.URLShortener :=
  Models.assign (Models.SetDescription "") (Models.assign (Models.SetTitle "") r).



(** The link [l] as [objects.create] stores it for the URL [u], the
    alias [a] and the user [user], in the world [w]. *)
Definition created (env : Models.Env) (u : string) (a : option string)
           (user : option nat) (w : Models.World) (l : Models.URLShortener)
  : Prop :=
  Models.id l = Some (S (Models.urlshortener_seq (Models.db w)))
  /\ Models.original_url l = u /\ Models.custom_alias l = a
  /\ Models.created_by l = user
  /\ String.length (Models.short_code l) = 6
  /\ Py.all is_alnum (Models.short_code l) = true
  /\ code_taken (Models.short_code l) w = false
  /\ Models.same_custom_alias l (Models.urlshortener_table (Models.db w)) = false
  /\ Models.click_count l = 0
  /\ Models.is_active l = true /\ Models.is_public l = true
  /\ Models.expires_at l = None
  /\ Models.created_at l = Models.now env /\ Models.updated_at l = Models.now env
  /\ Models.title l = "" /\ Models.description l = "".

(** A second link, created at instant 200 beside [Fixture.link], and
    the world then. *)
Definition created_link : Models.URLShortener :=
  Eval vm_compute in
    match fst (Models.objects_create (Fixture.env Fixture.up)
                 "https://example.com/new" None None
                 (Fixture.world [Fixture.link])) with
    | Exn.Return l => l
    | Exn.Raise _ => Fixture.link
    end.

Definition world_created : Models.World :=
  Eval vm_compute in
    snd (Models.objects_create (Fixture.env Fixture.up)
           "https://example.com/new" None None
           (Fixture.world [Fixture.link])).



(** What a redirect can have done to the tables: to the links, nothing
    or one more click on the counter of the rows with one key; to the
    clicks, nothing or one more row. *)
Definition get_frame (w w' : Models.World) : Prop :=
  (Models.urlshortener_table (Models.db w') = Models.urlshortener_table (Models.db w)
   \/ exists pk, Models.urlshortener_table (Models.db w')
                 = map (bump pk) (Models.urlshortener_table (Models.db w)))
  /\ (Models.urlclick_table (Models.db w') = Models.urlclick_table (Models.db w)
      \/ exists c, Models.urlclick_table (Models.db w')
                   = (Models.urlclick_table (Models.db w) ++ [c])%list).

(** ** The rate limit *)

(** The key and the limit [process_request] checks the request under;
    [None] for a request it lets through unchecked. *)
Definition rule (request : RateLimitMiddleware.HttpRequest)
  : option (string * nat) :=
  if Py.startswith "/admin/" (RateLimitMiddleware.path request)
     || Py.startswith "/static/" (RateLimitMiddleware.path request)
  then None
  else
    let ip := RateLimitMiddleware.format_ip
                (RateLimitMiddleware.get_client_ip request) in
    if Py.startswith "/api/" (RateLimitMiddleware.path request)
    then Some ("api_rate_limit:" ++ ip,
               if RateLimitMiddleware.user_is_authenticated request
               then 1000 else 100)
    else if String.eqb (RateLimitMiddleware.method request) "POST"
    then Some ("form_rate_limit:" ++ ip, 50)
    else None.

(** The request is checked under [key]. *)
Definition keyed (key : string) (request : RateLimitMiddleware.HttpRequest)
  : bool :=
  match rule request with
  | Some (k, _) => String.eqb k key
  | None => false
  end.

(** The request is checked under [key], with a limit of at most
    [bound]. *)
Definition counts (key : string) (bound : nat)
           (request : RateLimitMiddleware.HttpRequest) : bool :=
  match rule request with
  | Some (k, limit) => String.eqb k key && (limit <=? bound)
  | None => false
  end.

(** Both calls of the cache succeed while the request is served. *)
Definition cache_works (request : RateLimitMiddleware.HttpRequest) : bool :=
  match RateLimitMiddleware.get_raises request,
        RateLimitMiddleware.set_raises request with
  | None, None => true
  | _, _ => false
  end.

(** How many of the requests that count were let through. *)
Fixpoint let_through (key : string) (bound : nat)
         (requests : list RateLimitMiddleware.HttpRequest)
         (answers : list (option RateLimitMiddleware.HttpResponse)) : nat :=
  match requests, answers with
  | request :: requests', answer :: answers' =>
      (if counts key bound request
       then match answer with None => 1 | Some _ => 0 end
       else 0) + let_through key bound requests' answers'
  | _, _ => 0
  end.

(** The entry of [key]. *)
Definition entry (key : string) (c : RateLimitMiddleware.Cache)
  : option (nat * Z) :=
  option_map snd (find (fun e => String.eqb (fst e) key) c).

(** The count the cache gives for [key] at the instant [t]. *)
Definition current (key : string) (t : Z) (c : RateLimitMiddleware.Cache) : nat :=
  match entry key c with
  | Some (value, expires) => if (t <? expires)%Z then value else 0
  | None => 0
  end.

(** Every request checked under [key] is served in the stretch of 3600
    seconds that starts at [a]. *)
Definition in_stretch (key : string) (a : Z)
           (requests : list RateLimitMiddleware.HttpRequest) : bool :=
  forallb (fun r => negb (keyed key r)
                    || ((a <=? RateLimitMiddleware.now r)%Z
                        && (RateLimitMiddleware.now r <? a + 3600)%Z))
          requests.

(** The cache works for every request that counts. *)
Definition cache_up (key : string) (bound : nat)
           (requests : list RateLimitMiddleware.HttpRequest) : bool :=
  forallb (fun r => negb (counts key bound r) || cache_works r) requests.

(** Each request is checked under [key] with the limit [limit], while
    the cache works, and is served less than 3600 seconds after the one
    before; [t] is the instant of the one before the first. *)
Fixpoint chained (key : string) (limit : nat) (t : Z)
         (requests : list RateLimitMiddleware.HttpRequest) : bool :=
  match requests with
  | [] => true
  | r :: rest =>
      match rule r with
      | Some (k, l) => String.eqb k key && (l =? limit)
      | None => false
      end
      && cache_works r
      && (RateLimitMiddleware.now r <? t + 3600)%Z
      && chained key limit (RateLimitMiddleware.now r) rest
  end.

(** A submission of the form from one address at the instant [t]. *)
Definition form_post (t : Z) : RateLimitMiddleware.HttpRequest :=
  {| RateLimitMiddleware.path := "/";
     RateLimitMiddleware.method := "POST";
     RateLimitMiddleware.user_is_authenticated := false;
     RateLimitMiddleware.META := Fixture.request;
     RateLimitMiddleware.now := t;
     RateLimitMiddleware.get_raises := None;
     RateLimitMiddleware.set_raises := None |}.

Definition empty_cache : RateLimitMiddleware.State :=
  {| RateLimitMiddleware.cache := []; RateLimitMiddleware.log := [] |}.

(** Submissions at the given distance from each other, the first at
    [t]. *)
Fixpoint posts (n : nat) (t distance : Z) : list RateLimitMiddleware.HttpRequest :=
  match n with
  | O => []
  | S n' => form_post t :: posts n' (t + distance) distance
  end.

(** ** What the pages that only read show *)

(** Sorted by [key], the largest first. *)
Definition newest_first {A : Type} (key : A -> Z) (rows : list A) : Prop :=
  StronglySorted (fun a b => (key b <= key a)%Z) rows.

(** [shown] are the [n] first of [rows] by [key]: as many as there are,
    up to [n], the largest first, and [rest] is what is left out, none
    of it larger than what is shown. *)
Definition newest_of {A : Type} (key : A -> Z) (n : nat)
           (rows shown rest : list A) : Prop :=
  List.length shown = Nat.min n (List.length rows)
  /\ newest_first key shown
  /\ Permutation (shown ++ rest) rows
  /\ forall a b, In a shown -> In b rest -> (key b <= key a)%Z.

(** The links in service. *)
Definition active_links (w : Models.World) : list Models.URLShortener :=
  filter Models.is_active (Models.urlshortener_table (Models.db w)).

(** The click [c], when there is one, is the last of the link: none of
    its clicks is later; there is none when the link has no click. *)
Definition last_of (l : Models.URLShortener) (w : Models.World)
           (c : option Models.URLClick) : Prop :=
  match c with
  | Some c =>
      In c (clicks_of (Models.id l) w)
      /\ forall c', In c' (clicks_of (Models.id l) w) ->
                    (Models.click_created_at c' <= Models.click_created_at c)%Z
  | None => clicks_of (Models.id l) w = []
  end.

(** The viewer may see the analytics of the link: the link is public,
    or the viewer has created it. *)
Definition permitted (user : option nat) (l : Models.URLShortener) : Prop :=
  Models.is_public l = true
  \/ exists u, user = Some u /\ Models.created_by l = Some u.

(** The clicks of the link in the thirty days before the request. *)
Definition clicks_of_month (site : Analytics.Site) (l : Models.URLShortener)
           (w : Models.World) : list Models.URLClick :=
  filter (fun c => Analytics.of_url l c && Analytics.since site 30 c)
         (Models.urlclick_table (Models.db w)).

(** What the charts of a link add up to: the devices to its recorded
    clicks, the days to its clicks of the month; and there is no
    country when no recorded click has a place. *)
Definition charts_of (site : Analytics.Site) (l : Models.URLShortener)
           (w : Models.World) (cd : Analytics.click_data) : Prop :=
  list_sum (map snd (Analytics.device_clicks cd))
  = List.length (clicks_of (Models.id l) w)
  /\ list_sum (map snd (Analytics.daily_clicks cd))
     = List.length (clicks_of_month site l w)
  /\ (Forall no_place (Models.urlclick_table (Models.db w)) ->
      Analytics.country_clicks cd = []).

(** What the page of analytics shows for the key in the world [w]: the
    link of the key, which the viewer may see; its clicks of the month,
    the hundred last of them, the last first; charts that add up. *)
Definition shows (site : Analytics.Site) (user : option nat) (key : string)
           (w : Models.World) (c : Analytics.context) : Prop :=
  In (Analytics.url_obj c) (Models.urlshortener_table (Models.db w))
  /\ Models.matches_key key (Analytics.url_obj c) = true
  /\ permitted user (Analytics.url_obj c)
  /\ Analytics.clicks_this_month (Analytics.analytics c)
     = List.length (clicks_of_month site (Analytics.url_obj c) w)
  /\ (exists rest,
        newest_of Models.click_created_at 100
                  (clicks_of_month site (Analytics.url_obj c) w)
                  (Analytics.recent_clicks c) rest)
  /\ charts_of site (Analytics.url_obj c) w (Analytics.clicks c).

(** A site whose storage is up, at the instant 200 of [Fixture.env]. *)
Definition site_up : Analytics.Site :=
  {| Analytics.env := Fixture.env Fixture.up;
     Analytics.fails := fun _ => false;
     Analytics.date := fun t => (t / 86400000000)%Z;
     Analytics.today := 0;
     Analytics.sql_date := fun t => (t / 86400000000)%Z |}.

(** A link of the user 7 that is not public. *)
Definition private_link : Models.URLShortener :=
  {| Models.id := Some 1; Models.original_url := "https://example.com/test";
     Models.short_code := "abc123"; Models.custom_alias := None;
     Models.click_count := 0; Models.created_at := 100; Models.updated_at := 100;
     Models.expires_at := None; Models.created_by := Some 7;
     Models.title := ""; Models.description := ""; Models.domain := "example.com";
     Models.is_active := true; Models.is_public := false;
     Models.category := None |}.

(** A click on the link 1 at the instant [t]. *)
Definition click_at (pk : nat) (t : Z) (device : string) : Models.URLClick :=
  {| Models.click_id := Some pk; Models.url := Some 1;
     Models.ip_address := Some "127.0.0.1"; Models.user_agent := "";
     Models.referer := None; Models.country := ""; Models.city := "";
     Models.click_device_type := device; Models.click_browser := "";
     Models.click_os := ""; Models.click_created_at := t |}.

(** [Fixture.link] after three clicks. *)
Definition world_clicked : Models.World :=
  {| Models.db :=
       {| Models.urlshortener_table := [Fixture.link];
          Models.urlclick_table :=
            [click_at 1 110 "mobile"; click_at 2 150 "desktop";
             click_at 3 120 "mobile"];
          Models.urlshortener_seq := 1; Models.urlclick_seq := 3 |};
     Models.entropy := fun _ => 0; Models.drawn := 0; Models.log := [] |}.

(** The page of analytics of [Fixture.link] then. *)
Definition page_clicked : Analytics.context :=
  Eval vm_compute in
    match fst (Analytics.get site_up None "abc123" world_clicked) with
    | Exn.Return (Analytics.render_analytics c) => c
    | _ =>
        {| Analytics.url_obj := Fixture.link;
           Analytics.analytics :=
             {| Analytics.total_clicks := 0; Analytics.clicks_today := 0;
                Analytics.clicks_this_week := 0; Analytics.clicks_this_month := 0;
                Analytics.data_created_at := 0; Analytics.last_clicked := None |};
           Analytics.recent_clicks := [];
           Analytics.clicks :=
             {| Analytics.daily_clicks := []; Analytics.device_clicks := [];
                Analytics.browser_clicks := []; Analytics.country_clicks := [] |};
           Analytics.qr_code_url := None |}
    end.

(** The world after one more line in the log. *)
Definition logged (w : Models.World) (l : Models.level) (msg : string)
  : Models.World :=
  {| Models.db := Models.db w; Models.entropy := Models.entropy w;
     Models.drawn := Models.drawn w;
     Models.log := (Models.log w ++ [(l, msg)])%list |}.

(** ** What a bulk submission answers *)

(** What is answered for a line, given the links there are in the end:
    an error for a URL that is invalid or unsafe; for a valid and safe
    one the short URL of a link in service for the validated URL, or an
    error. *)
Definition answered (env : Models.Env) (rows : list Models.URLShortener)
           (r : Bulk.result) : Prop :=
  match Utils.validate_url (Models.urllib env) (Bulk.original r) with
  | Exn.Return n =>
      if Utils.is_safe_url (Models.urllib env) n then
        (Bulk.status r = "success" /\ Bulk.error r = None
         /\ exists l, In l rows /\ Models.original_url l = n
                      /\ Models.is_active l = true
                      /\ Bulk.shortened r = Models.get_short_url env l)
        \/ (Bulk.status r = "error" /\ Bulk.shortened r = ""
            /\ Bulk.error r = Some "Error processing URL")
      else
        Bulk.status r = "error" /\ Bulk.shortened r = ""
        /\ Bulk.error r = Some "Unsafe URL detected"
  | Exn.Raise e =>
      Bulk.status r = "error" /\ Bulk.shortened r = ""
      /\ Bulk.error r = Some (Exn.str e)
  end.

(** The link was made for one of the lines answered, and is the link of
    its answer. *)
Definition asked (env : Models.Env) (results : list Bulk.result)
           (l : Models.URLShortener) : Prop :=
  exists r, In r results
            /\ Bulk.status r = "success"
            /\ Bulk.shortened r = Models.get_short_url env l
            /\ Utils.validate_url (Models.urllib env) (Bulk.original r)
               = Exn.Return (Models.original_url l).

(** The link is in service, and no link of [rows] in service has its
    URL. *)
Definition novel (rows : list Models.URLShortener) (l : Models.URLShortener)
  : Prop :=
  Models.is_active l = true
  /\ filter (Bulk.matches_url (Models.original_url l)) rows = [].


(* ================================================================== *)
(** * Properties *)

(** ** Strings *)

Lemma take_length (n : nat) (s : string) :
  n <= String.length s -> String.length (Py.take n s) = n.
Proof.
  revert s; induction n as [|n IH]; intros [|c s] H; simpl in *;
    try reflexivity; try lia.
  rewrite IH; [reflexivity | lia].
Qed.

Lemma all_take (p : ascii -> bool) (n : nat) (s : string) :
  Py.all p s = true -> Py.all p (Py.take n s) = true.
Proof.
  revert s; induction n as [|n IH]; intros [|c s] H; simpl in *; auto.
  apply andb_true_iff in H as [Hc Hs].
  rewrite Hc, (IH _ Hs); reflexivity.
Qed.

(** ** [hashlib]: the shape of a hexadecimal digest *)

Example md5_abc :
  Hashlib.md5_hexdigest "abc" = "900150983cd24fb0d6963f7d28e17f72".
Proof. vm_compute. reflexivity. Qed.

Example md5_empty :
  Hashlib.md5_hexdigest "" = "d41d8cd98f00b204e9800998ecf8427e".
Proof. vm_compute. reflexivity. Qed.

Lemma le_bytes_length (n : nat) (x : Z) : List.length (Hashlib.le_bytes n x) = n.
Proof.
  revert x; induction n as [|n IH]; intros x; simpl; [|rewrite IH]; reflexivity.
Qed.

Lemma md5_length (msg : list Z) : List.length (Hashlib.md5 msg) = 16.
Proof.
  unfold Hashlib.md5.
  destruct (Hashlib.blocks _ _ _) as [a b c d].
  rewrite !length_app, !le_bytes_length; reflexivity.
Qed.

Lemma hex_length (bytes : list Z) :
  String.length (Hashlib.hex bytes) = 2 * List.length bytes.
Proof.
  induction bytes as [|b bs IH]; simpl; [reflexivity | rewrite IH; lia].
Qed.

Lemma hex_digit_alnum (n : Z) : is_alnum (Hashlib.hex_digit n) = true.
Proof.
  unfold Hashlib.hex_digit.
  assert (H : forallb is_alnum Hashlib.hexdigits = true) by reflexivity.
  rewrite forallb_forall in H; apply H, nth_In.
  change (List.length Hashlib.hexdigits) with 16.
  pose proof (Z.mod_pos_bound n 16); lia.
Qed.

Lemma hex_alnum (bytes : list Z) : Py.all is_alnum (Hashlib.hex bytes) = true.
Proof.
  induction bytes as [|b bs IH]; simpl; [reflexivity|].
  rewrite !hex_digit_alnum, IH; reflexivity.
Qed.

Lemma md5_hexdigest_length (s : string) :
  String.length (Hashlib.md5_hexdigest s) = 32.
Proof. unfold Hashlib.md5_hexdigest; rewrite hex_length, md5_length; reflexivity. Qed.

(** Two worlds, or two answers with their worlds, that differ in a
    counter only. *)
Ltac same_world := repeat (f_equal; try lia).

(** ** The code generator *)

Section Generator.

Import Exn Models.

Variable env : Env.

Lemma after_draws_0 (w : World) : after_draws 0 w = w.
Proof. destruct w; unfold after_draws; simpl; same_world. Qed.

Lemma random_choice_alnum (w : World) :
  exists c, random_choice characters w = (Return c, after_draws 1 w)
            /\ is_alnum c = true.
Proof.
  eexists; split.
  - unfold random_choice, after_draws;
      change characters with ("a"%char :: tl characters);
      cbv beta iota; same_world.
  - assert (H : forallb is_alnum characters = true) by reflexivity.
    rewrite forallb_forall in H; apply H, nth_In.
    apply Nat.mod_upper_bound; discriminate.
Qed.

Lemma random_code_spec (n : nat) (w : World) :
  exists code, random_code n w = (Return code, after_draws n w)
               /\ String.length code = n /\ Py.all is_alnum code = true.
Proof.
  revert w; induction n as [|n IH]; intros w; simpl.
  - exists EmptyString; rewrite after_draws_0; repeat split.
  - destruct (random_choice_alnum w) as (c & Hc & Hal).
    destruct (IH (after_draws 1 w)) as (s & Hs & Hlen & Hall).
    exists (String c s); unfold bind; rewrite Hc, Hs; simpl.
    rewrite Hlen, Hal, Hall; repeat split.
    unfold ret, after_draws; simpl; same_world.
Qed.

Lemma select_exists_spec (s : stmt) (p : URLShortener -> bool) (w : World) :
  select_exists env s p w =
    if outage env s then (Raise (DatabaseError "database is unavailable"), w)
    else (Return (existsb p (urlshortener_table (db w))), w).
Proof.
  unfold select_exists, execute, bind; destruct (outage env s); reflexivity.
Qed.

(** The loop: a code it returns is six alphanumeric characters no row
    has; when it runs out it has drawn [6 * attempts] characters; it
    raises only when the storage fails the existence query. *)
Lemma try_codes_spec (attempts : nat) (w : World) :
  match try_codes env attempts 6 w with
  | (Return (Some code), w') =>
      String.length code = 6 /\ Py.all is_alnum code = true
      /\ code_taken code w = false
      /\ (exists n, n <= attempts /\ w' = after_draws (6 * n) w)
  | (Return None, w') => w' = after_draws (6 * attempts) w
  | (Raise e, _) =>
      outage env SelectCodeExists = true
      /\ e = DatabaseError "database is unavailable"
  end.
Proof.
  revert w; induction attempts as [|k IH]; intros w.
  - simpl; unfold ret; rewrite after_draws_0; reflexivity.
  - cbn [try_codes]; unfold bind at 1.
    destruct (random_code_spec 6 w) as (code & Hcode & Hlen & Hall).
    rewrite Hcode; unfold bind at 1; rewrite select_exists_spec.
    destruct (outage env SelectCodeExists) eqn:Hout; [split; reflexivity|].
    destruct (existsb _ _) eqn:Htaken; simpl.
    + specialize (IH (after_draws 6 w)).
      destruct (try_codes env k 6 (after_draws 6 w)) as [[[c|]|e] w']; auto.
      * destruct IH as (? & ? & ? & n & Hn & ->); repeat split; auto.
        exists (S n); split; [lia|].
        unfold after_draws; simpl; same_world.
      * subst w'; unfold after_draws; simpl; same_world.
    + unfold ret; repeat split; auto.
      exists 1; split; [lia | reflexivity].
Qed.

(** Generating a code moves the random generator, by six draws for each
    of at most 100 candidates, and nothing else. *)
Lemma generate_short_code_draws (self : URLShortener) (w : World) :
  match generate_short_code env self 6 w with
  | (Return _, w') => exists n, n <= 100 /\ w' = after_draws (6 * n) w
  | (Raise e, _) =>
      outage env SelectCodeExists = true
      /\ e = DatabaseError "database is unavailable"
  end.
Proof.
  unfold generate_short_code, bind.
  pose proof (try_codes_spec 100 w) as H.
  destruct (try_codes env 100 6 w) as [[[code|]|e] w']; [| |exact H].
  - destruct H as (_ & _ & _ & H); exact H.
  - exists 100; split; [lia | exact H].
Qed.

End Generator.

(** C1. Every short code [generate_short_code] returns is six characters
    of [A-Za-z0-9], on the random path (at most 100 candidates drawn from
    the 62 symbols, the one returned held by no row) and on the fallback
    path (after 100 candidates: the first six hexadecimal characters of
    the MD5 digest of the target URL followed by the time).  Nothing but
    the position of the random generator changes.  The generator raises
    only when the storage fails its existence query. *)
Theorem generate_short_code_six_alphanumeric
        (env : Models.Env) (self : Models.URLShortener) (w : Models.World) :
  match Models.generate_short_code env self 6 w with
  | (Exn.Return code, w') =>
      String.length code = 6
      /\ Py.all is_alnum code = true
      /\ exists n, n <= 100 /\ w' = after_draws (6 * n) w
         /\ (code_taken code w = false
             \/ (n = 100
                 /\ code = Py.take 6 (Hashlib.md5_hexdigest
                                        (Models.original_url self
                                         ++ Models.now_isoformat env))))
  | (Exn.Raise e, _) =>
      Models.outage env Models.SelectCodeExists = true
      /\ e = Exn.DatabaseError "database is unavailable"
  end.
Proof.
  unfold Models.generate_short_code, Models.bind.
  pose proof (try_codes_spec env 100 w) as H.
  destruct (Models.try_codes env 100 6 w) as [[[code|]|e] w']; auto.
  - destruct H as (Hlen & Hall & Hfree & n & Hn & ->).
    unfold Models.ret; repeat split; auto.
    exists n; repeat split; auto.
  - subst w'; unfold Models.ret; repeat split.
    + apply take_length; rewrite md5_hexdigest_length; lia.
    + apply all_take, hex_alnum.
    + exists 100; repeat split; auto.
Qed.

(** ** The alias validator *)

Section Alias.

Import Utils.

Lemma at_eol_cons (c : ascii) (s : string) :
  Re.at_eol (String c s) = Ascii.eqb c Py.LF && negb (Py.truthy s).
Proof. destruct s; simpl; [rewrite andb_true_r|rewrite andb_false_r]; reflexivity. Qed.

(** What [[a-zA-Z0-9_-]{lo,}$] accepts. *)
Lemma rep_alias_eol (lo pos : nat) (s : string) :
  Re.rep alias_char lo None (Re.match_here [Re.Eol]) pos s =
    (lo <=? String.length (chomp s)) && Py.all alias_char (chomp s).
Proof.
  revert lo pos; induction s as [|c s IH]; intros lo pos.
  - simpl; destruct lo; reflexivity.
  - cbn [Re.rep Re.may_take Re.after_take].
    rewrite IH; cbn [Re.match_here]; rewrite at_eol_cons.
    destruct (Ascii.eqb c Py.LF) eqn:Hc.
    + apply Ascii.eqb_eq in Hc; subst c.
      destruct s as [|d s]; destruct lo; simpl;
        rewrite ?andb_false_r, ?andb_true_r, ?orb_false_r; reflexivity.
    + replace (chomp (String c s)) with (String c (chomp s))
        by (destruct s; simpl; [rewrite Hc|]; reflexivity).
      cbn [String.length Py.all].
      replace (Nat.pred lo <=? String.length (chomp s))
        with (lo <=? S (String.length (chomp s)))
        by (destruct lo; reflexivity).
      destruct (alias_char c), (lo <=? _), (Py.all _ _), (lo =? 0); reflexivity.
Qed.

(** [re.match(r'^[a-zA-Z0-9_-]+$', s)] accepts [s] when [s] without a
    final newline is a non-empty run of the class. *)
Lemma alias_pattern_spec (s : string) :
  Re.re_match alias_pattern s =
    Py.truthy (chomp s) && Py.all alias_char (chomp s).
Proof.
  unfold Re.re_match, alias_pattern, Re.plus; cbn [Re.match_here].
  rewrite rep_alias_eol; destruct (chomp s); reflexivity.
Qed.

(** The validator and the rules agree on every alias that does not end
    in a newline. *)
Lemma is_valid_custom_alias_rules (alias : option string) :
  match alias with
  | Some a => chomp a = a
  | None => True
  end ->
  is_valid_custom_alias alias = isValidAlias alias.
Proof.
  destruct alias as [[|c a]|]; intros H; try reflexivity.
  unfold is_valid_custom_alias, isValidAlias, alias_rules.
  rewrite alias_pattern_spec, H.
  set (n := String.length (String c a)).
  rewrite Nat.ltb_antisym, (Nat.ltb_antisym n 50).
  generalize (Py.mem (Py.lower (String c a)) reserved_words).
  generalize (Py.all alias_char (String c a)).
  unfold Py.truthy.
  intros [|] [|]; destruct (3 <=? n), (n <=? 50); reflexivity.
Qed.

(** The examples of the specification and of [UtilsTest]. *)
Lemma is_valid_custom_alias_examples :
  is_valid_custom_alias (Some "admin") = false
  /\ is_valid_custom_alias (Some "ab") = false
  /\ is_valid_custom_alias (Some "my-link_1") = true
  /\ is_valid_custom_alias (Some "my link") = false
  /\ is_valid_custom_alias (Some "test@link") = false
  /\ is_valid_custom_alias (Some "") = true
  /\ is_valid_custom_alias None = true.
Proof. repeat split; reflexivity. Qed.

End Alias.


(** ** The URL normalizer *)

Section Normalizer.

Import Exn Urllib.

Lemma append_assoc (a b c : string) : (a ++ b) ++ c = a ++ (b ++ c).
Proof. induction a as [|x a IH]; simpl; [|rewrite IH]; reflexivity. Qed.

Lemma append_empty_r (a : string) : a ++ "" = a.
Proof. induction a as [|x a IH]; simpl; [|rewrite IH]; reflexivity. Qed.

Lemma truthy_lower (s : string) : Py.truthy (Py.lower s) = Py.truthy s.
Proof. destruct s; reflexivity. Qed.

Lemma split1_some (sep : ascii) (s a b : string) :
  Py.split1 sep s = Some (a, b) -> s = a ++ String sep b.
Proof.
  revert a b; induction s as [|c s IH]; intros a b; simpl; [discriminate|].
  destruct (Ascii.eqb c sep) eqn:Hc.
  - intros [= <- <-]; apply Ascii.eqb_eq in Hc; subst; reflexivity.
  - destruct (Py.split1 sep s) as [[a' b']|]; [|discriminate].
    intros [= <- <-]; simpl; rewrite (IH a' b' eq_refl); reflexivity.
Qed.

Lemma split1_none (sep : ascii) (s : string) :
  Py.split1 sep s = None <-> Py.has_char sep s = false.
Proof.
  induction s as [|c s IH]; simpl; [tauto|].
  destruct (Ascii.eqb c sep); simpl.
  - split; discriminate.
  - destruct (Py.split1 sep s) as [[a b]|].
    + split; [discriminate|]. intros H; apply IH in H; discriminate.
    + tauto.
Qed.

Lemma break_app (p : ascii -> bool) (s : string) :
  fst (Py.break p s) ++ snd (Py.break p s) = s.
Proof.
  induction s as [|c s IH]; simpl; [reflexivity|].
  destruct (p c); [reflexivity|].
  destruct (Py.break p s) as [a b]; simpl in *; rewrite IH; reflexivity.
Qed.

Lemma break_snd (p : ascii -> bool) (s : string) :
  match snd (Py.break p s) with
  | EmptyString => True
  | String c _ => p c = true
  end.
Proof.
  induction s as [|c s IH]; simpl; [exact I|].
  destruct (p c) eqn:Hc; [exact Hc|].
  destruct (Py.break p s) as [a b]; exact IH.
Qed.

Lemma last_segment_app (s : string) :
  fst (last_segment s) ++ snd (last_segment s) = s.
Proof.
  induction s as [|c s IH]; [reflexivity|].
  cbn [last_segment]. destruct (last_segment s) as [b seg].
  destruct (Py.has_char "/" (String c s)); simpl in *; [rewrite IH|]; reflexivity.
Qed.

Lemma lstrip_c0_https (u : string) : lstrip_c0 ("https://" ++ u) = "https://" ++ u.
Proof. reflexivity. Qed.

Lemma remove_unsafe_https (u : string) :
  remove_unsafe ("https://" ++ u) = "https://" ++ remove_unsafe u.
Proof. reflexivity. Qed.

Lemma split_scheme_https (x : string) :
  split_scheme ("https://" ++ x) = ("https", "//" ++ x).
Proof. reflexivity. Qed.

Lemma urlparse_https (lib : checks) (u : string) :
  match urlparse lib ("https://" ++ u) with
  | ValueError _ => refused lib (fst (splitnetloc (remove_unsafe u))) = true
  | Ok r =>
      refused lib (fst (splitnetloc (remove_unsafe u))) = false
      /\ r = let '(p, prm, qry, frag) :=
               rest_parts (snd (splitnetloc (remove_unsafe u))) in
             {| scheme := "https"; netloc := fst (splitnetloc (remove_unsafe u));
                path := p; params := prm; query := qry; fragment := frag |}
  end.
Proof.
  unfold urlparse, urlsplit.
  rewrite lstrip_c0_https, remove_unsafe_https, split_scheme_https.
  cbn [Py.startswith append Ascii.eqb Bool.eqb andb Py.drop].
  destruct (splitnetloc (remove_unsafe u)) as [net rest]; cbn [fst snd].
  unfold refused, rest_parts, cut.
  set (nf := Py.truthy net && negb (Py.all Py.is_ascii net)
             && negb (nfkc_ok lib net)).
  assert (Hparts : forall url3 frag : string,
    match
      match (let (url4, qry) := match Py.split1 "?" url3 with
                                | Some (a, b) => (a, b)
                                | None => (url3, "")
                                end in
             if nf then ValueError
               "netloc contains invalid characters under NFKC normalization"
             else Ok ("https", net, url4, qry, frag))
      with
      | Ok (sch, net, u0, qry, frag) =>
          let (p2, prm) :=
            if Py.mem sch uses_params && Py.has_char ";" u0
            then splitparams u0 else (u0, "") in
          Ok {| scheme := sch; netloc := net; path := p2; params := prm;
                query := qry; fragment := frag |}
      | ValueError m => ValueError m
      end
    with
    | Ok r =>
        nf = false
        /\ r = (let '(p, prm, qry0, frag0) :=
                  let (url4, qry) := match Py.split1 "?" url3 with
                                     | Some (a, b) => (a, b)
                                     | None => (url3, "")
                                     end in
                  let (p, prm) := if Py.has_char ";" url4 then splitparams url4
                                  else (url4, "") in
                  (p, prm, qry, frag) in
                {| scheme := "https"; netloc := net; path := p; params := prm;
                   query := qry0; fragment := frag0 |})
    | ValueError _ => nf = true
    end).
  { intros url3 frag.
    destruct (Py.split1 "?" url3) as [[url4 qry]|]; destruct nf;
      try reflexivity;
      change (Py.mem "https" uses_params) with true; cbn [andb];
      match goal with |- context [Py.has_char ";" ?x] =>
        destruct (Py.has_char ";" x); [destruct (splitparams x)|] end;
      split; reflexivity. }
  destruct (Py.has_char "[" net), (Py.has_char "]" net); cbn [andb orb negb];
    try reflexivity;
    try (destruct (bracketed_ok lib _); cbn [andb orb negb];
         [|reflexivity]);
    destruct (Py.split1 "#" rest) as [[url3 frag]|]; apply Hparts.
Qed.

Lemma urlunparse_https (net p prm qry frag : string) :
  Py.truthy net = true ->
  rooted (if Py.truthy prm then p ++ ";" ++ prm else p) = true ->
  urlunparse {| scheme := "https"; netloc := net; path := p; params := prm;
                query := qry; fragment := frag |}
  = "https://" ++ net ++ p ++ keep ";" prm ++ keep "?" qry ++ keep "#" frag.
Proof.
  intros Hnet Hroot.
  unfold urlunparse, urlunsplit; cbn [scheme netloc path params query fragment].
  rewrite Hnet; cbn [orb Py.truthy].
  set (url := if Py.truthy prm then p ++ ";" ++ prm else p) in *.
  assert (Hurl : url = p ++ keep ";" prm).
  { unfold url, keep; destruct (Py.truthy prm);
      [reflexivity | rewrite append_empty_r; reflexivity]. }
  replace (if Py.truthy url && negb (Py.startswith "/" url)
           then "/" ++ url else url) with url.
  2:{ unfold rooted in Hroot. destruct (Py.truthy url), (Py.startswith "/" url);
        try reflexivity; discriminate. }
  rewrite Hurl; unfold keep.
  destruct (Py.truthy qry), (Py.truthy frag);
    cbn [append]; rewrite ?append_assoc, ?append_empty_r; cbn [append];
    reflexivity.
Qed.

Lemma last_segment_rooted (s : string) :
  exists b, fst (last_segment (String "/" s)) = String "/" b.
Proof.
  cbn [last_segment]. destruct (last_segment s) as [b seg].
  change (Py.has_char "/" (String "/" s)) with true. exists b; reflexivity.
Qed.

Lemma rest_parts_rooted (x : string) :
  let '(p, prm, qry, frag) := rest_parts (snd (splitnetloc x)) in
  rooted (if Py.truthy prm then p ++ ";" ++ prm else p) = true.
Proof.
  unfold splitnetloc.
  pose proof (break_snd is_netloc_delim x) as H.
  destruct (snd (Py.break is_netloc_delim x)) as [|c r]; [reflexivity|].
  unfold is_netloc_delim in H.
  apply orb_true_iff in H as [H|H]; [apply orb_true_iff in H as [H|H]|];
    apply Ascii.eqb_eq in H; subst c; unfold rest_parts, cut.
  - (* "/" *)
    assert (H3 : exists a f, match Py.split1 "#" (String "/" r) with
                             | Some (a, b) => (a, b)
                             | None => (String "/" r, "")
                             end = (String "/" a, f)).
    { cbn [Py.split1]. change (Ascii.eqb "/" "#") with false. cbv iota.
      destruct (Py.split1 "#" r) as [[a b]|]; eauto. }
    destruct H3 as (a3 & frag & ->).
    assert (H4 : exists a q, match Py.split1 "?" (String "/" a3) with
                             | Some (a, b) => (a, b)
                             | None => (String "/" a3, "")
                             end = (String "/" a, q)).
    { cbn [Py.split1]. change (Ascii.eqb "/" "?") with false. cbv iota.
      destruct (Py.split1 "?" a3) as [[a b]|]; eauto. }
    destruct H4 as (a4 & qry & ->).
    destruct (Py.has_char ";" (String "/" a4)); [|destruct (Py.truthy ""); reflexivity].
    unfold splitparams.
    destruct (last_segment_rooted a4) as (b & Hb).
    destruct (last_segment (String "/" a4)) as [before seg]; cbn [fst] in Hb; subst before.
    destruct (Py.split1 ";" seg) as [[a prm]|].
    + destruct (Py.truthy prm); reflexivity.
    + reflexivity.
  - (* "?" *)
    assert (H3 : exists a f, match Py.split1 "#" (String "?" r) with
                             | Some (a, b) => (a, b)
                             | None => (String "?" r, "")
                             end = (String "?" a, f)).
    { cbn [Py.split1]. change (Ascii.eqb "?" "#") with false. cbv iota.
      destruct (Py.split1 "#" r) as [[a b]|]; eauto. }
    destruct H3 as (a3 & frag & ->). reflexivity.
  - (* "#" *) reflexivity.
Qed.




End Normalizer.


(** The example of the specification. *)
Lemma validate_url_example_com (lib : Urllib.checks) :
  Utils.validate_url lib "example.com" = Exn.Return "https://example.com".
Proof. reflexivity. Qed.


(** A network location without a host passes: [validate_url] tests
    [netloc], which here is the port alone. *)
Lemma validate_url_accepts_missing_host :
  Utils.validate_url Urllib.lenient ":8080" = Exn.Return "https://:8080".
Proof. reflexivity. Qed.

(** ** The statements of a request *)

Section Statements.

Import Exn Models.

Variable env : Env.

Lemma select_first_spec (s : stmt) (p : URLShortener -> bool) (w : World) :
  select_first env s p w =
    if outage env s then unavailable w
    else (Return (first (filter p (urlshortener_table (db w)))), w).
Proof.
  cbv [select_first execute bind ret raise get_db unavailable].
  destruct (outage env s); reflexivity.
Qed.

Lemma update_url_spec (pk : option nat) (a : list assignment) (w : World) :
  update_url env pk a w =
    if outage env UpdateURL then unavailable w
    else if existsb (has_pk pk) (urlshortener_table (db w))
    then (Return tt,
          set_urls w (map (fun r => if has_pk pk r then assign_all a r else r)
                          (urlshortener_table (db w))))
    else (Raise (DatabaseError "Save with update_fields did not affect any rows."), w).
Proof.
  cbv [update_url execute bind ret raise get_db put_db unavailable set_urls].
  destruct (outage env UpdateURL); [reflexivity|].
  destruct (existsb _ _); reflexivity.
Qed.

Lemma refresh_from_db_spec (self : URLShortener) (w : World) :
  refresh_from_db env self w =
    if outage env SelectURLByPk then unavailable w
    else match find (has_pk (id self)) (urlshortener_table (db w)) with
         | Some r => (Return r, w)
         | None => (Raise DoesNotExist, w)
         end.
Proof.
  cbv [refresh_from_db execute bind ret raise get_db unavailable].
  destruct (outage env SelectURLByPk); [reflexivity|].
  destruct (find _ _); reflexivity.
Qed.

Lemma with_domain_id (self : URLShortener) : id (with_domain env self) = id self.
Proof.
  unfold with_domain. destruct (_ && _); [|reflexivity].
  destruct (Urllib.urlparse _ _); reflexivity.
Qed.

Lemma save_update_spec (self : URLShortener) (a : list assignment) (w : World) :
  Py.truthy (short_code self) = true ->
  save env self (Some a) w =
    match update_url env (id self) a w with
    | (Return _, w') => (Return (with_domain env self), w')
    | (Raise e, w') => (Raise e, w')
    end.
Proof.
  intros H. unfold save. rewrite H; cbn [negb]. unfold bind at 1. unfold ret at 1.
  fold (with_domain env self). unfold bind. rewrite with_domain_id.
  destruct (update_url env (id self) a w) as [[[]|e] w']; reflexivity.
Qed.

(** *** The tables *)

Lemma has_pk_refl (l : URLShortener) (pk : nat) :
  id l = Some pk -> has_pk (id l) l = true.
Proof. intros H; unfold has_pk; rewrite H; apply Nat.eqb_refl. Qed.

Lemma has_pk_eq (pk : option nat) (r : URLShortener) :
  has_pk pk r = true -> id r = pk.
Proof.
  unfold has_pk; destruct (id r) as [a|], pk as [b|]; try discriminate.
  intros H; apply Nat.eqb_eq in H; congruence.
Qed.

Lemma find_well_keyed (rows : list URLShortener) (l : URLShortener) :
  well_keyed rows = true -> In l rows -> find (has_pk (id l)) rows = Some l.
Proof.
  induction rows as [|r rs IH]; intros Hk Hin; [destruct Hin|].
  cbn [well_keyed] in Hk; apply andb_true_iff in Hk as [Hr Hrs].
  destruct (id r) as [a|] eqn:Ha; [|discriminate].
  cbn [find]. destruct Hin as [->|Hin].
  - rewrite (has_pk_refl _ _ Ha); reflexivity.
  - destruct (has_pk (id l) r) eqn:Hlr; [|auto].
    apply has_pk_eq in Hlr.
    assert (existsb (has_pk (Some a)) rs = true) as Hex.
    { apply existsb_exists; exists l; split; [exact Hin|].
      rewrite <- Ha, Hlr. apply has_pk_refl with a. congruence. }
    rewrite Hex in Hr; discriminate.
Qed.

Lemma first_In (rows : list URLShortener) (l : URLShortener) :
  first rows = Some l -> In l rows.
Proof.
  revert l; induction rows as [|r rs IH]; intros l; cbn [first]; [discriminate|].
  destruct (first rs) as [r'|].
  - destruct (_ <? _)%Z; intros [= <-]; [right; apply IH; reflexivity | left; reflexivity].
  - intros [= <-]; left; reflexivity.
Qed.

Lemma first_filter (p : URLShortener -> bool) (rows : list URLShortener)
      (l : URLShortener) :
  first (filter p rows) = Some l -> In l rows /\ p l = true.
Proof. intros H; apply first_In, filter_In in H; exact H. Qed.


Lemma has_pk_bump (pk pk' : option nat) (r : URLShortener) :
  has_pk pk (bump pk' r) = has_pk pk r.
Proof. unfold bump; destruct (has_pk pk' r); reflexivity. Qed.

Lemma find_map_bump (pk pk' : option nat) (rows : list URLShortener) :
  find (has_pk pk) (map (bump pk') rows)
  = option_map (bump pk') (find (has_pk pk) rows).
Proof.
  induction rows as [|r rs IH]; [reflexivity|].
  cbn [map find]; rewrite has_pk_bump; destruct (has_pk pk r); [reflexivity|exact IH].
Qed.




Lemma original_url_bump (pk : option nat) (r : URLShortener) :
  original_url (bump pk r) = original_url r.
Proof. unfold bump; destruct (has_pk pk r); reflexivity. Qed.


(** *** [track_click] and [get] *)

Lemma track_click_spec (request : Utils.HttpRequest) (l : URLShortener) (w : World) :
  exists w', Views.track_click env request l w = (Return tt, w')
             /\ tracking env request l w w'.
Proof.
  unfold tracking, tracked.
  cbv [Views.track_click try_except bind ret raise click_create execute
       get_db put_db logger].
  destruct (outage env InsertClick); cbn [negb andb].
  - eexists; split; [reflexivity|]; cbn; repeat split; eauto.
  - destruct (Utils.get_client_ip request) as [ip|].
    + eexists; split; [reflexivity|]; cbn; repeat split; eauto.
    + eexists; split; [reflexivity|]; cbn; repeat split; eauto.
Qed.

Lemma get_found (request : Utils.HttpRequest) (key : string) (w : World)
      (l : URLShortener) :
  outage env SelectURLByKey = false ->
  first (filter (matches_key key) (urlshortener_table (db w))) = Some l ->
  is_expired env l = false ->
  Py.truthy (short_code l) = true ->
  well_keyed (urlshortener_table (db w)) = true ->
  exists w1,
    Views.track_click env request l w = (Return tt, w1)
    /\ tracking env request l w w1
    /\ Views.get env request key w =
       if outage env UpdateURL
       then failed key (DatabaseError "database is unavailable") w1
       else
         let w2 := set_urls w1 (map (bump (id l)) (urlshortener_table (db w))) in
         if outage env SelectURLByPk
         then failed key (DatabaseError "database is unavailable") w2
         else (Return (Views.HttpResponseRedirect (original_url l)), w2).
Proof.
  intros Hsel Hfirst Hexp Hcode Hkeys.
  destruct (track_click_spec request l w) as (w1 & Htrack & Hw1).
  exists w1; split; [exact Htrack | split; [exact Hw1|]].
  destruct Hw1 as (Hrows & _).
  apply first_filter in Hfirst as Hin; destruct Hin as [Hin _].
  unfold Views.get, try_except.
  unfold bind at 1; rewrite select_first_spec, Hsel, Hfirst, Hexp.
  unfold bind at 1; rewrite Htrack.
  unfold bind at 1, increment_click_count, bind at 1.
  rewrite (save_update_spec _ _ _ Hcode), update_url_spec.
  destruct (outage env UpdateURL); [reflexivity|].
  rewrite Hrows.
  assert (existsb (has_pk (id l)) (urlshortener_table (db w)) = true) as ->.
  { apply existsb_exists; exists l; split; [exact Hin|].
    pose proof (find_well_keyed _ _ Hkeys Hin) as Hf.
    apply find_some in Hf; apply Hf. }
  rewrite refresh_from_db_spec, with_domain_id.
  destruct (outage env SelectURLByPk); [reflexivity|].
  cbn [db set_urls with_urls urlshortener_table].
  change (map (fun r => if has_pk (id l) r then assign_all [SetClickCountF 1] r else r))
    with (map (bump (id l))).
  rewrite find_map_bump, (find_well_keyed _ _ Hkeys Hin); cbn [option_map].
  unfold ret. rewrite (original_url_bump (id l) l). reflexivity.
Qed.

End Statements.

Import Exn Models.



(** ** Resolving twice *)

Lemma bump_self (l : URLShortener) (pk : nat) :
  id l = Some pk -> bump (id l) l = assign (SetClickCountF 1) l.
Proof. intros H; unfold bump; rewrite (has_pk_refl _ _ H); reflexivity. Qed.

Lemma well_keyed_In (rows : list URLShortener) (l : URLShortener) :
  well_keyed rows = true -> In l rows -> exists pk, id l = Some pk.
Proof.
  intros Hk Hin; apply (find_well_keyed _ _ Hk), find_some in Hin as [_ H].
  unfold has_pk in H; destruct (id l) as [pk|]; [eauto | discriminate].
Qed.





(** ** A failing counter update *)

(** C8. When the update of the counter fails, the request that resolved
    to an active link is answered with the error page, not with the
    redirect; the click is already in its table. *)
Theorem get_update_failure_loses_redirect :
  let (response, w') :=
    Views.get (Fixture.env Fixture.update_down) Fixture.request "abc123"
              (Fixture.world [Fixture.link]) in
  response = Return Views.request_error
  /\ response <> Return (Views.HttpResponseRedirect "https://example.com/test")
  /\ List.length (urlclick_table (db w')) = 1
  /\ count_of (Some 1) w' = Some 0.
Proof. vm_compute. repeat split. discriminate. Qed.


(** The other half: whenever the update fails the answer is the error
    page. *)
Lemma get_update_outage
      (env : Env) (request : Utils.HttpRequest) (key : string)
      (w : World) (l : URLShortener) :
  outage env SelectURLByKey = false ->
  outage env UpdateURL = true ->
  well_keyed (urlshortener_table (db w)) = true ->
  first (filter (matches_key key) (urlshortener_table (db w))) = Some l ->
  is_expired env l = false ->
  Py.truthy (short_code l) = true ->
  fst (Views.get env request key w) = Return Views.request_error.
Proof.
  intros Hsel Hupd Hk Hfirst Hexp Hcode.
  destruct (get_found env request key w l Hsel Hfirst Hexp Hcode Hk)
    as (w1 & _ & _ & Hget).
  rewrite Hupd in Hget; rewrite Hget; reflexivity.
Qed.

(** ** The counter and the time of the last change *)

Lemma increment_click_count_spec (env : Env) (l : URLShortener) (w : World) :
  outage env UpdateURL = false -> outage env SelectURLByPk = false ->
  well_keyed (urlshortener_table (db w)) = true ->
  In l (urlshortener_table (db w)) ->
  Py.truthy (short_code l) = true ->
  increment_click_count env l w
  = (Return (assign (SetClickCountF 1) l),
     set_urls w (map (bump (id l)) (urlshortener_table (db w)))).
Proof.
  intros Hupd Href Hk Hin Hcode.
  destruct (well_keyed_In _ _ Hk Hin) as [pk Hpk].
  unfold increment_click_count, bind.
  rewrite (save_update_spec _ _ _ _ Hcode), update_url_spec, Hupd.
  assert (existsb (has_pk (id l)) (urlshortener_table (db w)) = true) as ->.
  { apply existsb_exists; exists l; split; [exact Hin|].
    apply (has_pk_refl _ _ Hpk). }
  rewrite refresh_from_db_spec, with_domain_id, Href.
  cbn [db set_urls with_urls urlshortener_table].
  change (map (fun r => if has_pk (id l) r then assign_all [SetClickCountF 1] r else r))
    with (map (bump (id l))).
  rewrite find_map_bump, (find_well_keyed _ _ Hk Hin); cbn [option_map].
  rewrite (bump_self _ _ Hpk); reflexivity.
Qed.

(** The update writes [click_count] and nothing else: every other column
    of every row, [updated_at] among them, is as before. *)
Lemma bump_frame (pk : option nat) (r : URLShortener) :
  bump pk r
  = {| id := id r; original_url := original_url r; short_code := short_code r;
       custom_alias := custom_alias r;
       click_count := click_count r + (if has_pk pk r then 1 else 0);
       created_at := created_at r; updated_at := updated_at r;
       expires_at := expires_at r; created_by := created_by r;
       title := title r; description := description r; domain := domain r;
       is_active := is_active r; is_public := is_public r;
       category := category r |}.
Proof.
  unfold bump; destruct (has_pk pk r); cbn [assign]; [reflexivity|].
  destruct r; cbn; f_equal; lia.
Qed.

(** C9. The click recorder's increment leaves [updated_at] where it was:
    a link last changed at instant 100 and incremented at instant 200
    still says 100.  Nothing but [click_count] changes. *)
Theorem increment_click_count_keeps_updated_at :
  let (result, w') :=
    increment_click_count (Fixture.env Fixture.up) Fixture.link
                          (Fixture.world [Fixture.link]) in
  now (Fixture.env Fixture.up) = 200%Z
  /\ updated_at Fixture.link = 100%Z
  /\ result = Return (assign (SetClickCountF 1) Fixture.link)
  /\ urlshortener_table (db w') = [assign (SetClickCountF 1) Fixture.link]
  /\ updated_at (assign (SetClickCountF 1) Fixture.link) = 100%Z
  /\ click_count (assign (SetClickCountF 1) Fixture.link) = 1.
Proof. vm_compute. repeat split. Qed.

(** A plain [save()] of the same link at the same instant writes every
    column, [updated_at] among them, and the row says 200. *)
Lemma save_stamps_updated_at :
  let (result, w') :=
    save (Fixture.env Fixture.up) Fixture.link None
         (Fixture.world [Fixture.link]) in
  result = Return (stamped (Fixture.env Fixture.up) Fixture.link)
  /\ urlshortener_table (db w') = [stamped (Fixture.env Fixture.up) Fixture.link]
  /\ updated_at (stamped (Fixture.env Fixture.up) Fixture.link) = 200%Z.
Proof. vm_compute. repeat split. Qed.

(** ** Creating a link *)

(** C10. When a link is created without custom alias for a URL that
    validates to [normalized_url] and is safe, and the lookup finds an
    active link with that [original_url] and no alias, [form_valid]
    answers with that link's short URL and the API's [create] with that
    link and status 200; the world (tables, random generator, log) is
    exactly as before: no row is created and no code is drawn. *)
Theorem create_returns_existing_link
        (env : Env) (user : option nat) (link : string)
        (custom_alias : option string) (w : World)
        (normalized_url : string) (existing_url : URLShortener) :
  Utils.validate_url (urllib env) link = Return normalized_url ->
  Utils.is_safe_url (urllib env) normalized_url = true ->
  Py.truthy_opt custom_alias = false ->
  outage env SelectExisting = false ->
  first (filter (matches_existing normalized_url) (urlshortener_table (db w)))
  = Some existing_url ->
  Views.form_valid env user link custom_alias w
  = (Return (Views.HttpResponseRedirect
               ("/?link=" ++ get_short_url env existing_url)), w)
  /\ ApiViews.create env user normalized_url custom_alias w
     = (Return (existing_url, ApiViews.HTTP_200_OK), w)
  /\ In existing_url (urlshortener_table (db w))
  /\ original_url existing_url = normalized_url
  /\ is_active existing_url = true
  /\ Models.custom_alias existing_url = None.
Proof.
  intros Hvalid Hsafe Halias Hup Hfirst.
  split; [|split].
  - unfold Views.form_valid, try_except, bind, lift.
    rewrite Hvalid, Hsafe, Halias; cbn [negb].
    rewrite select_first_spec, Hup, Hfirst; reflexivity.
  - unfold ApiViews.create, bind.
    rewrite Halias; cbn [negb].
    rewrite select_first_spec, Hup, Hfirst; reflexivity.
  - apply first_filter in Hfirst as [Hin Hm]; split; [exact Hin|].
    unfold matches_existing in Hm.
    apply andb_true_iff in Hm as [Hm Hnull]; apply andb_true_iff in Hm as [Hurl Hact].
    apply String.eqb_eq in Hurl.
    destruct (Models.custom_alias existing_url); [discriminate|].
    repeat split; assumption.
Qed.

Lemma insert_url_raises (env : Env) (self : URLShortener) (w w' : World) (e : exn) :
  insert_url env self w = (Raise e, w') -> w' = w.
Proof.
  cbv [insert_url execute bind ret raise get_db put_db].
  destruct (outage env InsertURL); [intros [= _ <-]; reflexivity|].
  destruct (same_short_code _ _); [intros [= _ <-]; reflexivity|].
  destruct (same_custom_alias _ _); [intros [= _ <-]; reflexivity|].
  discriminate.
Qed.

(** A plain save that raises has written nothing. *)
Lemma save_table_raises (env : Env) (self : URLShortener) (w w' : World) (e : exn) :
  save_table env self w = (Raise e, w') -> w' = w.
Proof.
  unfold save_table.
  destruct (id self) as [pk|]; [|apply insert_url_raises].
  cbv [update_row execute bind ret raise get_db put_db].
  destruct (outage env UpdateURL); [intros [= _ <-]; reflexivity|].
  destruct (negb _); [apply insert_url_raises|].
  destruct (same_short_code _ _); [intros [= _ <-]; reflexivity|].
  destruct (same_custom_alias _ _); [intros [= _ <-]; reflexivity|].
  discriminate.
Qed.

(** A create that fails on a constraint has generated one code and has
    written nothing. *)
Lemma objects_create_integrity (env : Env) (u : string) (a : option string)
      (user : option nat) (w w1 : World) (m : string) :
  objects_create env u a user w = (Raise (IntegrityError m), w1) ->
  exists n, n <= 100 /\ w1 = after_draws (6 * n) w.
Proof.
  unfold objects_create, save; cbn [short_code Py.truthy negb].
  unfold bind at 1, bind at 1.
  pose proof (generate_short_code_draws env
    {| id := None; original_url := u; short_code := ""; custom_alias := a;
       click_count := 0; created_at := 0; updated_at := 0; expires_at := None;
       created_by := user; title := ""; description := ""; domain := "";
       is_active := true; is_public := true; category := None |} w) as Hgen.
  destruct (generate_short_code env _ 6 w) as [[code|e] w'].
  - destruct Hgen as (n & Hn & ->).
    unfold ret at 1. intros H; apply save_table_raises in H.
    exists n; split; [exact Hn | exact H].
  - destruct Hgen as [_ ->]; discriminate.
Qed.

(** C5 (amended). When the insert of the new link fails on a uniqueness
    constraint, [form_valid] does not retry: its general handler logs the
    error and answers with "Error creating short URL"; the tables are as
    before, and the random generator stands where the one generation
    (at most 100 candidates) left it. *)
Theorem form_valid_does_not_retry
        (env : Env) (user : option nat) (link : string)
        (custom_alias : option string) (w w1 : World)
        (normalized_url m : string) :
  Utils.validate_url (urllib env) link = Return normalized_url ->
  Utils.is_safe_url (urllib env) normalized_url = true ->
  (Py.truthy_opt custom_alias = true
   \/ (outage env SelectExisting = false
       /\ first (filter (matches_existing normalized_url)
                        (urlshortener_table (db w))) = None)) ->
  objects_create env normalized_url
                 (if Py.truthy_opt custom_alias then custom_alias else None)
                 user w
  = (Raise (IntegrityError m), w1) ->
  Views.form_valid env user link custom_alias w
  = (Return (Views.HttpResponseRedirect "/?link=Error creating short URL"),
     {| db := db w; entropy := entropy w; drawn := drawn w1;
        log := (log w ++ [(ERROR, ("Unexpected error creating short URL for "
                                    ++ link ++ ": " ++ m)%string)])%list |})
  /\ exists n, n <= 100 /\ drawn w1 = drawn w + 6 * n.
Proof.
  intros Hvalid Hsafe Hnew Hcreate.
  destruct (objects_create_integrity _ _ _ _ _ _ _ Hcreate) as (n & Hn & Hw1).
  split; [|exists n; split; [exact Hn | subst w1; reflexivity]].
  unfold Views.form_valid, try_except.
  unfold bind at 1, lift; rewrite Hvalid, Hsafe; cbn [negb].
  unfold bind at 1.
  assert ((if negb (Py.truthy_opt custom_alias)
           then select_first env SelectExisting (matches_existing normalized_url)
           else ret None) w = (Return None, w)) as ->.
  { destruct Hnew as [-> | [Hup Hnone]]; [reflexivity|].
    destruct (Py.truthy_opt custom_alias); [reflexivity|]; cbn [negb].
    rewrite select_first_spec, Hup, Hnone; reflexivity. }
  unfold atomic, bind at 1; rewrite Hcreate.
  subst w1; reflexivity.
Qed.

Lemma create_returns_existing_link_witness :
  Views.form_valid (Fixture.env Fixture.up) None "example.com/test" None
                   (Fixture.world [Fixture.link])
  = (Return (Views.HttpResponseRedirect "/?link=https://sho.rt/abc123"),
     Fixture.world [Fixture.link])
  /\ ApiViews.create (Fixture.env Fixture.up) None "https://example.com/test" None
                     (Fixture.world [Fixture.link])
     = (Return (Fixture.link, ApiViews.HTTP_200_OK), Fixture.world [Fixture.link])
  /\ In Fixture.link (urlshortener_table (db (Fixture.world [Fixture.link])))
  /\ original_url Fixture.link = "https://example.com/test"
  /\ is_active Fixture.link = true
  /\ custom_alias Fixture.link = None.
Proof.
  apply (create_returns_existing_link
           (Fixture.env Fixture.up) None "example.com/test" None
           (Fixture.world [Fixture.link]) "https://example.com/test" Fixture.link);
    reflexivity.
Defined.

Lemma form_valid_does_not_retry_witness :
  Views.form_valid (Fixture.env Fixture.up) None "example.com/new" (Some "promo")
                   (Fixture.world [Fixture.retired_promo])
  = (Return (Views.HttpResponseRedirect "/?link=Error creating short URL"),
     {| db := db (Fixture.world [Fixture.retired_promo]);
        entropy := fun _ => 0; drawn := 6;
        log := [(ERROR,
                 "Unexpected error creating short URL for example.com/new: UNIQUE constraint failed: shortener_urlshortener.custom_alias")] |})
  /\ exists n, n <= 100 /\ 6 = 0 + 6 * n.
Proof.
  apply (form_valid_does_not_retry
           (Fixture.env Fixture.up) None "example.com/new" (Some "promo")
           (Fixture.world [Fixture.retired_promo])
           (after_draws 6 (Fixture.world [Fixture.retired_promo]))
           "https://example.com/new"
           "UNIQUE constraint failed: shortener_urlshortener.custom_alias");
    try reflexivity.
  left; reflexivity.
Defined.

(** C5 (as stated) fails: the alias passes the form's check, the insert
    violates the uniqueness of [custom_alias], and [form_valid] answers
    with its general error after one generated code (six draws): no
    second generation, no second insert. *)
Lemma form_valid_gives_up_at_first_violation :
  Forms.clean_custom_alias (Fixture.env Fixture.up) (Some "promo")
                           (Fixture.world [Fixture.retired_promo])
  = (Return (Some "promo"), Fixture.world [Fixture.retired_promo])
  /\ fst (objects_create (Fixture.env Fixture.up) "https://example.com/new"
                         (Some "promo") None
                         (Fixture.world [Fixture.retired_promo]))
     = Raise (IntegrityError
                "UNIQUE constraint failed: shortener_urlshortener.custom_alias")
  /\ (let (response, w') :=
        Views.form_valid (Fixture.env Fixture.up) None "example.com/new"
                         (Some "promo") (Fixture.world [Fixture.retired_promo]) in
      response = Return (Views.HttpResponseRedirect
                           "/?link=Error creating short URL")
      /\ drawn w' = 6
      /\ db w' = db (Fixture.world [Fixture.retired_promo])).
Proof. vm_compute. repeat split. Qed.

(** The same on [short_code]: when the hundred candidates are taken the
    digest is returned unchecked, and a row that holds it makes the
    insert fail; [form_valid] stops there too. *)
Lemma form_valid_gives_up_on_fallback_collision :
  let w := Fixture.world [Fixture.with_code 1 "aaaaaa"; Fixture.with_code 2 "b4a5a9"] in
  fst (generate_short_code (Fixture.env Fixture.up) Fixture.link 6 w)
  = Return "b4a5a9"
  /\ (let (response, w') :=
        Views.form_valid (Fixture.env Fixture.up) None "https://example.com/test"
                         None w in
      response = Return (Views.HttpResponseRedirect
                           "/?link=Error creating short URL")
      /\ drawn w' = 600
      /\ db w' = db w).
Proof. vm_compute. repeat split. Qed.

(** ** Requests side by side *)



Section SideBySide.

(** The link the requests resolve, the key they resolve it by, and the
    table they start from. *)
Variable key : string.
Variable l : URLShortener.
Variable rows0 : list URLShortener.

Hypothesis rows0_keyed : well_keyed rows0 = true.
Hypothesis rows0_first : first (filter (matches_key key) rows0) = Some l.
Hypothesis l_code : Py.truthy (short_code l) = true.



















End SideBySide.


(** Two requests, their statements interleaved: both are answered with
    the redirect, two clicks are in the table and the counter is 2. *)
Lemma two_requests_interleaved :
  let (pool, w) :=
    Views.run [0; 1; 1; 0; 1; 0; 0; 1]
              (callers_pool "abc123"
                 [(Fixture.env Fixture.up, Fixture.request);
                  (Fixture.env Fixture.up, Fixture.request)])
              (Fixture.world [Fixture.link]) in
  map Views.job_progress pool
  = [Views.Done (Views.HttpResponseRedirect "https://example.com/test");
     Views.Done (Views.HttpResponseRedirect "https://example.com/test")]
  /\ count_of (Some 1) w = Some 2
  /\ List.length (clicks_of (Some 1) w) = 2.
Proof. vm_compute. repeat split. Qed.


(** ** The properties at work *)

(** Both paths of the generator: with no row in the table the first
    candidate is returned; when the only candidate the generator draws is
    taken, the digest of the URL and the time is. *)
Lemma generate_short_code_both_paths :
  fst (generate_short_code (Fixture.env Fixture.up) Fixture.link 6
                           (Fixture.world []))
  = Return "aaaaaa"
  /\ fst (generate_short_code (Fixture.env Fixture.up) Fixture.link 6
                              (Fixture.world [Fixture.with_code 1 "aaaaaa"]))
     = Return "b4a5a9"
  /\ Py.take 6 (Hashlib.md5_hexdigest
                  "https://example.com/test2024-01-01T00:00:00+00:00")
     = "b4a5a9".
Proof. vm_compute. repeat split. Qed.

Lemma is_valid_custom_alias_rules_witness :
  chomp "my-link_1" = "my-link_1"
  /\ Utils.is_valid_custom_alias (Some "my-link_1") = isValidAlias (Some "my-link_1").
Proof.
  split; [reflexivity|].
  exact (is_valid_custom_alias_rules (Some "my-link_1") eq_refl).
Defined.


Lemma increment_click_count_spec_witness :
  increment_click_count (Fixture.env Fixture.up) Fixture.link
                        (Fixture.world [Fixture.link])
  = (Return (assign (SetClickCountF 1) Fixture.link),
     set_urls (Fixture.world [Fixture.link])
              (map (bump (Some 1)) [Fixture.link])).
Proof.
  apply (increment_click_count_spec
           (Fixture.env Fixture.up) Fixture.link (Fixture.world [Fixture.link]));
    try reflexivity.
  left; reflexivity.
Defined.




Lemma has_char_app (c : ascii) (a b : string) :
  Py.has_char c (a ++ b) = Py.has_char c a || Py.has_char c b.
Proof.
  induction a as [|x a IH]; [reflexivity|]; cbn; rewrite IH, orb_assoc; reflexivity.
Qed.

Lemma break_fst_free (p : ascii -> bool) (s : string) :
  Py.all (fun c => negb (p c)) (fst (Py.break p s)) = true.
Proof.
  induction s as [|c s IH]; [reflexivity|]. cbn [Py.break].
  destruct (p c) eqn:Hc; [reflexivity|].
  destruct (Py.break p s) as [a b]; cbn in *; rewrite Hc, IH; reflexivity.
Qed.








Lemma startswith_spec (p s : string) :
  Py.startswith p s = true <-> exists post, s = p ++ post.
Proof.
  revert s; induction p as [|a p IH]; intros s; cbn.
  - split; [exists s; reflexivity | reflexivity].
  - destruct s as [|b s]; [split; [discriminate | intros [post H]; discriminate]|].
    rewrite andb_true_iff, IH, Ascii.eqb_eq. split.
    + intros [-> [post ->]]; exists post; reflexivity.
    + intros [post [= -> ->]]; split; [reflexivity | exists post; reflexivity].
Qed.










Section NormalForm.

Import Exn Urllib.


Lemma urlparse_http (lib : checks) (u : string) :
  match urlparse lib ("http://" ++ u) with
  | ValueError _ => refused lib (fst (splitnetloc (remove_unsafe u))) = true
  | Ok r =>
      refused lib (fst (splitnetloc (remove_unsafe u))) = false
      /\ r = let '(p, prm, qry, frag) :=
               rest_parts (snd (splitnetloc (remove_unsafe u))) in
             {| scheme := "http"; netloc := fst (splitnetloc (remove_unsafe u));
                path := p; params := prm; query := qry; fragment := frag |}
  end.
Proof.
  unfold urlparse, urlsplit.
  change (lstrip_c0 ("http://" ++ u)) with ("http://" ++ u).
  change (remove_unsafe ("http://" ++ u)) with ("http://" ++ remove_unsafe u).
  change (split_scheme ("http://" ++ remove_unsafe u))
    with ("http", "//" ++ remove_unsafe u).
  cbn [Py.startswith append Ascii.eqb Bool.eqb andb Py.drop].
  destruct (splitnetloc (remove_unsafe u)) as [net rest]; cbn [fst snd].
  unfold refused, rest_parts, cut.
  set (nf := Py.truthy net && negb (Py.all Py.is_ascii net)
             && negb (nfkc_ok lib net)).
  assert (Hparts : forall url3 frag : string,
    match
      match (let (url4, qry) := match Py.split1 "?" url3 with
                                | Some (a, b) => (a, b)
                                | None => (url3, "")
                                end in
             if nf then ValueError
               "netloc contains invalid characters under NFKC normalization"
             else Ok ("http", net, url4, qry, frag))
      with
      | Ok (sch, net, u0, qry, frag) =>
          let (p2, prm) :=
            if Py.mem sch uses_params && Py.has_char ";" u0
            then splitparams u0 else (u0, "") in
          Ok {| scheme := sch; netloc := net; path := p2; params := prm;
                query := qry; fragment := frag |}
      | ValueError m => ValueError m
      end
    with
    | Ok r =>
        nf = false
        /\ r = (let '(p, prm, qry0, frag0) :=
                  let (url4, qry) := match Py.split1 "?" url3 with
                                     | Some (a, b) => (a, b)
                                     | None => (url3, "")
                                     end in
                  let (p, prm) := if Py.has_char ";" url4 then splitparams url4
                                  else (url4, "") in
                  (p, prm, qry, frag) in
                {| scheme := "http"; netloc := net; path := p; params := prm;
                   query := qry0; fragment := frag0 |})
    | ValueError _ => nf = true
    end).
  { intros url3 frag.
    destruct (Py.split1 "?" url3) as [[url4 qry]|]; destruct nf;
      try reflexivity;
      change (Py.mem "http" uses_params) with true; cbn [andb];
      match goal with |- context [Py.has_char ";" ?x] =>
        destruct (Py.has_char ";" x); [destruct (splitparams x)|] end;
      split; reflexivity. }
  destruct (Py.has_char "[" net), (Py.has_char "]" net); cbn [andb orb negb];
    try reflexivity;
    try (destruct (bracketed_ok lib _); cbn [andb orb negb];
         [|reflexivity]);
    destruct (Py.split1 "#" rest) as [[url3 frag]|]; apply Hparts.
Qed.

Lemma urlunparse_http (net p prm qry frag : string) :
  Py.truthy net = true ->
  rooted (if Py.truthy prm then p ++ ";" ++ prm else p) = true ->
  urlunparse {| scheme := "http"; netloc := net; path := p; params := prm;
                query := qry; fragment := frag |}
  = "http://" ++ net ++ p ++ keep ";" prm ++ keep "?" qry ++ keep "#" frag.
Proof.
  intros Hnet Hroot.
  unfold urlunparse, urlunsplit; cbn [scheme netloc path params query fragment].
  rewrite Hnet; cbn [orb Py.truthy].
  set (url := if Py.truthy prm then p ++ ";" ++ prm else p) in *.
  assert (Hurl : url = p ++ keep ";" prm).
  { unfold url, keep; destruct (Py.truthy prm);
      [reflexivity | rewrite append_empty_r; reflexivity]. }
  replace (if Py.truthy url && negb (Py.startswith "/" url)
           then "/" ++ url else url) with url.
  2:{ unfold rooted in Hroot. destruct (Py.truthy url), (Py.startswith "/" url);
        try reflexivity; discriminate. }
  rewrite Hurl; unfold keep.
  destruct (Py.truthy qry), (Py.truthy frag);
    cbn [append]; rewrite ?append_assoc, ?append_empty_r; cbn [append];
    reflexivity.
Qed.

Lemma startswith_drop (p u : string) :
  Py.startswith p u = true -> u = p ++ Py.drop (String.length p) u.
Proof.
  revert u; induction p as [|a p IH]; intros [|b u]; cbn; try reflexivity;
    try discriminate.
  intros H; apply andb_true_iff in H as [Hab Hp].
  apply Ascii.eqb_eq in Hab; subst b; rewrite <- (IH _ Hp); reflexivity.
Qed.

Lemma truthy_lower' (s : string) : Py.truthy (Py.lower s) = Py.truthy s.
Proof. destruct s; reflexivity. Qed.

(** The URL [validate_url] parses. *)
Lemma web_parts_url (u : string) :
  (if negb (Py.startswith "http://" u || Py.startswith "https://" u)
   then "https://" ++ u else u)
  = fst (web_parts u) ++ "://" ++ snd (web_parts u)
  /\ (fst (web_parts u) = "http" \/ fst (web_parts u) = "https").
Proof.
  unfold web_parts.
  destruct (Py.startswith "http://" u) eqn:H1; cbn [orb negb fst snd].
  - split; [|left; reflexivity]. apply (startswith_drop "http://"), H1.
  - destruct (Py.startswith "https://" u) eqn:H2; cbn [negb fst snd].
    + split; [|right; reflexivity]. apply (startswith_drop "https://"), H2.
    + split; [reflexivity | right; reflexivity].
Qed.

(** [validate_url] returns the normal form, and raises a
    [ValidationError] when there is none. *)
Lemma validate_url_normal_form (lib : checks) (u : string) :
  match Utils.validate_url lib u with
  | Return r => normal_form lib u = Some r
  | Raise e => normal_form lib u = None /\ exists m, e = ValidationError m
  end.
Proof.
  unfold Utils.validate_url, normal_form.
  destruct (Py.truthy u) eqn:Hu; cbn [negb orb].
  2:{ destruct (web_parts u); split; eauto. }
  destruct (web_parts_url u) as [-> Hsch].
  destruct (web_parts u) as [sch v]; cbn [fst snd] in *.
  pose proof (rest_parts_rooted (remove_unsafe v)) as Hr.
  destruct Hsch as [-> | ->].
  - pose proof (urlparse_http lib v) as Hp.
    change ("http" ++ "://" ++ v) with ("http://" ++ v).
    destruct (urlparse lib ("http://" ++ v)) as [r|m].
    + destruct Hp as [-> ->].
      destruct (rest_parts (snd (splitnetloc (remove_unsafe v))))
        as [[[p prm] qry] frag]; cbn [netloc scheme path params query fragment].
      destruct (Py.truthy (fst (splitnetloc (remove_unsafe v)))) eqn:Hnet;
        cbn [negb orb]; [|split; eauto].
      rewrite urlunparse_http; [reflexivity | rewrite truthy_lower'; exact Hnet
                                | exact Hr].
    + rewrite Hp, orb_true_r; split; eauto.
  - pose proof (urlparse_https lib v) as Hp.
    change ("https" ++ "://" ++ v) with ("https://" ++ v).
    destruct (urlparse lib ("https://" ++ v)) as [r|m].
    + destruct Hp as [-> ->].
      destruct (rest_parts (snd (splitnetloc (remove_unsafe v))))
        as [[[p prm] qry] frag]; cbn [netloc scheme path params query fragment].
      destruct (Py.truthy (fst (splitnetloc (remove_unsafe v)))) eqn:Hnet;
        cbn [negb orb]; [|split; eauto].
      rewrite urlunparse_https; [reflexivity | rewrite truthy_lower'; exact Hnet
                                | exact Hr].
    + rewrite Hp, orb_true_r; split; eauto.
Qed.

(** Every URL [validate_url] returns starts with [http://] or
    [https://]: with [http://] when the input does, with [https://]
    otherwise; all it raises is a [ValidationError]. *)
Theorem validate_url_web_scheme (lib : checks) (u : string) :
  match Utils.validate_url lib u with
  | Return r =>
      Py.startswith (if Py.startswith "http://" u then "http://" else "https://") r
      = true
  | Raise e => exists m, e = ValidationError m
  end.
Proof.
  pose proof (validate_url_normal_form lib u) as H.
  destruct (Utils.validate_url lib u) as [r|e]; [|apply H].
  unfold normal_form, web_parts in H.
  destruct (Py.startswith "http://" u).
  - destruct (_ || _); [discriminate|].
    destruct (rest_parts _) as [[[p prm] qry] frag].
    injection H as <-; reflexivity.
  - destruct (Py.startswith "https://" u);
      (destruct (_ || _); [discriminate|]);
      destruct (rest_parts _) as [[[p prm] qry] frag];
      injection H as <-; reflexivity.
Qed.

Section Pieces.

Variable P : ascii -> bool.

Lemma all_app (a b : string) : Py.all P (a ++ b) = Py.all P a && Py.all P b.
Proof.
  induction a as [|c a IH]; [reflexivity|]; cbn; rewrite IH, andb_assoc; reflexivity.
Qed.

Lemma all_drop (n : nat) (s : string) :
  Py.all P s = true -> Py.all P (Py.drop n s) = true.
Proof.
  revert s; induction n as [|n IH]; intros [|c s] H; cbn; auto.
  cbn in H; apply andb_true_iff in H as [_ H]; auto.
Qed.

Lemma all_remove_char (c : ascii) (s : string) :
  Py.all P s = true -> Py.all P (Py.remove_char c s) = true.
Proof.
  induction s as [|a s IH]; [reflexivity|]; cbn.
  intros H; apply andb_true_iff in H as [Ha Hs].
  destruct (Ascii.eqb a c); cbn; [|rewrite Ha]; auto.
Qed.

Lemma all_remove_unsafe (s : string) :
  Py.all P s = true -> Py.all P (remove_unsafe s) = true.
Proof. intros H; unfold remove_unsafe; do 3 apply all_remove_char; exact H. Qed.

Lemma all_break (p : ascii -> bool) (s : string) :
  Py.all P s = true ->
  Py.all P (fst (Py.break p s)) = true /\ Py.all P (snd (Py.break p s)) = true.
Proof.
  intros H; rewrite <- (break_app p s), all_app in H.
  apply andb_true_iff in H; exact H.
Qed.

Lemma all_cut (sep : ascii) (s : string) :
  Py.all P s = true ->
  Py.all P (fst (cut sep s)) = true /\ Py.all P (snd (cut sep s)) = true.
Proof.
  unfold cut; destruct (Py.split1 sep s) as [[a b]|] eqn:E; cbn [fst snd].
  - apply split1_some in E; subst s; rewrite all_app; cbn.
    intros H; apply andb_true_iff in H as [Ha H].
    apply andb_true_iff in H as [_ Hb]; auto.
  - auto.
Qed.

Lemma all_keep (sep : ascii) (part : string) :
  P sep = true -> Py.all P part = true -> Py.all P (keep sep part) = true.
Proof.
  intros Hsep H; unfold keep; destruct (Py.truthy part); [|reflexivity].
  cbn; rewrite Hsep, H; reflexivity.
Qed.

Lemma all_lower (s : string) :
  (forall c, P (Py.lower_char c) = P c) ->
  Py.all P (Py.lower s) = Py.all P s.
Proof.
  intros Hl; induction s as [|c s IH]; [reflexivity|]; cbn.
  rewrite Hl, IH; reflexivity.
Qed.

End Pieces.

Lemma has_char_all (c : ascii) (s : string) :
  Py.has_char c s = negb (Py.all (other_than c) s).
Proof.
  induction s as [|a s IH]; [reflexivity|]; cbn; unfold other_than at 1.
  rewrite IH; destruct (Ascii.eqb a c); reflexivity.
Qed.

Lemma free_iff (c : ascii) (s : string) :
  Py.has_char c s = false <-> Py.all (other_than c) s = true.
Proof. rewrite has_char_all; destruct (Py.all _ s); cbn; intuition congruence. Qed.

Lemma remove_char_free (c : ascii) (s : string) :
  Py.all (other_than c) (Py.remove_char c s) = true.
Proof.
  induction s as [|a s IH]; [reflexivity|]; cbn.
  destruct (Ascii.eqb a c) eqn:E; [exact IH|].
  cbn; unfold other_than at 1; rewrite E, IH; reflexivity.
Qed.

Lemma remove_char_id (c : ascii) (s : string) :
  Py.all (other_than c) s = true -> Py.remove_char c s = s.
Proof.
  induction s as [|a s IH]; [reflexivity|]; cbn; unfold other_than at 1.
  intros H; apply andb_true_iff in H as [Ha Hs].
  apply negb_true_iff in Ha; rewrite Ha, (IH Hs); reflexivity.
Qed.

Lemma remove_unsafe_clean (s : string) : clean (remove_unsafe s).
Proof.
  unfold clean, remove_unsafe; repeat split.
  - do 2 apply all_remove_char; apply remove_char_free.
  - apply all_remove_char, remove_char_free.
  - apply remove_char_free.
Qed.

Lemma remove_unsafe_id (s : string) : clean s -> remove_unsafe s = s.
Proof.
  intros (Ht & Hc & Hl); unfold remove_unsafe.
  rewrite (remove_char_id _ _ Ht), (remove_char_id _ _ Hc), (remove_char_id _ _ Hl).
  reflexivity.
Qed.

Lemma last_segment_free (s : string) :
  Py.has_char "/" s = false -> last_segment s = ("", s).
Proof.
  destruct s as [|c s]; [reflexivity|]; intros H.
  cbn [last_segment]; rewrite H; destruct (last_segment s); reflexivity.
Qed.

Lemma last_segment_spec (s : string) :
  ends_slash (fst (last_segment s)) = true
  /\ Py.has_char "/" (snd (last_segment s)) = false.
Proof.
  induction s as [|c s [IH1 IH2]]; [split; reflexivity|].
  cbn [last_segment]. destruct (last_segment s) as [before seg] eqn:E.
  cbn [fst snd] in *.
  destruct (Py.has_char "/" (String c s)) eqn:H; cbn [fst snd];
    [|split; [reflexivity | exact H]].
  split; [|exact IH2].
  destruct before as [|b before]; [|exact IH1].
  cbn. destruct (Py.has_char "/" s) eqn:Hs.
  - destruct s as [|d s]; [discriminate|].
    cbn [last_segment] in E; rewrite Hs in E.
    destruct (last_segment s); discriminate.
  - cbn in H; rewrite Hs, orb_false_r in H; exact H.
Qed.

Lemma ends_slash_has (c : ascii) (b : string) :
  ends_slash (String c b) = true -> Py.has_char "/" (String c b) = true.
Proof.
  revert c; induction b as [|d b IH]; intros c H.
  - cbn in *; rewrite H; reflexivity.
  - change (Py.has_char "/" (String c (String d b)))
      with (Ascii.eqb c "/" || Py.has_char "/" (String d b)).
    rewrite (IH d H); apply orb_true_r.
Qed.

Lemma last_segment_unique (b g : string) :
  ends_slash b = true -> Py.has_char "/" g = false ->
  last_segment (b ++ g) = (b, g).
Proof.
  induction b as [|c b IH]; intros Hb Hg; [apply last_segment_free, Hg|].
  cbn [append last_segment].
  assert (Py.has_char "/" (String c (b ++ g)) = true) as ->.
  { change (String c (b ++ g)) with (String c b ++ g).
    rewrite has_char_app, (ends_slash_has _ _ Hb); reflexivity. }
  destruct b as [|d b].
  - cbn [append]; rewrite (last_segment_free _ Hg); reflexivity.
  - rewrite IH; [reflexivity | exact Hb | exact Hg].
Qed.

Lemma split1_fst_free (sep : ascii) (s a b : string) :
  Py.split1 sep s = Some (a, b) -> Py.has_char sep a = false.
Proof.
  revert a b; induction s as [|c s IH]; intros a b; cbn; [discriminate|].
  destruct (Ascii.eqb c sep) eqn:E; [intros [= <- <-]; reflexivity|].
  destruct (Py.split1 sep s) as [[a' b']|]; [|discriminate].
  intros [= <- <-]; cbn; rewrite E, (IH a' b' eq_refl); reflexivity.
Qed.

Lemma cut_fst_free (sep : ascii) (s : string) :
  Py.has_char sep (fst (cut sep s)) = false.
Proof.
  unfold cut; destruct (Py.split1 sep s) as [[a b]|] eqn:E; cbn [fst].
  - apply (split1_fst_free _ _ _ _ E).
  - apply split1_none, E.
Qed.

Lemma cut_app_keep (sep : ascii) (a b : string) :
  Py.has_char sep a = false -> cut sep (a ++ keep sep b) = (a, b).
Proof.
  intros Ha; unfold cut, keep; destruct b as [|c b]; cbn [Py.truthy].
  - rewrite append_empty_r.
    apply split1_none in Ha; rewrite Ha; reflexivity.
  - induction a as [|x a IH]; cbn.
    + rewrite Ascii.eqb_refl; reflexivity.
    + cbn in Ha; apply orb_false_iff in Ha as [Hx Ha].
      rewrite Hx. specialize (IH Ha).
      destruct (Py.split1 sep (a ++ String sep (String c b))) as [[a' b']|];
        congruence.
Qed.

Lemma all_path_params (P : ascii -> bool) (s : string) :
  Py.all P s = true ->
  Py.all P (fst (path_params s)) = true /\ Py.all P (snd (path_params s)) = true.
Proof.
  unfold path_params; destruct (Py.has_char ";" s); [|auto].
  unfold splitparams. pose proof (last_segment_app s) as Happ.
  destruct (last_segment s) as [before seg]; cbn [fst snd] in Happ.
  destruct (Py.split1 ";" seg) as [[a b]|] eqn:E; cbn [fst snd]; [|auto].
  apply split1_some in E; subst seg s.
  rewrite !all_app; cbn.
  intros H; apply andb_true_iff in H as [Hb H]; apply andb_true_iff in H as [Ha H].
  apply andb_true_iff in H as [_ H]. rewrite Hb, Ha, H; auto.
Qed.

Lemma path_params_normal (s : string) :
  path_params (fst (path_params s) ++ keep ";" (snd (path_params s)))
  = path_params s.
Proof.
  unfold path_params at 2 3 4.
  destruct (Py.has_char ";" s) eqn:Hs; cbn [fst snd].
  2:{ unfold keep; cbn; rewrite append_empty_r; unfold path_params; rewrite Hs;
      reflexivity. }
  unfold splitparams.
  pose proof (last_segment_app s) as Happ.
  pose proof (last_segment_spec s) as [Hb Hg].
  destruct (last_segment s) as [before seg] eqn:El; cbn [fst snd] in *.
  destruct (Py.split1 ";" seg) as [[a b]|] eqn:E; cbn [fst snd].
  2:{ unfold keep; cbn; rewrite append_empty_r; unfold path_params, splitparams.
      rewrite Hs, El, E; reflexivity. }
  pose proof (split1_fst_free _ _ _ _ E) as Ha.
  pose proof (split1_some _ _ _ _ E) as Hseg.
  destruct b as [|c b].
  - (* the semicolon that ends the segment is dropped *)
    unfold keep; cbn [Py.truthy]; rewrite append_empty_r.
    assert (Hslash : Py.has_char "/" a = false).
    { subst seg; rewrite has_char_all, all_app in Hg.
      apply free_iff; destruct (Py.all (other_than "/") a); [reflexivity|].
      discriminate. }
    unfold path_params, splitparams.
    rewrite (last_segment_unique _ _ Hb Hslash).
    apply split1_none in Ha; rewrite Ha.
    destruct (Py.has_char ";" (before ++ a)); reflexivity.
  - (* the text is the same *)
    assert ((before ++ a) ++ keep ";" (String c b) = s) as ->.
    { unfold keep; cbn [Py.truthy]; rewrite append_assoc, <- Hseg; exact Happ. }
    unfold path_params, splitparams; rewrite Hs, El, E; reflexivity.
Qed.

Lemma rest_parts_eq (rest : string) :
  rest_parts rest
  = (fst (path_params (fst (cut "?" (fst (cut "#" rest))))),
     snd (path_params (fst (cut "?" (fst (cut "#" rest))))),
     snd (cut "?" (fst (cut "#" rest))),
     snd (cut "#" rest)).
Proof.
  unfold rest_parts, path_params.
  destruct (cut "#" rest) as [url3 frag]; cbn [fst snd].
  destruct (cut "?" url3) as [url4 qry]; cbn [fst snd].
  destruct (if Py.has_char ";" url4 then splitparams url4 else (url4, ""));
    reflexivity.
Qed.

(** Parsing what was put together from the parts gives the parts. *)
Lemma rest_parts_normal (rest : string) :
  let '(p, prm, qry, frag) := rest_parts rest in
  rest_parts (p ++ keep ";" prm ++ keep "?" qry ++ keep "#" frag)
  = (p, prm, qry, frag).
Proof.
  rewrite (rest_parts_eq rest).
  set (url3 := fst (cut "#" rest)). set (frag := snd (cut "#" rest)).
  set (url4 := fst (cut "?" url3)). set (qry := snd (cut "?" url3)).
  set (p := fst (path_params url4)). set (prm := snd (path_params url4)).
  assert (H3 : Py.all (other_than "#") url3 = true)
    by (apply free_iff, cut_fst_free).
  destruct (all_cut _ "?" _ H3) as [H34 H3q]; fold url4 qry in H34, H3q.
  destruct (all_path_params _ _ H34) as [H3p H3m]; fold p prm in H3p, H3m.
  assert (H4 : Py.all (other_than "?") url4 = true)
    by (apply free_iff, cut_fst_free).
  destruct (all_path_params _ _ H4) as [H4p H4m]; fold p prm in H4p, H4m.
  rewrite (rest_parts_eq (p ++ _)).
  replace (p ++ keep ";" prm ++ keep "?" qry ++ keep "#" frag)
    with (((p ++ keep ";" prm) ++ keep "?" qry) ++ keep "#" frag)
    by (rewrite !append_assoc; reflexivity).
  rewrite cut_app_keep; cbn [fst snd].
  2:{ apply free_iff.
      rewrite !all_app, H3p, (all_keep (other_than "#") ";" prm eq_refl H3m),
        (all_keep (other_than "#") "?" qry eq_refl H3q); reflexivity. }
  rewrite cut_app_keep; cbn [fst snd].
  2:{ apply free_iff.
      rewrite !all_app, H4p, (all_keep (other_than "?") ";" prm eq_refl H4m);
      reflexivity. }
  unfold p, prm; rewrite path_params_normal; reflexivity.
Qed.

Lemma all_rest_parts (P : ascii -> bool) (rest : string) :
  P ";"%char = true -> P "?"%char = true -> P "#"%char = true ->
  Py.all P rest = true ->
  let '(p, prm, qry, frag) := rest_parts rest in
  Py.all P (p ++ keep ";" prm ++ keep "?" qry ++ keep "#" frag) = true.
Proof.
  intros Hs Hq Hh H. rewrite rest_parts_eq.
  destruct (all_cut P "#" _ H) as [H3 Hf].
  destruct (all_cut P "?" _ H3) as [H4 Hqr].
  destruct (all_path_params P _ H4) as [Hp Hm].
  rewrite !all_app, Hp, (all_keep P _ _ Hs Hm), (all_keep P _ _ Hq Hqr),
    (all_keep P _ _ Hh Hf); reflexivity.
Qed.

Lemma all_web_parts (P : ascii -> bool) (u : string) :
  Py.all P u = true -> Py.all P (snd (web_parts u)) = true.
Proof.
  intros H; unfold web_parts.
  destruct (Py.startswith "http://" u); [apply all_drop, H|].
  destruct (Py.startswith "https://" u); [apply all_drop, H | exact H].
Qed.

Lemma break_at (p : ascii -> bool) (a b : string) :
  Py.all (fun c => negb (p c)) a = true ->
  match b with EmptyString => True | String c _ => p c = true end ->
  Py.break p (a ++ b) = (a, b).
Proof.
  intros Ha Hb; induction a as [|x a IH]; cbn.
  - destruct b as [|c b]; [reflexivity|]; cbn; rewrite Hb; reflexivity.
  - cbn in Ha; apply andb_true_iff in Ha as [Hx Ha].
    apply negb_true_iff in Hx; rewrite Hx, (IH Ha); reflexivity.
Qed.

(** What [lower] leaves as it is. *)
Lemma lower_char_facts (c : ascii) :
  Py.lower_char (Py.lower_char c) = Py.lower_char c
  /\ Py.is_ascii (Py.lower_char c) = Py.is_ascii c
  /\ is_netloc_delim (Py.lower_char c) = is_netloc_delim c
  /\ other_than Py.TAB (Py.lower_char c) = other_than Py.TAB c
  /\ other_than Py.CR (Py.lower_char c) = other_than Py.CR c
  /\ other_than Py.LF (Py.lower_char c) = other_than Py.LF c
  /\ other_than "[" (Py.lower_char c) = other_than "[" c
  /\ other_than "]" (Py.lower_char c) = other_than "]" c.
Proof.
  destruct c as [[] [] [] [] [] [] [] []]; vm_compute; repeat split.
Qed.

Lemma lower_lower (s : string) : Py.lower (Py.lower s) = Py.lower s.
Proof.
  induction s as [|c s IH]; [reflexivity|]; cbn.
  rewrite IH, (proj1 (lower_char_facts c)); reflexivity.
Qed.

(** What follows the network location starts with a delimiter. *)
Lemma rest_head (x : string) :
  let '(p, prm, qry, frag) := rest_parts (snd (splitnetloc x)) in
  match p ++ keep ";" prm ++ keep "?" qry ++ keep "#" frag with
  | EmptyString => True
  | String c _ => is_netloc_delim c = true
  end.
Proof.
  pose proof (rest_parts_rooted x) as H.
  destruct (rest_parts (snd (splitnetloc x))) as [[[p prm] qry] frag].
  unfold rooted, keep in *.
  destruct p as [|c p].
  - destruct prm as [|d prm]; [|discriminate H].
    cbn. destruct qry; [destruct frag|]; cbn; auto.
  - assert (Hc : Ascii.eqb "/" c = true).
    { destruct (Py.truthy prm);
        cbn [Py.truthy negb orb Py.startswith append] in H;
        rewrite andb_true_r in H; exact H. }
    apply Ascii.eqb_eq in Hc; subst c; reflexivity.
Qed.

Lemma web_parts_of (sch y : string) :
  sch = "http" \/ sch = "https" ->
  web_parts (sch ++ "://" ++ y) = (sch, y).
Proof. intros [-> | ->]; reflexivity. Qed.

(** A URL of ASCII characters without square brackets that
    [validate_url] returns is one it returns unchanged: normalizing
    twice is normalizing once. *)
Theorem validate_url_idempotent (lib : checks) (u r : string) :
  Py.all Py.is_ascii u = true ->
  Py.has_char "[" u = false -> Py.has_char "]" u = false ->
  Utils.validate_url lib u = Return r ->
  Utils.validate_url lib r = Return r.
Proof.
  intros Hascii Hob Hcb Hv.
  pose proof (validate_url_normal_form lib u) as Hn; rewrite Hv in Hn.
  assert (Hr : normal_form lib r = Some r).
  2:{ pose proof (validate_url_normal_form lib r) as H.
      destruct (Utils.validate_url lib r) as [r'|e]; [congruence|].
      destruct H; congruence. }
  unfold normal_form in Hn.
  destruct (web_parts_url u) as [_ Hsch].
  apply free_iff in Hob, Hcb.
  apply (all_web_parts _ u) in Hascii, Hob, Hcb.
  destruct (web_parts u) as [sch v]; cbn [fst snd] in *.
  set (x := remove_unsafe v) in *.
  assert (Hx : clean x) by apply remove_unsafe_clean.
  apply all_remove_unsafe in Hascii, Hob, Hcb; fold x in Hascii, Hob, Hcb.
  pose proof (rest_head x) as Hhead.
  pose proof (break_fst_free is_netloc_delim x) as Hfree.
  pose proof (rest_parts_normal (snd (splitnetloc x))) as Hnorm.
  destruct Hx as (Ht & Hc & Hl).
  pose proof (all_rest_parts _ (snd (splitnetloc x)) eq_refl eq_refl eq_refl
                (proj2 (all_break _ is_netloc_delim x Ht))) as Rt.
  pose proof (all_rest_parts _ (snd (splitnetloc x)) eq_refl eq_refl eq_refl
                (proj2 (all_break _ is_netloc_delim x Hc))) as Rc.
  pose proof (all_rest_parts _ (snd (splitnetloc x)) eq_refl eq_refl eq_refl
                (proj2 (all_break _ is_netloc_delim x Hl))) as Rl.
  apply (all_break _ is_netloc_delim) in Ht as [Ht _], Hc as [Hc _], Hl as [Hl _],
    Hascii as [Hascii _], Hob as [Hob _], Hcb as [Hcb _].
  unfold splitnetloc in *.
  set (net := fst (Py.break is_netloc_delim x)) in *.
  set (rest := snd (Py.break is_netloc_delim x)) in *.
  destruct (negb (Py.truthy u) || negb (Py.truthy net) || refused lib net) eqn:Hok;
    [discriminate|].
  apply orb_false_iff in Hok as [Hok _]; apply orb_false_iff in Hok as [_ Hnet].
  apply negb_false_iff in Hnet.
  destruct (rest_parts rest) as [[[p prm] qry] frag].
  injection Hn as <-.
  set (R := p ++ keep ";" prm ++ keep "?" qry ++ keep "#" frag) in *.
  change (sch ++ String ":" (String "/" (String "/" (Py.lower net ++ R))))
    with (sch ++ "://" ++ Py.lower net ++ R).
  unfold normal_form; rewrite (web_parts_of _ _ Hsch).
  assert (Hclean : remove_unsafe (Py.lower net ++ R) = Py.lower net ++ R).
  { apply remove_unsafe_id; unfold clean; rewrite !all_app, Rt, Rc, Rl.
    rewrite !all_lower, Ht, Hc, Hl; [auto | | |]; intros c; apply lower_char_facts. }
  rewrite Hclean; unfold splitnetloc.
  rewrite break_at; [|rewrite all_lower; [exact Hfree|] | exact Hhead].
  2:{ intros c; f_equal; apply lower_char_facts. }
  cbn [fst snd]. rewrite Hnorm, lower_lower.
  assert (Py.truthy (sch ++ "://" ++ Py.lower net ++ R) = true) as ->
    by (destruct Hsch as [-> | ->]; reflexivity).
  rewrite truthy_lower', Hnet; cbn [negb orb].
  assert (refused lib (Py.lower net) = false) as ->; [|reflexivity].
  unfold refused.
  rewrite !has_char_all, !all_lower, Hob, Hcb, Hascii;
    try (intros c; apply lower_char_facts).
  cbn; rewrite andb_false_r; reflexivity.
Qed.

Lemma validate_url_idempotent_witness :
  Utils.validate_url Urllib.lenient "https://example.com/a;b?q"
  = Return "https://example.com/a;b?q".
Proof.
  apply (validate_url_idempotent Urllib.lenient "Example.com/a;b?q#");
    reflexivity.
Defined.

End NormalForm.

(** ** The QR code *)

Lemma unquote_other (c : ascii) (t : string) :
  Ascii.eqb c "%" = false -> unquote (String c t) = String c (unquote t).
Proof.
  intros H; destruct t as [|h [|l rest]]; cbn [unquote]; rewrite ?H; reflexivity.
Qed.

Lemma unquote_percent (c : ascii) (t : string) :
  unquote (Pystr.percent c ++ t) = String c (unquote t).
Proof. destruct c as [[] [] [] [] [] [] [] []]; reflexivity. Qed.

Lemma always_safe_parameter (c : ascii) :
  Pystr.always_safe c = true -> Ascii.eqb c "%" = false.
Proof.
  destruct c as [[] [] [] [] [] [] [] []]; vm_compute; intros H;
    first [reflexivity | discriminate H].
Qed.

Lemma percent_parameter (c : ascii) :
  Py.all parameter_char (Pystr.percent c) = true.
Proof. destruct c as [[] [] [] [] [] [] [] []]; reflexivity. Qed.

Lemma quote_unquote (s : string) : unquote (Pystr.quote s) = s.
Proof.
  induction s as [|c s IH]; [reflexivity|]; cbn [Pystr.quote].
  destruct (Pystr.always_safe c) eqn:Hc.
  - cbn [append]; rewrite (unquote_other _ _ (always_safe_parameter _ Hc)), IH.
    reflexivity.
  - rewrite unquote_percent, IH; reflexivity.
Qed.

Lemma quote_parameter (s : string) :
  Py.all parameter_char (Pystr.quote s) = true.
Proof.
  induction s as [|c s IH]; [reflexivity|]; cbn [Pystr.quote].
  rewrite all_app, IH, andb_true_r.
  destruct (Pystr.always_safe c) eqn:Hc; [|apply percent_parameter].
  cbn; unfold parameter_char; rewrite Hc; reflexivity.
Qed.

(** The URL of the QR code ends with the parameter [data], which is the
    URL percent-encoded: it is made of letters, digits, [_.-~] and [%]
    only, so nothing in the URL can end the parameter or add another,
    and it reads back as the URL; two URLs never share a QR code. *)
Theorem generate_qr_code_url_data (url : string) (size : Z) :
  exists data,
    QRCode.generate_qr_code_url url size
    = Some ("https://api.qrserver.com/v1/create-qr-code/?size="
              ++ Pystr.format_int size ++ "x" ++ Pystr.format_int size
              ++ "&data=" ++ data)
    /\ Py.all parameter_char data = true
    /\ unquote data = url
    /\ forall url', Pystr.quote url' = data -> url' = url.
Proof.
  exists (Pystr.quote url); repeat split.
  - apply quote_parameter.
  - apply quote_unquote.
  - intros url' H. rewrite <- (quote_unquote url'), H; apply quote_unquote.
Qed.

(** [QRCodeView.get] answers every request, writes nothing and draws
    nothing.  A key that matches an active link, expired or not, is
    sent to the QR code of that link's short URL, of size 300, and no
    click is recorded.  When no active link matches, or the storage
    fails, the answer is the JSON error with status 500, not the page
    "Link Not Found", and an error is logged. *)
Theorem qr_code_view_get (env : Env) (key : string) (w : World) :
  exists response w',
    QRCode.get env key w = (Return response, w')
    /\ db w' = db w /\ entropy w' = entropy w /\ drawn w' = drawn w
    /\ match (if outage env SelectURLByKey then None
              else first (filter (matches_key key) (urlshortener_table (db w)))) with
       | Some l =>
           response = QRCode.redirect (qr_code_of env l) /\ log w' = log w
       | None =>
           response = QRCode.JsonResponse "Error generating QR code" 500
           /\ exists msg, log w' = (log w ++ [(ERROR, msg)])%list
       end.
Proof.
  unfold QRCode.get, try_except, bind.
  rewrite select_first_spec.
  destruct (outage env SelectURLByKey).
  { do 2 eexists; split; [reflexivity|]; cbn; repeat split; eauto. }
  destruct (first _) as [l|].
  - do 2 eexists; split; [reflexivity|]; repeat split.
  - do 2 eexists; split; [reflexivity|]; cbn; repeat split; eauto.
Qed.

(** ** The routes *)

Lemma split1_app (sep : ascii) (a b : string) :
  Py.has_char sep a = false -> Py.split1 sep (a ++ String sep b) = Some (a, b).
Proof.
  intros Ha; induction a as [|x a IH]; cbn.
  - rewrite Ascii.eqb_refl; reflexivity.
  - cbn in Ha; apply orb_false_iff in Ha as [Hx Ha].
    rewrite Hx, (IH Ha); reflexivity.
Qed.

Lemma segment_prefix (w a : string) :
  Py.has_char "/" a = false -> Py.has_char "/" w = false ->
  Py.startswith (w ++ "/") (a ++ "/") = String.eqb a w.
Proof.
  revert a; induction w as [|x w IH]; intros [|c a] Ha Hw;
    cbn [Py.startswith append String.eqb Py.has_char] in *.
  - rewrite Ascii.eqb_refl; reflexivity.
  - apply orb_false_iff in Ha as [Hc _]; rewrite Ascii.eqb_sym, Hc; reflexivity.
  - apply orb_false_iff in Hw as [Hx _]; rewrite Hx; reflexivity.
  - apply orb_false_iff in Ha as [_ Ha]; apply orb_false_iff in Hw as [_ Hw].
    rewrite (IH a Ha Hw), (Ascii.eqb_sym x c).
    destruct (Ascii.eqb c x); reflexivity.
Qed.

Lemma eqb_app_slash (a w : string) :
  String.eqb (a ++ "/") (w ++ "/") = String.eqb a w.
Proof.
  revert w; induction a as [|c a IH]; intros [|x w];
    cbn [append String.eqb].
  - reflexivity.
  - destruct w; cbn [append String.eqb]; destruct (Ascii.eqb _ _); reflexivity.
  - destruct a; cbn [append String.eqb]; destruct (Ascii.eqb _ _); reflexivity.
  - rewrite IH; reflexivity.
Qed.

Lemma eqb_slashed (a w : string) :
  Py.has_char "/" a = false -> Py.has_char "/" w = true -> String.eqb a w = false.
Proof.
  intros Ha Hw; destruct (String.eqb a w) eqn:E; [|reflexivity].
  apply String.eqb_eq in E; congruence.
Qed.

Lemma str_slash_segment (a : string) :
  Py.truthy a = true -> Py.has_char "/" a = false ->
  Urls.str_slash (a ++ "/") = Some a.
Proof.
  intros Ht Ha; unfold Urls.str_slash; rewrite (split1_app _ _ _ Ha).
  destruct a; [discriminate | reflexivity].
Qed.

Lemma str_slash_open (a : string) :
  Py.has_char "/" a = false -> Urls.str_slash a = None.
Proof.
  intros Ha; unfold Urls.str_slash; apply split1_none in Ha; rewrite Ha; reflexivity.
Qed.

Lemma under_segment (w a : string) :
  Py.has_char "/" a = false -> Py.has_char "/" w = false ->
  Urls.under (w ++ "/") (a ++ "/") = None.
Proof.
  intros Ha Hw; unfold Urls.under; rewrite (segment_prefix _ _ Ha Hw).
  destruct (String.eqb a w) eqn:E; [|reflexivity].
  apply String.eqb_eq in E; subst a.
  replace (Py.drop (String.length (w ++ "/")) (w ++ "/")) with "";
    [reflexivity|].
  clear; induction w as [|x w IH]; [reflexivity | exact IH].
Qed.

Lemma under_open (prefix a : string) :
  Py.has_char "/" a = false -> Urls.under prefix a = None.
Proof.
  intros Ha; unfold Urls.under; destruct (Py.startswith prefix a); [|reflexivity].
  apply str_slash_open, free_iff, all_drop, free_iff, Ha.
Qed.

(** A path of one segment and a final slash reaches [RedirectView],
    with the segment as the short code, unless the segment is [admin],
    [api], [dashboard] or [bulk]. *)
Lemma urlpatterns_segment (a : string) :
  Py.truthy a = true -> Py.has_char "/" a = false ->
  Urls.urlpatterns (a ++ "/") = Some (view_of_segment a).
Proof.
  intros Ht Ha; unfold Urls.urlpatterns, view_of_segment.
  change "admin/" with ("admin" ++ "/"); rewrite (segment_prefix "admin" _ Ha eq_refl).
  destruct (String.eqb a "admin") eqn:E1;
    [apply String.eqb_eq in E1; subst a; reflexivity|].
  change "api/" with ("api" ++ "/"); rewrite (segment_prefix "api" _ Ha eq_refl).
  destruct (String.eqb a "api") eqn:E2;
    [apply String.eqb_eq in E2; subst a; reflexivity|].
  change "api/docs/" with ("api/docs" ++ "/").
  rewrite eqb_app_slash, (eqb_slashed _ "api/docs" Ha eq_refl).
  assert (String.eqb (a ++ "/") "" = false) as -> by (destruct a; reflexivity).
  change "dashboard/" with ("dashboard" ++ "/"); rewrite eqb_app_slash.
  destruct (String.eqb a "dashboard"); [reflexivity|].
  change "bulk/" with ("bulk" ++ "/"); rewrite eqb_app_slash.
  destruct (String.eqb a "bulk"); [reflexivity|].
  change "analytics/" with ("analytics" ++ "/").
  rewrite (under_segment "analytics" _ Ha eq_refl).
  change "qr/" with ("qr" ++ "/"); rewrite (under_segment "qr" _ Ha eq_refl).
  rewrite (str_slash_segment _ Ht Ha); reflexivity.
Qed.

(** Without the final slash, no route matches. *)
Lemma urlpatterns_open (a : string) :
  Py.truthy a = true -> Py.has_char "/" a = false -> Urls.urlpatterns a = None.
Proof.
  intros Ht Ha; unfold Urls.urlpatterns.
  assert (Hpre : forall w, Py.has_char "/" w = true -> Py.startswith w a = false).
  { intros w Hw; destruct (Py.startswith w a) eqn:E; [|reflexivity].
    apply startswith_spec in E as [post ->].
    rewrite has_char_app, Hw in Ha; discriminate. }
  rewrite (Hpre "admin/" eq_refl), (Hpre "api/" eq_refl).
  rewrite (eqb_slashed _ "api/docs/" Ha eq_refl).
  assert (String.eqb a "" = false) as -> by (destruct a; [discriminate | reflexivity]).
  rewrite (eqb_slashed _ "dashboard/" Ha eq_refl), (eqb_slashed _ "bulk/" Ha eq_refl).
  rewrite !(under_open _ _ Ha), (str_slash_open _ Ha); reflexivity.
Qed.

Lemma split_segment (a : string) :
  Py.has_char "/" a = false -> Pystr.split "/" (a ++ "/") = [a; ""].
Proof.
  induction a as [|c a IH]; intros Ha; [reflexivity|].
  cbn in Ha; apply orb_false_iff in Ha as [Hc Ha].
  cbn [append Pystr.split]; rewrite Hc, (IH Ha); reflexivity.
Qed.

(** The click-tracking middleware takes a path of one segment for a
    redirect unless the segment is one of its six words. *)
Lemma is_redirect_request_segment (a : string) :
  Py.truthy a = true -> Py.has_char "/" a = false ->
  ClickTrackingMiddleware.is_redirect_request ("/" ++ a ++ "/")
  = negb (Py.mem a ["admin"; "api"; "dashboard"; "bulk"; "analytics"; "qr"]).
Proof.
  intros Ht Ha; unfold ClickTrackingMiddleware.is_redirect_request.
  change (Pystr.split "/" ("/" ++ a ++ "/")) with ("" :: Pystr.split "/" (a ++ "/")).
  rewrite (split_segment _ Ha); cbn [filter Py.truthy]; rewrite Ht.
  cbn [List.length Nat.eqb andb existsb Py.mem].
  change (Py.startswith "/admin/" ("/" ++ a ++ "/"))
    with (Py.startswith ("admin" ++ "/") (a ++ "/")).
  change (Py.startswith "/api/" ("/" ++ a ++ "/"))
    with (Py.startswith ("api" ++ "/") (a ++ "/")).
  change (Py.startswith "/dashboard/" ("/" ++ a ++ "/"))
    with (Py.startswith ("dashboard" ++ "/") (a ++ "/")).
  change (Py.startswith "/bulk/" ("/" ++ a ++ "/"))
    with (Py.startswith ("bulk" ++ "/") (a ++ "/")).
  change (Py.startswith "/analytics/" ("/" ++ a ++ "/"))
    with (Py.startswith ("analytics" ++ "/") (a ++ "/")).
  change (Py.startswith "/qr/" ("/" ++ a ++ "/"))
    with (Py.startswith ("qr" ++ "/") (a ++ "/")).
  rewrite (segment_prefix "admin" _ Ha eq_refl), (segment_prefix "api" _ Ha eq_refl),
    (segment_prefix "dashboard" _ Ha eq_refl), (segment_prefix "bulk" _ Ha eq_refl),
    (segment_prefix "analytics" _ Ha eq_refl), (segment_prefix "qr" _ Ha eq_refl).
  reflexivity.
Qed.

Lemma alnum_no_slash (s : string) :
  Py.all is_alnum s = true -> Py.has_char "/" s = false.
Proof.
  induction s as [|c s IH]; [reflexivity|]; cbn.
  intros H; apply andb_true_iff in H as [Hc Hs]; rewrite (IH Hs), orb_false_r.
  destruct (Ascii.eqb c "/") eqn:E; [|reflexivity].
  apply Ascii.eqb_eq in E; subst c; discriminate.
Qed.

Lemma eqb_length (a w : string) :
  String.length a <> String.length w -> String.eqb a w = false.
Proof.
  intros H; destruct (String.eqb a w) eqn:E; [|reflexivity].
  apply String.eqb_eq in E; subst; congruence.
Qed.

(** Every short code of the generator's shape, six letters or digits,
    is reachable: with the final slash the path reaches [RedirectView]
    with the code as its key, and the click-tracking middleware takes
    the request for a redirect.  Without the final slash, as
    [get_short_url] writes it, no route matches. *)
Theorem short_code_route (code : string) :
  String.length code = 6 -> Py.all is_alnum code = true ->
  Urls.resolve ("/" ++ code ++ "/") = Some (Urls.RedirectView code)
  /\ ClickTrackingMiddleware.is_redirect_request ("/" ++ code ++ "/") = true
  /\ Urls.resolve ("/" ++ code) = None.
Proof.
  intros Hlen Hal. pose proof (alnum_no_slash _ Hal) as Hs.
  assert (Ht : Py.truthy code = true) by (destruct code; [discriminate | reflexivity]).
  assert (Hw : forall w, String.length w <> 6 -> String.eqb code w = false)
    by (intros w H; apply eqb_length; congruence).
  split; [|split].
  - cbn [Urls.resolve append]. rewrite (urlpatterns_segment _ Ht Hs).
    unfold view_of_segment; rewrite !Hw by (cbn; lia); reflexivity.
  - rewrite (is_redirect_request_segment _ Ht Hs); cbn [Py.mem existsb].
    rewrite !Hw by (cbn; lia); reflexivity.
  - cbn [Urls.resolve append]; apply (urlpatterns_open _ Ht Hs).
Qed.

Lemma short_code_route_witness :
  Urls.resolve "/abc123/" = Some (Urls.RedirectView "abc123")
  /\ ClickTrackingMiddleware.is_redirect_request "/abc123/" = true
  /\ Urls.resolve "/abc123" = None.
Proof. apply (short_code_route "abc123"); reflexivity. Defined.

Lemma chomp_no_slash (a : string) :
  Py.all Utils.alias_char (chomp a) = true -> Py.has_char "/" a = false.
Proof.
  induction a as [|c a IH]; [reflexivity|].
  cbn [chomp]. destruct a as [|d a].
  - destruct (Ascii.eqb c Py.LF) eqn:E.
    + apply Ascii.eqb_eq in E; subst c; reflexivity.
    + cbn; rewrite andb_true_r, orb_false_r; intros H.
      destruct (Ascii.eqb c "/") eqn:E'; [|reflexivity].
      apply Ascii.eqb_eq in E'; subst c; discriminate.
  - cbn [Py.all]; intros H; apply andb_true_iff in H as [Hc Hs].
    change (Py.has_char "/" (String c (String d a)))
      with (Ascii.eqb c "/" || Py.has_char "/" (String d a)).
    rewrite (IH Hs), orb_false_r.
    destruct (Ascii.eqb c "/") eqn:E'; [|reflexivity].
    apply Ascii.eqb_eq in E'; subst c; discriminate.
Qed.

(** An alias the validator accepts is reachable, with one exception:
    the path of an accepted alias reaches [RedirectView] with the alias
    as its key unless the alias is [bulk], which is not a reserved word
    and whose path is the bulk page. *)
Theorem custom_alias_route (alias : string) :
  alias <> "" -> Utils.is_valid_custom_alias (Some alias) = true ->
  Urls.resolve ("/" ++ alias ++ "/")
  = Some (if String.eqb alias "bulk" then Urls.BulkShortenerView
          else Urls.RedirectView alias).
Proof.
  intros Hne Hv. destruct alias as [|c a]; [congruence|].
  set (alias := String c a) in *.
  unfold Utils.is_valid_custom_alias in Hv; fold alias in Hv.
  cbv iota in Hv.
  destruct (_ || _); [discriminate|].
  rewrite alias_pattern_spec in Hv.
  destruct (Py.truthy (chomp alias) && Py.all Utils.alias_char (chomp alias))
    eqn:Hp; [|discriminate].
  apply andb_true_iff in Hp as [_ Hp]. apply chomp_no_slash in Hp.
  cbn [negb] in Hv.
  destruct (Py.mem (Py.lower alias) Utils.reserved_words) eqn:Hr; [discriminate|].
  assert (Hw : forall w, Py.mem w Utils.reserved_words = true -> Py.lower w = w ->
                         String.eqb alias w = false).
  { intros w Hin Hl; destruct (String.eqb alias w) eqn:E; [|reflexivity].
    apply String.eqb_eq in E; rewrite E, Hl in Hr; congruence. }
  cbn [Urls.resolve append]; rewrite (urlpatterns_segment alias eq_refl Hp).
  unfold view_of_segment.
  rewrite (Hw "admin"), (Hw "api"), (Hw "dashboard") by reflexivity.
  reflexivity.
Qed.

Lemma custom_alias_route_witness :
  Urls.resolve "/my-link/" = Some (Urls.RedirectView "my-link")
  /\ Urls.resolve "/bulk/" = Some Urls.BulkShortenerView.
Proof.
  split.
  - apply (custom_alias_route "my-link"); [discriminate | reflexivity].
  - apply (custom_alias_route "bulk"); [discriminate | reflexivity].
Defined.

(** ** The place of a click *)

(** No click carries a place: if no row of the click table has a
    country or a city, none has after [track_click] has served a request
    as the click-tracking middleware hands it on, whatever its path. *)
Theorem clicks_carry_no_place (env : Env) (path : string)
        (request : Utils.HttpRequest) (l : URLShortener) (w : World) :
  fresh request ->
  Forall no_place (urlclick_table (db w)) ->
  Forall no_place
    (urlclick_table
       (db (snd (Views.track_click
                   env (ClickTrackingMiddleware.process_request path request)
                   l w)))).
Proof.
  unfold fresh; intros Hfresh Hw.
  cbv [Views.track_click try_except bind ret raise click_create execute
       get_db put_db logger].
  destruct (outage env InsertClick); [exact Hw|].
  destruct (Utils.get_client_ip _) as [ip|]; [|exact Hw].
  cbn [snd db with_clicks urlclick_table ip_address].
  apply Forall_app; split; [exact Hw|].
  constructor; [|constructor].
  unfold ClickTrackingMiddleware.process_request, no_place.
  destruct (negb _); cbn [country city Utils.geo_data]; [rewrite Hfresh|];
    split; reflexivity.
Qed.

Lemma clicks_carry_no_place_witness :
  Forall no_place
    (urlclick_table
       (db (snd (Views.track_click
                   (Fixture.env Fixture.up)
                   (ClickTrackingMiddleware.process_request "/abc123/" first_request)
                   Fixture.link (Fixture.world [Fixture.link]))))).
Proof.
  apply (clicks_carry_no_place (Fixture.env Fixture.up) "/abc123/" first_request);
    [reflexivity | constructor].
Defined.

(** ** Creating a link and finding it again *)

Lemma generate_short_code_shape (env : Env) (self : URLShortener) (w : World) :
  match generate_short_code env self 6 w with
  | (Return code, w') =>
      String.length code = 6 /\ Py.all is_alnum code = true
      /\ exists n, w' = after_draws n w
  | (Raise _, _) => True
  end.
Proof.
  unfold generate_short_code, bind.
  pose proof (try_codes_spec env 100 w) as H.
  destruct (try_codes env 100 6 w) as [[[code|]|e] w']; [| |exact I].
  - destruct H as (Hlen & Hall & _ & n & _ & ->); unfold ret; eauto.
  - subst w'; unfold ret; repeat split; eauto.
    + apply take_length; rewrite md5_hexdigest_length; lia.
    + apply all_take, hex_alnum.
Qed.

Lemma insert_url_spec (env : Env) (self : URLShortener) (w : World) :
  id self = None ->
  insert_url env self w =
    if outage env InsertURL then unavailable w
    else if same_short_code self (urlshortener_table (db w))
    then (Raise (IntegrityError
                   "UNIQUE constraint failed: shortener_urlshortener.short_code"), w)
    else if same_custom_alias self (urlshortener_table (db w))
    then (Raise (IntegrityError
                   "UNIQUE constraint failed: shortener_urlshortener.custom_alias"), w)
    else (Return (inserted env (S (urlshortener_seq (db w))) self),
          {| db := with_urls (db w)
                     (urlshortener_table (db w)
                        ++ [inserted env (S (urlshortener_seq (db w))) self])%list
                     (S (urlshortener_seq (db w)));
             entropy := entropy w; drawn := drawn w; log := log w |}).
Proof.
  intros Hid; cbv [insert_url execute bind ret raise get_db put_db unavailable].
  destruct (outage env InsertURL); [reflexivity|].
  destruct (same_short_code _ _); [reflexivity|].
  destruct (same_custom_alias _ _); [reflexivity|].
  rewrite Hid. rewrite Nat.max_l by lia. reflexivity.
Qed.

Lemma objects_create_eq (env : Env) (u : string) (a : option string)
      (user : option nat) (w : World) :
  objects_create env u a user w =
    match generate_short_code env (blank u a user) 6 w with
    | (Return code, w1) =>
        insert_url env (with_domain env (set_short_code (blank u a user) code)) w1
    | (Raise e, w1) => (Raise e, w1)
    end.
Proof.
  unfold objects_create, save. fold (blank u a user).
  cbn [short_code blank Py.truthy negb].
  unfold bind at 1, bind at 1.
  destruct (generate_short_code env (blank u a user) 6 w) as [[code|e] w1];
    [|reflexivity].
  unfold ret at 1.
  fold (with_domain env (set_short_code (blank u a user) code)).
  unfold save_table; rewrite with_domain_id; reflexivity.
Qed.

Lemma with_domain_fields (env : Env) (self : URLShortener) :
  original_url (with_domain env self) = original_url self
  /\ short_code (with_domain env self) = short_code self
  /\ custom_alias (with_domain env self) = custom_alias self
  /\ created_by (with_domain env self) = created_by self
  /\ click_count (with_domain env self) = click_count self
  /\ is_active (with_domain env self) = is_active self
  /\ is_public (with_domain env self) = is_public self
  /\ expires_at (with_domain env self) = expires_at self
  /\ title (with_domain env self) = title self
  /\ description (with_domain env self) = description self.
Proof.
  unfold with_domain. destruct (_ && _); [|repeat split].
  destruct (Urllib.urlparse _ _); repeat split.
Qed.

Lemma same_short_code_with_domain (env : Env) (self : URLShortener)
      (rows : list URLShortener) :
  same_short_code (with_domain env self) rows = same_short_code self rows.
Proof.
  unfold same_short_code.
  rewrite (proj1 (proj2 (with_domain_fields env self))); reflexivity.
Qed.

(** What a successful [objects.create] leaves behind. *)
Lemma objects_create_spec (env : Env) (u : string) (a : option string)
      (user : option nat) (w : World) (l : URLShortener) (w' : World) :
  objects_create env u a user w = (Return l, w') ->
  urlshortener_table (db w') = (urlshortener_table (db w) ++ [l])%list
  /\ urlshortener_seq (db w') = S (urlshortener_seq (db w))
  /\ urlclick_table (db w') = urlclick_table (db w)
  /\ log w' = log w
  /\ created env u a user w l.
Proof.
  rewrite objects_create_eq.
  pose proof (generate_short_code_shape env (blank u a user) w) as Hg.
  destruct (generate_short_code env (blank u a user) 6 w) as [[code|e] w1];
    [|discriminate].
  destruct Hg as (Hlen & Hall & n & ->).
  rewrite insert_url_spec by (rewrite with_domain_id; reflexivity).
  destruct (outage env InsertURL); [discriminate|].
  destruct (same_short_code _ _) eqn:Hc; [discriminate|].
  destruct (same_custom_alias _ _) eqn:Ha; [discriminate|].
  intros [= <- <-]; cbn [db with_urls urlshortener_table urlshortener_seq
                            urlclick_table log after_draws].
  do 4 (split; [reflexivity|]).
  destruct (with_domain_fields env (set_short_code (blank u a user) code))
    as (F1 & F2 & F3 & F4 & F5 & F6 & F7 & F8 & F9 & F10).
  unfold created; cbn [inserted id original_url custom_alias created_by short_code
                         click_count is_active is_public expires_at created_at
                         updated_at title description].
  rewrite F1, F2, F3, F4, F5, F6, F7, F8, F9, F10.
  rewrite same_short_code_with_domain in Hc.
  cbn [set_short_code blank original_url custom_alias created_by short_code
         click_count is_active is_public expires_at title description].
  repeat split; assumption.
Qed.

(** The link [objects.create] returns is a new row at the end of the
    table of links, and the only change: it has the next key, the URL,
    the alias and the user it was given, a short code of six letters or
    digits that no row had, an alias no row had, no clicks, no expiry,
    the instant of the request as its creation and last change, and it
    is active and public. *)
Theorem objects_create_row (env : Env) (u : string) (a : option string)
        (user : option nat) (w : World) (l : URLShortener) (w' : World) :
  objects_create env u a user w = (Return l, w') ->
  urlshortener_table (db w') = (urlshortener_table (db w) ++ [l])%list
  /\ urlclick_table (db w') = urlclick_table (db w)
  /\ created env u a user w l.
Proof.
  intros H; apply objects_create_spec in H as (H1 & _ & H2 & _ & H3); auto.
Qed.

Lemma objects_create_row_witness :
  urlshortener_table (db world_created) = [Fixture.link; created_link]
  /\ urlclick_table (db world_created) = []
  /\ created (Fixture.env Fixture.up) "https://example.com/new" None None
             (Fixture.world [Fixture.link]) created_link.
Proof.
  apply (objects_create_row (Fixture.env Fixture.up) "https://example.com/new"
           None None (Fixture.world [Fixture.link]) created_link world_created).
  vm_compute; reflexivity.
Defined.





(** ** The form, twice *)

Lemma untitled_assign (a : assignment) (r : URLShortener) :
  match a with SetClickCountF _ => True | _ => untitled (assign a r) = untitled r end.
Proof. destruct a; [exact I | |]; reflexivity. Qed.





Lemma first_none (rows : list URLShortener) : first rows = None -> rows = [].
Proof.
  destruct rows as [|r rows]; [reflexivity|]; cbn.
  destruct (first rows) as [r'|]; [destruct (_ <? _)%Z|]; discriminate.
Qed.





(** ** What the form can do to the tables *)




(** ** What a redirect can do to the tables *)

Lemma try_codes_db (env : Env) (k : nat) (w : World) :
  db (snd (try_codes env k 6 w)) = db w.
Proof.
  revert w; induction k as [|k IH]; intros w; [reflexivity|].
  cbn [try_codes]; unfold bind at 1.
  destruct (random_code_spec 6 w) as (code & Hcode & _).
  rewrite Hcode; unfold bind at 1; rewrite select_exists_spec.
  destruct (outage env SelectCodeExists); [reflexivity|].
  destruct (existsb _ _); cbn [negb]; [|reflexivity].
  rewrite IH; reflexivity.
Qed.

Lemma generate_short_code_db (env : Env) (self : URLShortener) (w : World) :
  db (snd (generate_short_code env self 6 w)) = db w.
Proof.
  unfold generate_short_code, bind.
  pose proof (try_codes_db env 100 w) as H.
  destruct (try_codes env 100 6 w) as [[[code|]|e] w']; exact H.
Qed.

Lemma save_update_frame (env : Env) (self : URLShortener)
      (a : list assignment) (w : World) :
  exists r w',
    save env self (Some a) w = (r, w')
    /\ urlclick_table (db w') = urlclick_table (db w)
    /\ (urlshortener_table (db w') = urlshortener_table (db w)
        \/ urlshortener_table (db w')
           = map (fun r => if has_pk (id self) r then assign_all a r else r)
                 (urlshortener_table (db w))).
Proof.
  assert (Hpre : exists r w1,
            (if negb (Py.truthy (short_code self))
             then bind (generate_short_code env self 6)
                       (fun code => ret (set_short_code self code))
             else ret self) w = (r, w1)
            /\ db w1 = db w
            /\ match r with Return s => id s = id self | Raise _ => True end).
  { destruct (negb _).
    - unfold bind. pose proof (generate_short_code_db env self w) as H.
      destruct (generate_short_code env self 6 w) as [[code|e] w1];
        do 2 eexists; (split; [reflexivity|]); split; auto; reflexivity.
    - do 2 eexists; split; [reflexivity|]; split; reflexivity. }
  destruct Hpre as (r & w1 & Heq & Hdb & Hr).
  remember (save env self (Some a) w) as X eqn:HX.
  unfold save, bind at 1 in HX. rewrite Heq in HX.
  destruct r as [s|e].
  2:{ subst X; do 2 eexists; split; [reflexivity|]; rewrite Hdb; auto. }
  fold (with_domain env s) in HX. unfold bind in HX.
  rewrite update_url_spec, with_domain_id, Hr in HX.
  destruct (outage env UpdateURL).
  { subst X; do 2 eexists; split; [reflexivity|]; rewrite Hdb; auto. }
  destruct (existsb (has_pk (id self)) (urlshortener_table (db w1))).
  2:{ subst X; do 2 eexists; split; [reflexivity|]; rewrite Hdb; auto. }
  subst X; do 2 eexists; split; [reflexivity|].
  cbn [db set_urls with_urls urlclick_table urlshortener_table].
  rewrite Hdb; auto.
Qed.

Lemma map_original_url_bump (pk : option nat) (rows : list URLShortener) :
  map original_url (map (bump pk) rows) = map original_url rows.
Proof.
  rewrite map_map; apply map_ext; intros r; apply original_url_bump.
Qed.

(** [RedirectView.get] always answers.  To the links it does nothing, or
    it adds one to the counter of the rows with one key; to the clicks
    it does nothing or adds one row.  When it redirects, it is to the
    original URL of a link of the table. *)
Theorem get_answers (env : Env) (request : Utils.HttpRequest) (key : string)
        (w : World) :
  exists response w',
    Views.get env request key w = (Return response, w')
    /\ get_frame w w'
    /\ match response with
       | Views.HttpResponseRedirect u =>
           In u (map original_url (urlshortener_table (db w)))
       | Views.render_error _ _ => True
       end.
Proof.
  unfold Views.get. set (handler := fun e : exn => _).
  assert (Hh : forall e w0, get_frame w w0 ->
            exists response w',
              handler e w0 = (Return response, w') /\ get_frame w w'
              /\ match response with
                 | Views.HttpResponseRedirect u =>
                     In u (map original_url (urlshortener_table (db w)))
                 | Views.render_error _ _ => True
                 end).
  { intros e w0 H0; subst handler.
    destruct e; do 2 eexists; (split; [reflexivity|]); split; try exact I;
      exact H0. }
  assert (H0 : get_frame w w) by (split; left; reflexivity).
  unfold try_except, bind at 1. rewrite select_first_spec.
  destruct (outage env SelectURLByKey); [apply Hh, H0|].
  destruct (first _) as [l|]; [|apply Hh, H0].
  destruct (is_expired env l).
  { do 2 eexists; split; [reflexivity|]; split; [exact H0 | exact I]. }
  unfold bind at 1.
  destruct (track_click_spec env request l w) as (w1 & -> & Htr).
  assert (H1 : urlshortener_table (db w1) = urlshortener_table (db w)
               /\ (urlclick_table (db w1) = urlclick_table (db w)
                   \/ exists c, urlclick_table (db w1)
                                = (urlclick_table (db w) ++ [c])%list)).
  { destruct Htr as (Ht & _ & _ & _ & Hc). split; [exact Ht|].
    destruct (tracked env request).
    - destruct Hc as [(c & Hc & _) _]; right; exists c; exact Hc.
    - destruct Hc as [Hc _]; left; exact Hc. }
  destruct H1 as [Ht1 Hc1].
  unfold bind at 1, increment_click_count, bind at 1.
  destruct (save_update_frame env l [SetClickCountF 1] w1)
    as (r2 & w2 & -> & Hcl & Hsave).
  assert (H2 : get_frame w w2).
  { split; [|rewrite Hcl; exact Hc1].
    destruct Hsave as [-> | ->]; [left; exact Ht1|].
    right; exists (id l); rewrite Ht1; reflexivity. }
  destruct r2 as [l2|e]; [|apply Hh, H2].
  rewrite refresh_from_db_spec.
  destruct (outage env SelectURLByPk); [apply Hh, H2|].
  destruct (find _ _) as [r|] eqn:Hfind; [|apply Hh, H2].
  do 2 eexists; split; [reflexivity|]; split; [exact H2|].
  apply find_some in Hfind as [Hin _].
  apply (in_map original_url) in Hin.
  destruct H2 as [[Ht | (pk & Ht)] _]; rewrite Ht in Hin;
    [|rewrite map_original_url_bump in Hin]; exact Hin.
Qed.

(** ** The rate limit *)

Section RateLimit.

Import RateLimitMiddleware.

Lemma cache_get_current (t : Z) (c : Cache) (key : string) :
  cache_get t c key 0 = current key t c.
Proof.
  unfold cache_get, current, entry.
  destruct (find _ c) as [[k [v e]]|]; reflexivity.
Qed.

Lemma entry_set (t : Z) (c : Cache) (key key' : string) (v : nat) (timeout : Z) :
  entry key (cache_set t c key' v timeout)
  = if String.eqb key' key then Some (v, (t + timeout)%Z) else entry key c.
Proof.
  unfold entry, cache_set; cbn [find fst].
  destruct (String.eqb key' key) eqn:E; [reflexivity|].
  f_equal. induction c as [|[k x] c IH]; [reflexivity|]; cbn [filter find fst].
  destruct (String.eqb k key') eqn:E'; cbn [negb].
  - apply String.eqb_eq in E'; subst k; rewrite E; exact IH.
  - cbn [find fst]; rewrite IH; reflexivity.
Qed.

Lemma process_request_rule (request : HttpRequest) :
  process_request request =
    match rule request with
    | Some (key, limit) => check_rate_limit request key limit 3600
    | None => fun s => (None, s)
    end.
Proof.
  unfold process_request, rule, check_api_rate_limit, check_form_rate_limit.
  destruct (_ || _); [reflexivity|].
  destruct (Py.startswith "/api/" _);
    [destruct (user_is_authenticated request); reflexivity|].
  destruct (String.eqb _ _); reflexivity.
Qed.

(** What serving a request does to the entry of [key]: nothing, and
    then the request was refused or does not count; or the request is
    let through and the entry is one more than the count, with a new
    hour to live. *)
Lemma process_request_entry (key : string) (bound : nat) (request : HttpRequest)
      (s : State) :
  (counts key bound request = true -> cache_works request = true) ->
  (entry key (cache (snd (process_request request s))) = entry key (cache s)
   /\ (counts key bound request = true ->
       fst (process_request request s) = Some rate_limit_exceeded))
  \/ (keyed key request = true
      /\ fst (process_request request s) = None
      /\ entry key (cache (snd (process_request request s)))
         = Some (current key (now request) (cache s) + 1, (now request + 3600)%Z)
      /\ (counts key bound request = true ->
          current key (now request) (cache s) < bound)).
Proof.
  intros Hup. rewrite process_request_rule.
  unfold counts, keyed, cache_works in *.
  destruct (rule request) as [[k limit]|]; [|left; split; [reflexivity | discriminate]].
  unfold check_rate_limit.
  destruct (String.eqb k key) eqn:Ek.
  - apply String.eqb_eq in Ek; subst k. cbn [andb] in *.
    destruct (get_raises request).
    { left; split; [reflexivity|]. intros H; specialize (Hup H); discriminate. }
    rewrite cache_get_current.
    destruct (limit <=? current key (now request) (cache s)) eqn:El.
    { left; split; reflexivity. }
    destruct (set_raises request).
    { left; split; [reflexivity|]. intros H; specialize (Hup H); discriminate. }
    right; cbn [fst snd cache]. rewrite entry_set, String.eqb_refl.
    repeat split. intros Hb; apply Nat.leb_le in Hb; apply Nat.leb_gt in El; lia.
  - left; split; [|discriminate].
    destruct (get_raises request); [reflexivity|].
    destruct (limit <=? cache_get (now request) (cache s) k 0); [reflexivity|].
    destruct (set_raises request); [reflexivity|].
    cbn [snd cache]; rewrite entry_set, Ek; reflexivity.
Qed.

Lemma current_live (key : string) (t e : Z) (c : Cache) (v : nat) :
  entry key c = Some (v, e) -> (t < e)%Z -> current key t c = v.
Proof.
  intros H Ht; unfold current; rewrite H.
  apply Z.ltb_lt in Ht; rewrite Ht; reflexivity.
Qed.

(** Once the entry lives to the end of the stretch, what is let through
    fits between the count and the bound. *)
Lemma let_through_live (key : string) (bound : nat) (a : Z)
      (requests : list HttpRequest) (s : State) (v : nat) (e : Z) :
  in_stretch key a requests = true -> cache_up key bound requests = true ->
  entry key (cache s) = Some (v, e) -> (a + 3600 <= e)%Z ->
  let_through key bound requests (fst (serve requests s)) + v <= Nat.max v bound.
Proof.
  revert s v e; induction requests as [|r rest IH]; intros s v e Hin Hup He Hlive.
  { cbn; lia. }
  cbn [in_stretch cache_up forallb] in Hin, Hup.
  apply andb_true_iff in Hin as [Hr Hin']; apply andb_true_iff in Hup as [Hw Hup'].
  fold (in_stretch key a rest) in Hin'; fold (cache_up key bound rest) in Hup'.
  assert (Hworks : counts key bound r = true -> cache_works r = true).
  { intros H; rewrite H in Hw; exact Hw. }
  assert (Htime : keyed key r = true -> (a <= now r < a + 3600)%Z).
  { intros H; rewrite H in Hr; cbn [negb orb] in Hr.
    apply andb_true_iff in Hr as [H1 H2]; apply Z.leb_le in H1; apply Z.ltb_lt in H2.
    lia. }
  cbn [serve].
  destruct (process_request_entry key bound r s Hworks)
    as [[Hsame Href] | (Hk & Hpass & Hnew & Hlt)];
    destruct (process_request r s) as [answer s1];
    destruct (serve rest s1) as [answers s2] eqn:Hs;
    cbn [fst snd let_through] in *.
  - rewrite <- Hsame in He.
    specialize (IH s1 v e Hin' Hup' He Hlive); rewrite Hs in IH; cbn [fst] in IH.
    destruct (counts key bound r); [rewrite (Href eq_refl)|]; lia.
  - destruct (Htime Hk) as [Ha Hb].
    rewrite (current_live _ _ _ _ _ He) in Hnew, Hlt by lia.
    assert (Hlive1 : (a + 3600 <= now r + 3600)%Z) by lia.
    specialize (IH s1 (v + 1) _ Hin' Hup' Hnew Hlive1).
    rewrite Hs in IH; cbn [fst] in IH. subst answer.
    destruct (counts key bound r); [specialize (Hlt eq_refl)|]; lia.
Qed.

(** The limit holds.  Of the requests that are checked under one key
    with a limit of at most [bound], and are served, while the cache
    works, in a stretch of less than 3600 seconds, at most [bound] are
    let through, whatever the cache held before and whatever other
    requests are served in between: 50 submissions of the form for an
    address, 100 requests of the API for an address without a user,
    1000 in all. *)
Theorem rate_limit_holds (key : string) (bound : nat) (a : Z)
        (requests : list HttpRequest) (s : State) :
  in_stretch key a requests = true -> cache_up key bound requests = true ->
  let_through key bound requests (fst (serve requests s)) <= bound.
Proof.
  revert s; induction requests as [|r rest IH]; intros s Hin Hup.
  { cbn; lia. }
  cbn [in_stretch cache_up forallb] in Hin, Hup.
  apply andb_true_iff in Hin as [Hr Hin']; apply andb_true_iff in Hup as [Hw Hup'].
  fold (in_stretch key a rest) in Hin'; fold (cache_up key bound rest) in Hup'.
  assert (Hworks : counts key bound r = true -> cache_works r = true).
  { intros H; rewrite H in Hw; exact Hw. }
  assert (Htime : keyed key r = true -> (a <= now r < a + 3600)%Z).
  { intros H; rewrite H in Hr; cbn [negb orb] in Hr.
    apply andb_true_iff in Hr as [H1 H2]; apply Z.leb_le in H1; apply Z.ltb_lt in H2.
    lia. }
  cbn [serve].
  destruct (process_request_entry key bound r s Hworks)
    as [[Hsame Href] | (Hk & Hpass & Hnew & Hlt)];
    destruct (process_request r s) as [answer s1];
    pose proof (IH s1 Hin' Hup') as IH1;
    destruct (serve rest s1) as [answers s2] eqn:Hs;
    cbn [fst snd let_through] in *.
  - destruct (counts key bound r); [rewrite (Href eq_refl)|]; lia.
  - destruct (Htime Hk) as [Ha Hb].
    assert (Hlive1 : (a + 3600 <= now r + 3600)%Z) by lia.
    pose proof (let_through_live key bound a rest s1 _ _ Hin' Hup' Hnew Hlive1)
      as Hl.
    rewrite Hs in Hl; cbn [fst] in Hl. subst answer.
    destruct (counts key bound r); [specialize (Hlt eq_refl)|]; lia.
Qed.

Lemma rate_limit_holds_witness :
  let_through "form_rate_limit:127.0.0.1" 50 (posts 60 0 10)
              (fst (serve (posts 60 0 10) empty_cache)) <= 50.
Proof.
  apply (rate_limit_holds "form_rate_limit:127.0.0.1" 50 0 (posts 60 0 10)
           empty_cache); reflexivity.
Defined.

(** Along a chain, every request is let through while the count is
    below the limit, and the count goes up by one each time. *)
Lemma serve_chain (key : string) (limit : nat) (requests : list HttpRequest)
      (s : State) (t : Z) (v : nat) :
  chained key limit t requests = true ->
  (forall t', (t' < t + 3600)%Z -> current key t' (cache s) = v) ->
  v + List.length requests <= limit ->
  fst (serve requests s) = repeat None (List.length requests)
  /\ forall r, chained key limit
                 (match requests with [] => t | _ => now (last requests r) end)
                 [r] = true ->
               current key (now r) (cache (snd (serve requests s)))
               = v + List.length requests.
Proof.
  revert s t v; induction requests as [|r rest IH]; intros s t v Hch Hv Hlen.
  { cbn; split; [reflexivity|]. intros r Hr. rewrite Nat.add_0_r.
    cbn [chained] in Hr. apply andb_true_iff in Hr as [Hr _].
    apply andb_true_iff in Hr as [_ Hr]. apply Z.ltb_lt in Hr. apply Hv, Hr. }
  cbn [chained] in Hch.
  apply andb_true_iff in Hch as [Hch Hrest]; apply andb_true_iff in Hch as [Hch Ht].
  apply andb_true_iff in Hch as [Hrule Hw]. apply Z.ltb_lt in Ht.
  cbn [List.length] in Hlen.
  cbn [serve]. rewrite process_request_rule.
  destruct (rule r) as [[k l]|]; [|discriminate].
  apply andb_true_iff in Hrule as [Hk Hl].
  apply String.eqb_eq in Hk; apply Nat.eqb_eq in Hl; subst k l.
  unfold cache_works in Hw. unfold check_rate_limit.
  destruct (get_raises r); [discriminate|].
  destruct (set_raises r); [discriminate|].
  rewrite cache_get_current, (Hv _ Ht).
  assert ((limit <=? v) = false) as -> by (apply Nat.leb_gt; lia).
  set (s1 := {| cache := _; log := _ |}).
  assert (Hv1 : forall t', (t' < now r + 3600)%Z -> current key t' (cache s1) = v + 1).
  { intros t' Ht'. unfold current, s1; cbn [cache].
    rewrite entry_set, String.eqb_refl.
    apply Z.ltb_lt in Ht'; rewrite Ht'; reflexivity. }
  assert (Hlen1 : v + 1 + List.length rest <= limit) by lia.
  destruct (IH s1 (now r) (v + 1) Hrest Hv1 Hlen1) as [Hans Hcur].
  destruct (serve rest s1) as [answers s2]; cbn [fst snd] in *.
  split; [rewrite Hans; reflexivity|].
  intros r' Hr'.
  replace (v + List.length (r :: rest)) with (v + 1 + List.length rest)
    by (cbn [List.length]; lia).
  apply Hcur. destruct rest as [|r2 rest]; exact Hr'.
Qed.

(** The limit is not one per hour.  From a cache without the key, when
    each request checked under the key comes less than 3600 seconds
    after the one before, the first [limit] are let through and the
    next one is refused, however long the chain took: fifty submissions
    of the form, one every 59 minutes, use up the allowance. *)
Theorem limit_reached_by_chain (key : string) (limit : nat)
        (requests : list HttpRequest) (next : HttpRequest) (s : State) (t : Z) :
  entry key (cache s) = None ->
  List.length requests = limit ->
  chained key limit t (requests ++ [next])%list = true ->
  fst (serve (requests ++ [next])%list s)
  = (repeat None limit ++ [Some rate_limit_exceeded])%list.
Proof.
  intros Hnone Hlen Hch.
  assert (Hsplit : chained key limit t requests = true
                   /\ chained key limit
                        (match requests with [] => t | _ => now (last requests next) end)
                        [next] = true).
  { clear Hlen Hnone. revert t Hch; induction requests as [|r rest IH]; intros t Hch.
    - split; [reflexivity | exact Hch].
    - cbn [app chained] in Hch |- *.
      apply andb_true_iff in Hch as [Hhead Hrest].
      destruct (IH _ Hrest) as [H1 H2]. rewrite Hhead, H1; split; [reflexivity|].
      destruct rest as [|r2 rest]; exact H2. }
  destruct Hsplit as [Hreq Hnext].
  destruct (serve_chain key limit requests s t 0 Hreq) as [Hans Hcur].
  { intros t' _; unfold current; rewrite Hnone; reflexivity. }
  { lia. }
  specialize (Hcur next Hnext).
  assert (Happ : forall l1 l2 s0,
             fst (serve (l1 ++ l2)%list s0)
             = (fst (serve l1 s0) ++ fst (serve l2 (snd (serve l1 s0))))%list).
  { induction l1 as [|x l1 IH1]; intros l2 s0; [reflexivity|].
    cbn [app serve]. destruct (process_request x s0) as [ans s1].
    specialize (IH1 l2 s1).
    destruct (serve (l1 ++ l2)%list s1) as [a1 b1].
    destruct (serve l1 s1) as [a2 b2]. cbn [fst snd] in *.
    rewrite IH1; reflexivity. }
  rewrite Happ, Hans, Hlen. f_equal.
  cbn [serve]. rewrite process_request_rule.
  cbn [chained] in Hnext.
  apply andb_true_iff in Hnext as [Hn _]; apply andb_true_iff in Hn as [Hn _].
  apply andb_true_iff in Hn as [Hrule Hw].
  destruct (rule next) as [[k l]|]; [|discriminate].
  apply andb_true_iff in Hrule as [Hk Hl].
  apply String.eqb_eq in Hk; apply Nat.eqb_eq in Hl; subst k l.
  unfold cache_works in Hw. unfold check_rate_limit.
  destruct (get_raises next); [discriminate|].
  rewrite cache_get_current, Hcur, Hlen, Nat.add_0_l, Nat.leb_refl.
  reflexivity.
Qed.

Lemma limit_reached_by_chain_witness :
  fst (serve (posts 50 0 3540 ++ [form_post 177000])%list empty_cache)
  = (repeat None 50 ++ [Some rate_limit_exceeded])%list.
Proof.
  apply (limit_reached_by_chain "form_rate_limit:127.0.0.1" 50 (posts 50 0 3540)
           (form_post 177000) empty_cache 0); reflexivity.
Defined.

End RateLimit.

(** ** Querysets *)

Section Querysets.

Context {A : Type} (key : A -> Z).

Lemma insert_desc_perm (x : A) (l : list A) :
  Permutation (Orm.insert_desc key x l) (x :: l).
Proof.
  induction l as [|y l IH]; cbn [Orm.insert_desc]; [reflexivity|].
  destruct (_ <=? _)%Z; [reflexivity|].
  rewrite IH; apply perm_swap.
Qed.

Lemma order_by_desc_perm (rows : list A) :
  Permutation (Orm.order_by_desc key rows) rows.
Proof.
  induction rows as [|x rows IH]; [constructor|].
  unfold Orm.order_by_desc in *; cbn [fold_right].
  rewrite insert_desc_perm; constructor; exact IH.
Qed.

Lemma insert_desc_sorted (x : A) (l : list A) :
  newest_first key l -> newest_first key (Orm.insert_desc key x l).
Proof.
  unfold newest_first; induction l as [|y l IH]; intros H; cbn [Orm.insert_desc].
  - constructor; constructor.
  - destruct (key y <=? key x)%Z eqn:E.
    + apply Z.leb_le in E. constructor; [exact H|].
      constructor; [exact E|].
      inversion H as [|? ? _ Hall]; subst.
      eapply Forall_impl; [|exact Hall]; cbn; intros; lia.
    + apply Z.leb_gt in E. inversion H as [|? ? Hs Hall]; subst.
      constructor; [apply IH; exact Hs|].
      apply Forall_forall; intros b Hb.
      apply (Permutation_in _ (insert_desc_perm x l)) in Hb.
      destruct Hb as [<-|Hb]; [lia|].
      rewrite Forall_forall in Hall; apply Hall, Hb.
Qed.

Lemma order_by_desc_sorted (rows : list A) :
  newest_first key (Orm.order_by_desc key rows).
Proof.
  induction rows as [|x rows IH]; [constructor|].
  unfold Orm.order_by_desc in *; cbn [fold_right].
  apply insert_desc_sorted, IH.
Qed.

Lemma newest_first_app (l1 l2 : list A) :
  newest_first key (l1 ++ l2) ->
  newest_first key l1
  /\ forall a b, In a l1 -> In b l2 -> (key b <= key a)%Z.
Proof.
  unfold newest_first; induction l1 as [|x l1 IH]; cbn [app]; intros H.
  - split; [constructor | intros a b []].
  - inversion H as [|? ? Hs Hall]; subst.
    destruct (IH Hs) as [H1 H2]. rewrite Forall_forall in Hall.
    split.
    + constructor; [exact H1|].
      apply Forall_forall; intros b Hb; apply Hall, in_or_app; left; exact Hb.
    + intros a b [<-|Ha] Hb; [apply Hall, in_or_app; right; exact Hb|].
      apply H2; assumption.
Qed.

(** The first [n] rows by [key]. *)
Lemma firstn_newest (n : nat) (rows : list A) :
  newest_of key n rows (firstn n (Orm.order_by_desc key rows))
            (skipn n (Orm.order_by_desc key rows)).
Proof.
  pose proof (order_by_desc_perm rows) as Hp.
  pose proof (order_by_desc_sorted rows) as Hs.
  rewrite <- (firstn_skipn n (Orm.order_by_desc key rows)) in Hs.
  apply newest_first_app in Hs as [H1 H2].
  unfold newest_of; repeat split.
  - rewrite length_firstn, (Permutation_length Hp); reflexivity.
  - exact H1.
  - rewrite firstn_skipn; exact Hp.
  - exact H2.
Qed.

(** The first row of a descending order is the largest. *)
Lemma hd_order_by_desc (rows : list A) :
  match hd_error (Orm.order_by_desc key rows) with
  | Some x => In x rows /\ forall y, In y rows -> (key y <= key x)%Z
  | None => rows = []
  end.
Proof.
  pose proof (order_by_desc_perm rows) as Hp.
  pose proof (order_by_desc_sorted rows) as Hs.
  destruct (Orm.order_by_desc key rows) as [|x l]; cbn [hd_error].
  - apply Permutation_nil in Hp; exact Hp.
  - split; [apply (Permutation_in _ Hp); left; reflexivity|].
    intros y Hy. apply (Permutation_in _ (Permutation_sym Hp)) in Hy.
    inversion Hs as [|? ? _ Hall]; subst. rewrite Forall_forall in Hall.
    destruct Hy as [<-|Hy]; [lia | apply Hall, Hy].
Qed.

End Querysets.

Lemma list_sum_perm (l l' : list nat) :
  Permutation l l' -> list_sum l = list_sum l'.
Proof.
  induction 1; unfold list_sum in *; cbn [fold_right]; lia.
Qed.

Lemma add_count_sum {K : Type} (eqb : K -> K -> bool) (k : K)
      (groups : list (K * nat)) :
  list_sum (map snd (Orm.add_count eqb k groups))
  = S (list_sum (map snd groups)).
Proof.
  induction groups as [|[k' n] groups IH]; cbn [Orm.add_count]; [reflexivity|].
  destruct (eqb k' k); cbn [map snd]; [reflexivity|].
  unfold list_sum in *; cbn [fold_right]; rewrite IH; lia.
Qed.

(** Every row is counted in one group. *)
Lemma values_count_sum {K : Type} (eqb : K -> K -> bool) (keys : list K) :
  list_sum (map snd (Orm.values_count eqb keys)) = List.length keys.
Proof.
  unfold Orm.values_count.
  enough (H : forall acc,
             list_sum (map snd (fold_left (fun groups k => Orm.add_count eqb k groups)
                                          keys acc))
             = List.length keys + list_sum (map snd acc))
    by (rewrite H; cbn; lia).
  induction keys as [|k keys IH]; intros acc; cbn [fold_left List.length];
    [reflexivity|].
  rewrite IH, add_count_sum; lia.
Qed.

(** ** The dashboard *)

(** [DashboardView.get] only reads.  It lists the fifty newest links in
    service, newest first, and counts all the links in service; the
    clicks it adds up are those of the links it lists, so that the
    clicks of the links left out are missing from the total. *)
Theorem dashboard_get (site : Analytics.Site) (w : World) :
  match Dashboard.get site w with
  | (Return c, w') =>
      w' = w
      /\ Dashboard.total_urls c = List.length (active_links w)
      /\ exists rest,
           newest_of created_at 50 (active_links w) (Dashboard.recent_urls c) rest
           /\ Dashboard.total_clicks c + list_sum (map click_count rest)
              = list_sum (map click_count (active_links w))
  | (Raise _, w') => w' = w
  end.
Proof.
  cbv [Dashboard.get Analytics.query bind ret raise get_db].
  destruct (Analytics.fails site Analytics.CountActiveURLs); [reflexivity|].
  destruct (Analytics.fails site Analytics.SelectRecentURLs); [reflexivity|].
  cbn [Dashboard.total_urls Dashboard.recent_urls Dashboard.total_clicks].
  fold (active_links w).
  split; [reflexivity|]; split; [reflexivity|].
  exists (skipn 50 (Orm.order_by_desc created_at (active_links w))).
  split; [apply firstn_newest|].
  rewrite <- list_sum_app, <- map_app, firstn_skipn.
  apply list_sum_perm, Permutation_map, order_by_desc_perm.
Qed.

(** ** The analytics of a link *)

Lemma filter_length_le {A : Type} (p q : A -> bool) (l : list A) :
  (forall x, p x = true -> q x = true) ->
  List.length (filter p l) <= List.length (filter q l).
Proof.
  intros H; induction l as [|x l IH]; [reflexivity|]; cbn [filter].
  destruct (p x) eqn:E.
  - rewrite (H x E); cbn [List.length]; lia.
  - destruct (q x); cbn [List.length]; lia.
Qed.

Lemma since_longer (site : Analytics.Site) (c : URLClick) :
  Analytics.since site 7 c = true -> Analytics.since site 30 c = true.
Proof.
  unfold Analytics.since, Analytics.timedelta; intros H.
  apply Z.leb_le in H; apply Z.leb_le; lia.
Qed.

Lemma get_analytics_data_spec (site : Analytics.Site) (self : URLShortener)
      (w : World) :
  match Analytics.get_analytics_data site self w with
  | (Return data, w') =>
      w' = w
      /\ Analytics.total_clicks data = click_count self
      /\ Analytics.clicks_this_week data <= Analytics.clicks_this_month data
      /\ Analytics.clicks_this_month data
         = List.length (filter (fun c => Analytics.of_url self c
                                         && Analytics.since site 30 c)
                               (urlclick_table (db w)))
      /\ Analytics.clicks_this_month data <= List.length (clicks_of (id self) w)
      /\ Analytics.clicks_today data <= List.length (clicks_of (id self) w)
      /\ last_of self w (Analytics.last_clicked data)
  | (Raise _, w') => w' = w
  end.
Proof.
  cbv [Analytics.get_analytics_data Analytics.query bind ret raise get_db].
  destruct (Analytics.fails site Analytics.CountClicksToday); [reflexivity|].
  destruct (Analytics.fails site Analytics.CountClicksThisWeek); [reflexivity|].
  destruct (Analytics.fails site Analytics.CountClicksThisMonth); [reflexivity|].
  destruct (Analytics.fails site Analytics.SelectLastClick); [reflexivity|].
  cbn [Analytics.total_clicks Analytics.clicks_this_week Analytics.clicks_this_month
       Analytics.clicks_today Analytics.last_clicked].
  unfold clicks_of.
  repeat split.
  - apply filter_length_le; intros c Hc.
    apply andb_true_iff in Hc as [H1 H2]; rewrite H1; apply since_longer, H2.
  - apply filter_length_le; intros c Hc; apply andb_true_iff in Hc as [H1 _]; exact H1.
  - apply filter_length_le; intros c Hc; apply andb_true_iff in Hc as [H1 _]; exact H1.
  - unfold last_of, clicks_of.
    pose proof (hd_order_by_desc click_created_at
                  (filter (Analytics.of_url self) (urlclick_table (db w)))) as H.
    destruct (hd_error _); exact H.
Qed.

(** [get_analytics_data] only reads.  The clicks of the week are at
    most those of the month, which are at most the recorded clicks of
    the link, as are those of today; [last_clicked] is a recorded click
    of the link than which none is later, and there is none only when
    the link has no recorded click.  [total_clicks] is the counter of
    the link, whatever number of clicks is recorded. *)
Theorem get_analytics_data_counts (site : Analytics.Site) (self : URLShortener)
        (w : World) :
  match Analytics.get_analytics_data site self w with
  | (Return data, w') =>
      w' = w
      /\ Analytics.total_clicks data = click_count self
      /\ Analytics.clicks_this_week data <= Analytics.clicks_this_month data
      /\ Analytics.clicks_this_month data <= List.length (clicks_of (id self) w)
      /\ Analytics.clicks_today data <= List.length (clicks_of (id self) w)
      /\ last_of self w (Analytics.last_clicked data)
  | (Raise _, w') => w' = w
  end.
Proof.
  pose proof (get_analytics_data_spec site self w) as H.
  destruct (Analytics.get_analytics_data site self w) as [[data|e] w']; [|exact H].
  destruct H as (H1 & H2 & H3 & _ & H4 & H5 & H6); auto 10.
Qed.

Lemma no_place_no_country (l : URLShortener) (clicks : list URLClick) :
  Forall no_place clicks ->
  filter (fun c => Analytics.of_url l c && negb (String.eqb (country c) ""))
         clicks = [].
Proof.
  induction 1 as [|c clicks [Hc _] _ IH]; [reflexivity|]; cbn [filter].
  rewrite Hc, andb_false_r; exact IH.
Qed.

Lemma by_count_desc_sum {K : Type} (groups : list (K * nat)) :
  list_sum (map snd (Analytics.by_count_desc groups)) = list_sum (map snd groups).
Proof.
  apply list_sum_perm, Permutation_map, order_by_desc_perm.
Qed.

Lemma order_by_asc_perm {A : Type} (key : A -> Z) (rows : list A) :
  Permutation (Orm.order_by_asc key rows) rows.
Proof.
  induction rows as [|x rows IH]; [constructor|].
  unfold Orm.order_by_asc in *; cbn [fold_right].
  transitivity (x :: fold_right (Orm.insert_asc key) [] rows);
    [|constructor; exact IH].
  generalize (fold_right (Orm.insert_asc key) [] rows) as l; clear.
  induction l as [|y l IH]; cbn [Orm.insert_asc]; [reflexivity|].
  destruct (_ <=? _)%Z; [reflexivity|].
  rewrite IH; apply perm_swap.
Qed.

Lemma get_click_analytics_spec (site : Analytics.Site) (l : URLShortener)
      (w : World) :
  match Analytics.get_click_analytics site l w with
  | (Return cd, w') => w' = w /\ charts_of site l w cd
  | (Raise _, w') => w' = w
  end.
Proof.
  cbv [Analytics.get_click_analytics Analytics.query bind ret raise get_db].
  destruct (Analytics.fails site Analytics.SelectDailyClicks); [reflexivity|].
  destruct (Analytics.fails site Analytics.SelectDeviceClicks); [reflexivity|].
  destruct (Analytics.fails site Analytics.SelectBrowserClicks); [reflexivity|].
  destruct (Analytics.fails site Analytics.SelectCountryClicks); [reflexivity|].
  split; [reflexivity|].
  unfold charts_of, clicks_of, clicks_of_month;
    cbn [Analytics.device_clicks Analytics.daily_clicks Analytics.country_clicks].
  repeat split.
  - rewrite by_count_desc_sum, values_count_sum, length_map; reflexivity.
  - rewrite (list_sum_perm _ _ (Permutation_map snd (order_by_asc_perm fst _))),
      values_count_sum, length_map; reflexivity.
  - intros H; rewrite (no_place_no_country l _ H); reflexivity.
Qed.

(** [AnalyticsView.get] always answers, and only reads the database.
    It never answers with a redirect: no route has the name [login].
    The page of analytics it renders is that of a link in service of
    the key which is public or was created by the viewer, with that
    link's clicks of the month and charts of that link's clicks. *)
Theorem analytics_view_access (site : Analytics.Site) (user : option nat)
        (key : string) (w : World) :
  match Analytics.get site user key w with
  | (Return (Analytics.render_analytics c), w') => w' = w /\ shows site user key w c
  | (Return (Analytics.render_error _ _), w') => db w' = db w
  | (Return (Analytics.redirect _), _) | (Raise _, _) => False
  end.
Proof.
  unfold Analytics.get.
  set (handler := fun e : exn => _).
  assert (Hh : forall e,
            match handler e w with
            | (Return (Analytics.render_analytics c), w') =>
                w' = w /\ shows site user key w c
            | (Return (Analytics.render_error _ _), w') => db w' = db w
            | (Return (Analytics.redirect _), _) | (Raise _, _) => False
            end).
  { intros e; subst handler; destruct e; reflexivity. }
  unfold try_except, bind at 1. rewrite select_first_spec.
  destruct (outage (Analytics.env site) SelectURLByKey);
    [first [apply Hh | reflexivity]|].
  destruct (first _) as [l|] eqn:Hl; [|first [apply Hh | reflexivity]].
  apply first_filter in Hl as [Hin Hkey].
  destruct (negb (is_public l) && Analytics.other_than_creator (created_by l) user)
    eqn:Hperm.
  { destruct user as [u|]; [first [apply Hh | reflexivity] | reflexivity]. }
  assert (Hp : permitted user l).
  { unfold permitted, Analytics.other_than_creator in *.
    destruct (is_public l); [left; reflexivity|]; right.
    destruct (created_by l) as [a|]; [|discriminate].
    destruct user as [b|]; [|discriminate].
    cbn [negb andb] in Hperm. apply negb_false_iff, Nat.eqb_eq in Hperm; subst b.
    exists a; split; reflexivity. }
  unfold bind at 1.
  pose proof (get_analytics_data_spec site l w) as Hd.
  destruct (Analytics.get_analytics_data site l w) as [[data|e] w1];
    [|subst w1; first [apply Hh | reflexivity]].
  destruct Hd as (-> & _ & _ & Hmonth & _).
  unfold bind at 1.
  pose proof (get_click_analytics_spec site l w) as Hc.
  destruct (Analytics.get_click_analytics site l w) as [[cd|e] w1];
    [|subst w1; first [apply Hh | reflexivity]].
  destruct Hc as [-> Hcharts].
  cbv [Analytics.query bind ret raise get_db].
  destruct (Analytics.fails site Analytics.SelectRecentClicks);
    [first [apply Hh | reflexivity]|].
  split; [reflexivity|].
  unfold shows;
    cbn [Analytics.url_obj Analytics.analytics Analytics.recent_clicks Analytics.clicks].
  split; [exact Hin|]. split; [exact Hkey|]. split; [exact Hp|].
  split; [exact Hmonth|].
  split; [eexists; apply firstn_newest | exact Hcharts].
Qed.

(** A private link is shown to nobody but its creator.  Who is not
    logged in is not sent to the login page, as no route has the name
    [login]: the answer is the page of errors, and the error is logged.
    Who is logged in and has not created the link is told that the
    analytics were not found. *)
Theorem analytics_private_link (site : Analytics.Site) (key : string)
        (w : World) (l : URLShortener) :
  outage (Analytics.env site) SelectURLByKey = false ->
  first (filter (matches_key key) (urlshortener_table (db w))) = Some l ->
  is_public l = false ->
  Analytics.get site None key w
  = (Return (Analytics.render_error
               "Error" "An error occurred while loading the analytics."),
     logged w ERROR
       ("Error displaying analytics for " ++ key
        ++ ": Reverse for 'login' not found. 'login' is not a valid view function or pattern name."))
  /\ forall u, created_by l <> Some u ->
               Analytics.get site (Some u) key w
               = (Return Analytics.analytics_not_found, w).
Proof.
  intros Hup Hl Hprivate; split; [|intros u Hu];
    unfold Analytics.get, try_except, bind at 1;
    rewrite select_first_spec, Hup, Hl, Hprivate; cbn [negb andb];
    unfold Analytics.other_than_creator.
  - destruct (created_by l); reflexivity.
  - destruct (created_by l) as [a|]; [|reflexivity].
    destruct (Nat.eqb_spec a u) as [->|]; [contradiction Hu; reflexivity | reflexivity].
Qed.

Lemma analytics_private_link_witness :
  Analytics.get site_up None "abc123" (Fixture.world [private_link])
  = (Return (Analytics.render_error
               "Error" "An error occurred while loading the analytics."),
     logged (Fixture.world [private_link]) ERROR
       ("Error displaying analytics for " ++ "abc123"
        ++ ": Reverse for 'login' not found. 'login' is not a valid view function or pattern name.")).
Proof.
  apply (analytics_private_link site_up "abc123" (Fixture.world [private_link])
           private_link); reflexivity.
Defined.

(** ** Bulk submissions *)

Lemma objects_create_raises (env : Env) (u : string) (a : option string)
      (user : option nat) (w w' : World) (e : exn) :
  objects_create env u a user w = (Raise e, w') ->
  db w' = db w /\ exists m, e = DatabaseError m \/ e = IntegrityError m.
Proof.
  rewrite objects_create_eq.
  pose proof (generate_short_code_db env (blank u a user) w) as Hg.
  pose proof (generate_short_code_draws env (blank u a user) w) as Hd.
  destruct (generate_short_code env (blank u a user) 6 w) as [[code|e'] w1];
    cbn [snd] in Hg.
  - rewrite insert_url_spec by (rewrite with_domain_id; reflexivity).
    rewrite <- Hg; unfold unavailable.
    destruct (outage env InsertURL); [intros [= <- <-]; eauto|].
    destruct (same_short_code _ _); [intros [= <- <-]; eauto|].
    destruct (same_custom_alias _ _); [intros [= <- <-]; eauto | discriminate].
  - destruct Hd as [_ ->]; intros [= <- <-]; eauto.
Qed.

(** One line of a bulk submission. *)
Lemma shorten_spec (env : Env) (user : option nat) (u : string) (w : World) :
  exists r w' added,
    Bulk.shorten env user u w = (Return r, w')
    /\ Bulk.original r = u
    /\ urlclick_table (db w') = urlclick_table (db w)
    /\ urlshortener_table (db w') = (urlshortener_table (db w) ++ added)%list
    /\ answered env (urlshortener_table (db w')) r
    /\ Forall (asked env [r]) added
    /\ (added = [] \/ exists l, added = [l] /\ novel (urlshortener_table (db w)) l).
Proof.
  unfold Bulk.shorten.
  set (handler := fun e : exn => _).
  unfold try_except, bind at 1, lift.
  pose proof (validate_url_normal_form (urllib env) u) as Hv.
  destruct (Utils.validate_url (urllib env) u) as [n|e] eqn:Hvalid.
  2:{ destruct Hv as [_ [m ->]]. subst handler; cbv [ret].
      do 2 eexists; exists []; split; [reflexivity|].
      rewrite app_nil_r; repeat split; [|constructor|left; reflexivity].
      unfold answered; cbn [Bulk.original]; rewrite Hvalid; repeat split. }
  clear Hv.
  destruct (Utils.is_safe_url (urllib env) n) eqn:Hsafe.
  2:{ cbv [ret]. do 2 eexists; exists []; split; [reflexivity|].
      rewrite app_nil_r; repeat split; [|constructor|left; reflexivity].
      unfold answered; cbn [Bulk.original]; rewrite Hvalid, Hsafe; repeat split. }
  assert (Herr : forall e w0,
             db w0 = db w -> (exists m, e = DatabaseError m \/ e = IntegrityError m) ->
             exists r w' added,
               handler e w0 = (Return r, w')
               /\ Bulk.original r = u
               /\ urlclick_table (db w') = urlclick_table (db w)
               /\ urlshortener_table (db w')
                  = (urlshortener_table (db w) ++ added)%list
               /\ answered env (urlshortener_table (db w')) r
               /\ Forall (asked env [r]) added
               /\ (added = []
                   \/ exists l, added = [l] /\ novel (urlshortener_table (db w)) l)).
  { intros e w0 H0 [m [-> | ->]]; subst handler; cbv [ret];
      do 2 eexists; exists []; (split; [reflexivity|]); rewrite app_nil_r, H0;
      (repeat split; [|constructor|left; reflexivity]);
      unfold answered; cbn [Bulk.original]; rewrite Hvalid, Hsafe;
      right; repeat split. }
  unfold bind at 1. rewrite select_first_spec.
  destruct (outage env SelectExisting); [apply Herr; eauto|].
  destruct (first _) as [existing|] eqn:Hex.
  - apply first_filter in Hex as [Hin Hm].
    unfold Bulk.matches_url in Hm; apply andb_true_iff in Hm as [Hurl Hact].
    apply String.eqb_eq in Hurl.
    cbv [bind ret]. do 2 eexists; exists []; split; [reflexivity|].
    rewrite app_nil_r; repeat split; [|constructor|left; reflexivity].
    unfold answered; cbn [Bulk.original Bulk.status Bulk.error Bulk.shortened].
    rewrite Hvalid, Hsafe; left; repeat split. exists existing; auto.
  - apply first_none in Hex.
    unfold bind at 1, bind at 1.
    destruct (objects_create env n None user w) as [[l|e] w1] eqn:Hc.
    + apply objects_create_spec in Hc as (Ht & _ & Hcl & _ & Hl).
      destruct Hl as (_ & Hu & _ & _ & _ & _ & _ & _ & _ & Hact & _).
      cbv [ret]. do 2 eexists; exists [l]; split; [reflexivity|].
      split; [reflexivity|]. split; [exact Hcl|]. split; [exact Ht|].
      split; [|split].
      * unfold answered; cbn [Bulk.original Bulk.status Bulk.error Bulk.shortened].
        rewrite Hvalid, Hsafe; left; repeat split.
        exists l; rewrite Ht; repeat split; auto.
        apply in_or_app; right; left; reflexivity.
      * constructor; [|constructor]. eexists; split; [left; reflexivity|].
        cbn [Bulk.original Bulk.status Bulk.shortened].
        rewrite Hvalid, Hu; repeat split.
      * right; exists l; split; [reflexivity|].
        split; [exact Hact | rewrite Hu; exact Hex].
    + apply objects_create_raises in Hc as [Hdb He]. apply Herr; assumption.
Qed.

Lemma answered_more (env : Env) (rows added : list URLShortener) (r : Bulk.result) :
  answered env rows r -> answered env (rows ++ added)%list r.
Proof.
  unfold answered.
  destruct (Utils.validate_url _ _) as [n|e]; [|exact (fun H => H)].
  destruct (Utils.is_safe_url _ n); [|exact (fun H => H)].
  intros [(H1 & H2 & l & Hin & H3) | H]; [left | right; exact H].
  repeat split; try assumption.
  exists l; split; [apply in_or_app; left; exact Hin | exact H3].
Qed.

Lemma asked_more (env : Env) (results results' : list Bulk.result)
      (l : URLShortener) :
  (forall r, In r results -> In r results') ->
  asked env results l -> asked env results' l.
Proof.
  intros Hsub (r & Hin & H); exists r; split; [apply Hsub, Hin | exact H].
Qed.

(** The loop over the lines. *)
Lemma shorten_all_spec (env : Env) (user : option nat) (urls : list string)
      (w : World) :
  exists results w' added,
    Bulk.shorten_all env user urls w = (Return results, w')
    /\ map Bulk.original results = urls
    /\ urlclick_table (db w') = urlclick_table (db w)
    /\ urlshortener_table (db w') = (urlshortener_table (db w) ++ added)%list
    /\ Forall (answered env (urlshortener_table (db w'))) results
    /\ Forall (asked env results) added
    /\ Forall (novel (urlshortener_table (db w))) added
    /\ NoDup (map original_url added).
Proof.
  revert w; induction urls as [|u urls IH]; intros w.
  { exists [], w, []; cbn [Bulk.shorten_all]; unfold ret.
    rewrite app_nil_r; repeat split; constructor. }
  cbn [Bulk.shorten_all]; unfold bind at 1.
  destruct (shorten_spec env user u w)
    as (r & w1 & added1 & -> & Hr & Hcl1 & Ht1 & Ha1 & Hk1 & Hn1).
  destruct (IH w1)
    as (results & w2 & added2 & Hall & Hm & Hcl2 & Ht2 & Ha2 & Hk2 & Hn2 & Hd2).
  unfold bind at 1; rewrite Hall; unfold ret.
  exists (r :: results), w2, (added1 ++ added2)%list.
  split; [reflexivity|]. split; [cbn [map]; congruence|].
  split; [congruence|]. split; [rewrite Ht2, Ht1, app_assoc; reflexivity|].
  split; [|split; [|split]].
  - constructor; [|exact Ha2]. rewrite Ht2; apply answered_more, Ha1.
  - apply Forall_app; split.
    + eapply Forall_impl; [|exact Hk1]; intros l.
      apply asked_more; intros x [<-|[]]; left; reflexivity.
    + eapply Forall_impl; [|exact Hk2]; intros l.
      apply asked_more; intros x Hx; right; exact Hx.
  - rewrite Ht1 in Hn2.
    assert (Hn2' : Forall (novel (urlshortener_table (db w))) added2).
    { eapply Forall_impl; [|exact Hn2]; intros l [H1 H2]; split; [exact H1|].
      rewrite filter_app in H2; apply app_eq_nil in H2 as [H2 _]; exact H2. }
    apply Forall_app; split; [|exact Hn2'].
    destruct Hn1 as [-> | (l & -> & Hl)]; constructor; [exact Hl | constructor].
  - destruct Hn1 as [-> | (l & -> & Hact & _)]; [exact Hd2|].
    cbn [app map]; constructor; [|exact Hd2].
    intros Hin; apply in_map_iff in Hin as (l2 & Hurl & Hin).
    rewrite Forall_forall in Hn2; destruct (Hn2 l2 Hin) as [_ H2].
    rewrite Ht1, filter_app in H2; apply app_eq_nil in H2 as [_ H2].
    cbn [filter] in H2; unfold Bulk.matches_url in H2.
    rewrite Hurl, String.eqb_refl, Hact in H2; discriminate.
Qed.


(** A bulk submission makes no second link for a URL: the links it
    adds are in service, none for a URL that a link in service had
    before, and no two of them for the same URL, however often the URL
    occurs in the text. *)
Theorem bulk_post_no_second_link (env : Env) (user : option nat)
        (urls_text : string) (w : World) :
  exists added,
    urlshortener_table (db (snd (Bulk.post env user urls_text w)))
    = (urlshortener_table (db w) ++ added)%list
    /\ Forall (novel (urlshortener_table (db w))) added
    /\ NoDup (map original_url added).
Proof.
  unfold Bulk.post.
  destruct (shorten_all_spec env user
              (filter Py.truthy (map Py.strip (Pystr.split Py.LF urls_text))) w)
    as (results & w' & added & H & _ & _ & Ht & _ & _ & Hn & Hd).
  exists added; rewrite H; auto.
Qed.

(** The page of [Fixture.link] after its three clicks: the clicks the
    last first, two devices that add up to three. *)
Lemma analytics_page_clicked :
  Analytics.get site_up None "abc123" world_clicked
  = (Return (Analytics.render_analytics page_clicked), world_clicked)
  /\ Analytics.device_clicks (Analytics.clicks page_clicked)
     = [("mobile", 2); ("desktop", 1)].
Proof. split; vm_compute; reflexivity. Qed.
